(** * js-peer-mcp: the state-coordination layer and the command surface

    A shallow embedding of [src/state.ts] (the [StateManager]), of the five
    tool handlers ([tools/node-management.ts], [tools/peer-management.ts],
    [tools/messaging.ts], [tools/file-sharing.ts], [tools/monitoring.ts]) and
    of the file-exchange stream handler, followed by the properties of the
    specification that concern them.

    Conventions of the embedding:
    - a JS [Map] is a [JsMap] (an association list in insertion order, as
      [Map.prototype.set] keeps it); the plain object [directMessages], which
      is only ever read and written by key, is a [gmap] of its own
      properties, behind which a read finds the members of
      [Object.prototype];
    - a JS number that holds an integer is a [Z]; a [Uint8Array] is a
      [list byte]; a string is a [string], identified with its UTF-8 bytes;
    - the libp2p node, the clock, the uuid generator and the file system are
      collaborators: their answers come from an [Env] record, indexed by the
      number of interactions made so far, and every call into the network
      subsystem is appended to a log;
    - a handler is a state-and-exception computation [M A] run atomically
      (interleavings at [await] points are not modelled). *)

From Stdlib Require Import ZArith Ascii.
From Stdlib.Strings Require Import Byte.
From stdpp Require Import gmap strings list fin_maps.

Local Open Scope string_scope.
Local Open Scope list_scope.
Local Open Scope Z_scope.

(** ** Thrown values *)

(** A thrown value, as far as the code looks at it: its [name] and
    [message]. *)
Record Exn := mkExn { exn_name : string; exn_message : string }.

(** [new Error(message)] *)
Definition Error (message : string) : Exn := mkExn "Error" message.

(** [`${error}`], that is [Error.prototype.toString]. *)
Definition exn_toString (e : Exn) : string :=
  if String.eqb (exn_name e) "" then exn_message e
  else if String.eqb (exn_message e) "" then exn_name e
  else exn_name e +:+ ": " +:+ exn_message e.

(** [new TypeError(message)], as the engine throws it. *)
Definition TypeError (message : string) : Exn := mkExn "TypeError" message.

(** What a call returns or raises. *)
Inductive Outcome (A : Type) :=
| Ok (a : A)
| Throw (e : Exn).
Arguments Ok {A} a.
Arguments Throw {A} e.

Definition len {A} (l : list A) : Z := Z.of_nat (length l).

(** ** [src/types/index.ts] *)

Inductive NodeStatus := stopped | starting | running | stopping.

(** The part of libp2p's [Connection] the code reads. *)
Record Connection := mkConnection {
  conn_id : string;
  remotePeer : string;
  remoteAddr : string;
  protoNames : list string;
  conn_status : string;
  direction : string;
  timeline : Z
}.

(** The node handle ([Libp2pType]): its identity and whether the ping
    service is configured; its behaviour is the collaborator's. *)
Record Libp2p := mkLibp2p {
  node_peerId : string;
  services_ping : bool
}.

Record ChatMessage := mkChatMessage {
  msgId : string;
  msg : string;
  msg_peerId : string;
  read : bool;
  receivedAt : Z
}.

Record ChatFile := mkChatFile {
  file_id : string;
  body : list byte;
  sender : string
}.

Record NodeConfig := mkNodeConfig {
  transports : option (list string);
  enableRelay : option bool;
  bootstrapPeers : option (list string);
  listenAddresses : option (list string)
}.

Record NetworkStats := mkNetworkStats {
  totalConnections : Z;
  activeTopics : Z;
  ns_messagesReceived : Z;
  ns_messagesSent : Z;
  ns_bytesReceived : Z;
  ns_bytesSent : Z;
  uptime : Z
}.

Record PeerInfo := mkPeerInfo {
  pi_peerId : string;
  pi_multiaddrs : list string;
  pi_protocols : list string;
  pi_connected : bool;
  pi_connectionCount : Z
}.

(** ** JS [Map] and [Set] with string keys, in insertion order *)

Module JsMap.
Section JsMap.
Context {V : Type}.

Definition t := list (string * V).

Definition empty : t := [].

Fixpoint get (k : string) (m : t) : option V :=
  match m with
  | [] => None
  | (k', v) :: m' => if String.eqb k k' then Some v else get k m'
  end.

Definition has (k : string) (m : t) : bool :=
  match get k m with Some _ => true | None => false end.

(** [Map.prototype.set]: an existing key keeps its position and takes the
    new value; a new key goes to the end. *)
Fixpoint set (k : string) (v : V) (m : t) : t :=
  match m with
  | [] => [(k, v)]
  | (k', v') :: m' =>
      if String.eqb k k' then (k, v) :: m' else (k', v') :: set k v m'
  end.

Definition values (m : t) : list V := map snd m.
Definition keys (m : t) : list string := map fst m.
Definition size (m : t) : Z := Z.of_nat (length m).
End JsMap.
Arguments t : clear implicits.
End JsMap.

Module JsSet.
Definition t := list string.

Definition empty : t := [].

Definition has (x : string) (s : t) : bool :=
  existsb (String.eqb x) s.

(** [Set.prototype.add] *)
Definition add (x : string) (s : t) : t :=
  if has x s then s else s ++ [x].

(** [Set.prototype.delete] *)
Definition delete (x : string) (s : t) : t :=
  List.filter (fun y => negb (String.eqb x y)) s.

Definition size (s : t) : Z := Z.of_nat (length s).
End JsSet.

(** ** [src/state.ts] *)

Record ServerState := mkServerState {
  libp2pNode : option Libp2p;
  activeConnections : JsMap.t Connection;
  messageHistory : JsMap.t (list ChatMessage);
  directMessages : gmap string (list ChatMessage);
  sharedFiles : JsMap.t ChatFile;
  subscriptions : JsSet.t;
  nodeStatus : NodeStatus
}.

Record Stats := mkStats {
  messagesReceived : Z;
  messagesSent : Z;
  bytesReceived : Z;
  bytesSent : Z
}.

Record StateManager := mkStateManager {
  state : ServerState;
  startTime : Z;
  stats : Stats
}.

Definition initialState : ServerState :=
  mkServerState None JsMap.empty JsMap.empty ∅ JsMap.empty JsSet.empty
    stopped.

(** [new StateManager()] *)
Definition newStateManager : StateManager :=
  mkStateManager initialState 0 (mkStats 0 0 0 0).

Definition with_state (f : ServerState → ServerState) (m : StateManager)
  : StateManager :=
  mkStateManager (f (state m)) (startTime m) (stats m).

Definition with_stats (f : Stats → Stats) (m : StateManager) : StateManager :=
  mkStateManager (state m) (startTime m) (f (stats m)).

Definition NodeStatus_eqb (a b : NodeStatus) : bool :=
  match a, b with
  | stopped, stopped | starting, starting
  | running, running | stopping, stopping => true
  | _, _ => false
  end.

(** [setNodeStatus(status)]; [now] is the value of [Date.now()]. *)
Definition setNodeStatus (status : NodeStatus) (now : Z) (m : StateManager)
  : StateManager :=
  let st := state m in
  mkStateManager
    (mkServerState (libp2pNode st) (activeConnections st) (messageHistory st)
       (directMessages st) (sharedFiles st) (subscriptions st) status)
    (if NodeStatus_eqb status running && (startTime m =? 0)
     then now else startTime m)
    (stats m).

Definition setLibp2pNode (node : option Libp2p)
  : StateManager → StateManager :=
  with_state (fun st =>
    mkServerState node (activeConnections st) (messageHistory st)
      (directMessages st) (sharedFiles st) (subscriptions st) (nodeStatus st)).

(** [updateConnections(connections)]: [clear()], then one [set] per
    connection, in order. *)
Definition updateConnections (connections : list Connection)
  : StateManager → StateManager :=
  with_state (fun st =>
    mkServerState (libp2pNode st)
      (fold_left (fun acc conn => JsMap.set (conn_id conn) conn acc)
         connections JsMap.empty)
      (messageHistory st) (directMessages st) (sharedFiles st)
      (subscriptions st) (nodeStatus st)).

Definition getMessages (topic : string) (m : StateManager) : list ChatMessage :=
  default [] (JsMap.get topic (messageHistory (state m))).

(** [directMessages] is a plain [{}] and not a [Map]: a read
    [directMessages[key]] finds the own property [key] or else the member of
    that name of [Object.prototype], which is a function, or the prototype
    itself for ["__proto__"]. Own properties are created by
    [addDirectMessage] only, and never under such a name. *)

(** The property names of [Object.prototype], each with the [length] of the
    member: the number of parameters of a function, and none for the
    prototype object. *)
Definition Object_prototype : list (string * option Z) :=
  [("constructor", Some 1); ("__defineGetter__", Some 2);
   ("__defineSetter__", Some 2); ("hasOwnProperty", Some 1);
   ("__lookupGetter__", Some 1); ("__lookupSetter__", Some 1);
   ("isPrototypeOf", Some 1); ("propertyIsEnumerable", Some 1);
   ("toString", Some 0); ("valueOf", Some 0); ("__proto__", None);
   ("toLocaleString", Some 0)].

Definition inherited (key : string) : bool :=
  existsb (fun member => String.eqb key member.1) Object_prototype.

(** What a read of [directMessages] gives: an array of messages, or a
    member of [Object.prototype]. *)
Inductive DirectHistory :=
| Messages (messages : list ChatMessage)
| Inherited (key : string).

(** [messages.length]; [None] is [undefined]. *)
Definition history_length (history : DirectHistory) : option Z :=
  match history with
  | Messages messages => Some (len messages)
  | Inherited key =>
      mjoin (snd <$> List.find (fun member => String.eqb key member.1)
                       Object_prototype)
  end.

(** [getDirectMessages(peerId)], that is [directMessages[peerId] || []]:
    an array stored under [peerId], or else the member of [Object.prototype]
    of that name (all of them are truthy), or else [[]]. *)
Definition getDirectMessages (peerId : string) (m : StateManager)
  : DirectHistory :=
  match directMessages (state m) !! peerId with
  | Some messages => Messages messages
  | None => if inherited peerId then Inherited peerId else Messages []
  end.

Definition incrementMessagesReceived : StateManager → StateManager :=
  with_stats (fun s =>
    mkStats (messagesReceived s + 1) (messagesSent s) (bytesReceived s)
      (bytesSent s)).

(** [addMessage(topic, message)] *)
Definition addMessage (topic : string) (message : ChatMessage)
    (m : StateManager) : StateManager :=
  let st := state m in
  let history :=
    if JsMap.has topic (messageHistory st) then messageHistory st
    else JsMap.set topic [] (messageHistory st) in
  let history :=
    JsMap.set topic (default [] (JsMap.get topic history) ++ [message])
      history in
  incrementMessagesReceived
    (with_state (fun st =>
       mkServerState (libp2pNode st) (activeConnections st) history
         (directMessages st) (sharedFiles st) (subscriptions st)
         (nodeStatus st)) m).

(** [addDirectMessage(peerId, message)]: an inherited member is truthy, so
    no array is created under its name, and it has no [push]: the call
    throws before the message is counted. *)
Definition addDirectMessage (peerId : string) (message : ChatMessage)
    (m : StateManager) : Outcome StateManager :=
  let st := state m in
  let dms :=
    match directMessages st !! peerId with
    | Some _ => directMessages st
    | None =>
        if inherited peerId then directMessages st
        else <[peerId := []]> (directMessages st)
    end in
  match dms !! peerId with
  | Some messages =>
      let dms := <[peerId := messages ++ [message]]> dms in
      Ok (incrementMessagesReceived
            (with_state (fun st =>
               mkServerState (libp2pNode st) (activeConnections st)
                 (messageHistory st) dms (sharedFiles st) (subscriptions st)
                 (nodeStatus st)) m))
  | None =>
      Throw (TypeError "this.state.directMessages[peerId].push is not a function")
  end.

Definition addSharedFile (file : ChatFile) : StateManager → StateManager :=
  with_state (fun st =>
    mkServerState (libp2pNode st) (activeConnections st) (messageHistory st)
      (directMessages st) (JsMap.set (file_id file) file (sharedFiles st))
      (subscriptions st) (nodeStatus st)).

Definition getSharedFile (fileId : string) (m : StateManager)
  : option ChatFile :=
  JsMap.get fileId (sharedFiles (state m)).

Definition addSubscription (topic : string) : StateManager → StateManager :=
  with_state (fun st =>
    mkServerState (libp2pNode st) (activeConnections st) (messageHistory st)
      (directMessages st) (sharedFiles st)
      (JsSet.add topic (subscriptions st)) (nodeStatus st)).

Definition removeSubscription (topic : string)
  : StateManager → StateManager :=
  with_state (fun st =>
    mkServerState (libp2pNode st) (activeConnections st) (messageHistory st)
      (directMessages st) (sharedFiles st)
      (JsSet.delete topic (subscriptions st)) (nodeStatus st)).

Definition incrementMessagesSent : StateManager → StateManager :=
  with_stats (fun s =>
    mkStats (messagesReceived s) (messagesSent s + 1) (bytesReceived s)
      (bytesSent s)).

Definition addBytesReceived (bytes : Z) : StateManager → StateManager :=
  with_stats (fun s =>
    mkStats (messagesReceived s) (messagesSent s) (bytesReceived s + bytes)
      (bytesSent s)).

Definition addBytesSent (bytes : Z) : StateManager → StateManager :=
  with_stats (fun s =>
    mkStats (messagesReceived s) (messagesSent s) (bytesReceived s)
      (bytesSent s + bytes)).

(** [getNetworkStats()]; [now] is the value of [Date.now()]. *)
Definition getNetworkStats (now : Z) (m : StateManager) : NetworkStats :=
  mkNetworkStats
    (JsMap.size (activeConnections (state m)))
    (JsSet.size (subscriptions (state m)))
    (messagesReceived (stats m)) (messagesSent (stats m))
    (bytesReceived (stats m)) (bytesSent (stats m))
    (if 0 <? startTime m then now - startTime m else 0).

(** [reset()] *)
Definition reset (_ : StateManager) : StateManager := newStateManager.

(** ** The collaborators *)

(** *** Length-prefixed framing ([it-length-prefixed])

    [lp.encode] turns each message of its source into one frame; [lp.decode]
    yields the messages of the frames it reads, in order, and reports what
    is left at the end of its input: nothing, the beginning of a frame (an
    error once the input ends there), or bytes that are refused (an error
    as soon as they are read). The code calls both with their default
    options, under which a message of more than [MAX_DATA_LENGTH] bytes is
    refused by either; on the frames of messages within this limit the
    decoder inverts the encoder. *)
Definition MAX_DATA_LENGTH : Z := 1024 * 1024 * 4.

Definition InvalidDataLengthError : Exn :=
  mkExn "InvalidDataLengthError" "Message length too long".

Inductive DecodeTail :=
| Whole
| Truncated (e : Exn)
| Invalid (e : Exn).

Class Framing := {
  lp_frame : list byte → list byte;
  lp_decode : list byte → list (list byte) * DecodeTail;
  lp_decode_frames :
    ∀ msgs,
      Forall (fun msg => len msg ≤ MAX_DATA_LENGTH) msgs →
      lp_decode (concat (map lp_frame msgs)) = (msgs, Whole)
}.

(** The frames of a sequence of messages, one after the other. *)
Definition lp_frames `{Framing} (msgs : list (list byte)) : list byte :=
  concat (map lp_frame msgs).

(** [lp.encode(source)]: the frames of the messages, in order, as far as
    the first message over the limit, at which the encoder throws. *)
Fixpoint lp_encode `{Framing} (msgs : list (list byte))
  : list byte * option Exn :=
  match msgs with
  | [] => ([], None)
  | msg :: rest =>
      if MAX_DATA_LENGTH <? len msg then ([], Some InvalidDataLengthError)
      else
        let (bytes, failure) := lp_encode rest in
        (lp_frame msg ++ bytes, failure)
  end.

(** *** Streams

    A stream as its opener sees it: to the bytes written into it, the
    remote side answers with the bytes [received] and then either closes
    the stream or fails it. *)
Inductive StreamEnd :=
| CleanEOF
| Reset (e : Exn).

Record StreamReply := mkStreamReply {
  received : list byte;
  ending : StreamEnd
}.

Definition Stream := list byte → StreamReply.

(** *** The network subsystem *)

Record StoredPeer := mkStoredPeer {
  sp_id : string;
  sp_addresses : list string;
  sp_protocols : list string;
  sp_metadata : list (string * list byte)
}.

(** The [detail] of a [peer:discovery] event. *)
Record DiscoveredPeer := mkDiscoveredPeer {
  dp_peerId : string;
  dp_multiaddrs : list string
}.

(** The calls into the network subsystem, as they are logged. *)
Inductive NetCall :=
| call_startLibp2p (config : NodeConfig)
| call_addEventListener (event : string)
| call_removeEventListener (event : string)
| call_getConnections (peer : option string)
| call_getMultiaddrs
| call_start
| call_stop
| call_dial (target : string)
| call_hangUp (peer : string)
| call_peerStore_has (peer : string)
| call_peerStore_get (peer : string)
| call_peerStore_all
| call_ping (peer : string) (timeout : Z)
| call_publish (topic : string) (data : list byte)
| call_subscribe (topic : string)
| call_unsubscribe (topic : string)
| call_getSubscribers (topic : string)
| call_pubsub_addEventListener (event : string)
| call_directMessage_send (peer : string) (message : string)
| call_handle (protocol : string)
| call_dialProtocol (peer : string) (protocol : string)
| call_registrar_topologies.

(** The answers of the collaborators. The first argument of an answer that
    can change over time is the number of interactions made before it. *)
Record Env := mkEnv {
  Date_now : nat → Z;
  uuidv4 : nat → string;
  fs_readFile : nat → string → Outcome (list byte);
  Buffer_from_base64 : string → list byte;
  multiaddr : string → Outcome string;
  peerIdFromString : string → Outcome string;
  startLibp2p : nat → NodeConfig → Outcome Libp2p;
  libp2p_getConnections : nat → option string → list Connection;
  libp2p_getMultiaddrs : nat → list string;
  libp2p_start : nat → Outcome unit;
  libp2p_stop : nat → Outcome unit;
  libp2p_dial : nat → string → Outcome Connection;
  libp2p_hangUp : nat → string → Outcome unit;
  peerStore_has : nat → string → Outcome bool;
  peerStore_get : nat → string → Outcome StoredPeer;
  peerStore_all : nat → Outcome (list StoredPeer);
  ping_ping : nat → string → Z → Outcome unit;
  discovery_events : nat → Z → list DiscoveredPeer;
  pubsub_publish : nat → string → list byte → Outcome (list string);
  pubsub_subscribe : nat → string → Outcome unit;
  pubsub_unsubscribe : nat → string → Outcome unit;
  pubsub_getSubscribers : nat → string → Outcome (list string);
  directMessage_send : nat → string → string → Outcome bool;
  libp2p_handle : nat → string → Outcome unit;
  libp2p_dialProtocol : nat → string → string → Outcome Stream;
  registrar_topologies : nat → Outcome (list string)
}.

(** ** The computation monad *)

(** The [StateManager], the number of interactions with the collaborators
    so far, and the log of the calls into the network subsystem. *)
Record World := mkWorld {
  sm : StateManager;
  tick : nat;
  netlog : list NetCall
}.

Definition M (A : Type) : Type := World → Outcome A * World.

Definition ret {A} (a : A) : M A := fun w => (Ok a, w).

Definition bind {A B} (m : M A) (k : A → M B) : M B :=
  fun w => match m w with
           | (Ok a, w') => k a w'
           | (Throw e, w') => (Throw e, w')
           end.

(** [throw e]: what the statements before it did to the state stays. *)
Definition throw {A} (e : Exn) : M A := fun w => (Throw e, w).

(** [try { m } catch (error) { handler error }] *)
Definition try_catch {A} (m : M A) (handler : Exn → M A) : M A :=
  fun w => match m w with
           | (Ok a, w') => (Ok a, w')
           | (Throw e, w') => handler e w'
           end.

Declare Scope js_scope.
Delimit Scope js_scope with js.
Notation "'let*' x := m 'in' k" := (bind m (fun x => k))
  (at level 10, x name, m at level 100, k at level 200) : js_scope.
Notation "m ;; k" := (bind m (fun _ => k))
  (at level 100, k at level 200, right associativity) : js_scope.
Local Open Scope js_scope.

(** A synchronous method of the [StateManager]. *)
Definition modify (f : StateManager → StateManager) : M unit :=
  fun w => (Ok tt, mkWorld (f (sm w)) (tick w) (netlog w)).

(** A synchronous method of the [StateManager] that may throw, and then
    has changed nothing. *)
Definition try_modify (f : StateManager → Outcome StateManager) : M unit :=
  fun w => match f (sm w) with
           | Ok m => (Ok tt, mkWorld m (tick w) (netlog w))
           | Throw e => (Throw e, w)
           end.

(** [stateManager.getState()]: a snapshot of the fields. *)
Definition getState : M ServerState := fun w => (Ok (state (sm w)), w).

Definition getStateManager : M StateManager := fun w => (Ok (sm w), w).

(** A call into the network subsystem: it is logged, and answered by the
    collaborator. *)
Definition net_call {A} (c : NetCall) (answer : nat → Outcome A) : M A :=
  fun w => (answer (tick w), mkWorld (sm w) (S (tick w)) (netlog w ++ [c])).

(** An interaction with another collaborator (clock, uuid, file system). *)
Definition env_call {A} (answer : nat → Outcome A) : M A :=
  fun w => (answer (tick w), mkWorld (sm w) (S (tick w)) (netlog w)).

(** A pure library function that may throw. *)
Definition lift {A} (o : Outcome A) : M A := fun w => (o, w).

(** ** Results of the tools *)

Record FileEntry := mkFileEntry {
  fe_id : string;
  fe_sender : string;
  fe_size : Z;
  fe_isLocal : bool
}.

(** One constructor per shape of object a handler returns. *)
Inductive ToolResult :=
(* { success: true, peerId, addresses, status: 'running' } *)
| NodeRunning (peerId : string) (addresses : list string)
(* { success: true, message: 'Node is already running', peerId } *)
| NodeAlreadyRunning (peerId : string)
(* { success: true, message: 'Node stopped successfully' } *)
| NodeStopped
(* { status: 'stopped', peerId: null, addresses: [], connections: 0 } *)
| NoNodeStatus
(* { status, peerId, addresses, connections, subscriptions } *)
| NodeStatusInfo (status : NodeStatus) (peerId : string)
    (addresses : list string) (connections : Z) (subs : list string)
(* { success: true, discoveredPeers, count } *)
| PeersDiscovered (discoveredPeers : list DiscoveredPeer) (count : Z)
(* { success: true, peerId, remoteAddr, protocols } *)
| PeerConnected (peerId remoteAddr : string) (protocols : list string)
(* { success: true, message: `Disconnected from peer ${peerId}` } *)
| PeerDisconnected (message : string)
(* { success: true, connections, count } *)
| ConnectionList (connections : list Connection) (count : Z)
(* { success: true, peerInfo } *)
| PeerInfoResult (peerInfo : PeerInfo)
(* { success: true, peerId, latency, timestamp } *)
| PingResult (peerId : string) (latency timestamp : Z)
(* { success: true, topic, message, recipients, recipientCount, timestamp } *)
| GroupMessageSent (topic message : string) (recipients : list string)
    (recipientCount timestamp : Z)
(* { success, peerId, message, timestamp } *)
| DirectMessageSent (success : bool) (peerId message : string)
    (timestamp : Z)
(* { success: true, topic, subscribers } *)
| Subscribed (topic : string) (subscribers : list string)
(* { success: true, topic, message: `Unsubscribed from topic: ${topic}` } *)
| Unsubscribed (topic message : string)
(* { success: true, topic, messages, count } *)
| TopicHistory (topic : string) (messages : list ChatMessage) (count : Z)
(* { success: true, peerId, messages, count } *)
| PeerHistory (peerId : string) (messages : list ChatMessage) (count : Z)
(* { success: true, topic, subscribers, count } *)
| TopicSubscribers (topic : string) (subscribers : list string) (count : Z)
(* { success: true, fileId, fileName, fileSize, announced, recipients } *)
| FileShared (fileId fileName : string) (fileSize : Z) (announced : bool)
    (recipients : list string)
(* { success: true, fileId, peerId, fileSize, timestamp } *)
| FileReceived (fileId peerId : string) (fileSize timestamp : Z)
(* { success: true, files, count } *)
| SharedFileList (files : list FileEntry) (count : Z)
(* { success: true, fileId, recipients, recipientCount, timestamp } *)
| FileAnnounced (fileId : string) (recipients : list string)
    (recipientCount timestamp : Z)
(* { success: true, stats: { ...stats, protocolDistribution, nodeId,
     addresses } } *)
| NetworkStatsResult (stats : NetworkStats)
    (protocolDistribution : list (string * Z)) (nodeId : string)
    (addresses : list string)
(* { success: true, protocols, count } *)
| ProtocolHandlers (protocols : list string) (count : Z)
(* { success: true, level, components, message } *)
| DebugLogging (level : string) (components : list string)
    (message : string)
(* { success: true, peers, count, hasMore } *)
| PeerStoreInfo (peers : list StoredPeer) (count : Z) (hasMore : bool).

(** ** JS library functions the handlers use *)

(** The truthiness of an optional string argument: [undefined] and [""]
    are falsy. *)
Definition truthy (s : option string) : option string :=
  match s with
  | Some s => if String.eqb s "" then None else Some s
  | None => None
  end.

(** [array.slice(start)] for an integer [start]: a negative [start] counts
    from the end, and [-0] is [0]. *)
Definition slice {A} (start : Z) (l : list A) : list A :=
  let k := if start <? 0 then Z.max (len l + start) 0
           else Z.min start (len l) in
  drop (Z.to_nat k) l.

(** [[...new Set(l)]]: the first occurrence of each element, in order. *)
Definition js_unique (l : list string) : list string :=
  fold_left (fun acc x => if existsb (String.eqb x) acc then acc
                          else acc ++ [x]) l [].

(** [path.split('/').pop()] *)
Fixpoint last_segment (path acc : string) : string :=
  match path with
  | EmptyString => acc
  | String c rest =>
      if Ascii.eqb c "/"%char then last_segment rest ""
      else last_segment rest (acc +:+ String c "")
  end.

(** [new TextEncoder().encode(s)], [uint8ArrayFromString(s)] *)
Definition TextEncoder_encode (s : string) : list byte :=
  String.list_byte_of_string s.

(** [new TextDecoder().decode(bytes)], [uint8ArrayToString(bytes)], on
    bytes that are the UTF-8 encoding of a string (the decoders replace
    what is not, and [TextDecoder] drops a byte-order mark). *)
Definition TextDecoder_decode (bytes : list byte) : string :=
  String.string_of_list_byte bytes.

(** [counts[key] = (counts[key] || 0) + 1] on a plain object, for keys that
    are protocol names: none is the name of a member of [Object.prototype]
    or an array index, so the keys stay in the order of their first
    occurrence. *)
Fixpoint count_up (key : string) (counts : list (string * Z))
  : list (string * Z) :=
  match counts with
  | [] => [(key, 1)]
  | (k, n) :: rest =>
      if String.eqb key k then (k, n + 1) :: rest
      else (k, n) :: count_up key rest
  end.

(** ** Constants ([src/constants.ts]) *)

Definition CHAT_TOPIC := "universal-connectivity".
Definition CHAT_FILE_TOPIC := "universal-connectivity-file".
Definition FILE_EXCHANGE_PROTOCOL := "/universal-connectivity-file/1".

(** ** The handlers *)

Section Handlers.
Context `{Framing}.
Variable env : Env.

Definition date_now : M Z := env_call (fun t => Ok (Date_now env t)).

(** [stateManager.setNodeStatus(status)]; the clock is read only when the
    start time is recorded. *)
Definition do_setNodeStatus (status : NodeStatus) : M unit :=
  let* m := getStateManager in
  if NodeStatus_eqb status running && (startTime m =? 0)
  then let* now := date_now in modify (setNodeStatus status now)
  else modify (setNodeStatus status 0).

Definition getConnections (peer : option string) : M (list Connection) :=
  net_call (call_getConnections peer)
    (fun t => Ok (libp2p_getConnections env t peer)).

Definition getMultiaddrs : M (list string) :=
  net_call call_getMultiaddrs (fun t => Ok (libp2p_getMultiaddrs env t)).

Definition addEventListener (event : string) : M unit :=
  net_call (call_addEventListener event) (fun _ => Ok tt).

Definition removeEventListener (event : string) : M unit :=
  net_call (call_removeEventListener event) (fun _ => Ok tt).

(** *** The network event adapter *)

Inductive ConnectionEvent := connection_open | connection_close.

(** The listener [create_libp2p_node] installs for both events:
    [() => stateManager.updateConnections(libp2p.getConnections())]. *)
Definition on_connection_event (_ : ConnectionEvent) : M unit :=
  let* connections := getConnections None in
  modify (updateConnections connections).

Fixpoint on_connection_events (events : list ConnectionEvent) : M unit :=
  match events with
  | [] => ret tt
  | ev :: rest => on_connection_event ev ;; on_connection_events rest
  end.

(** *** [tools/node-management.ts] *)

Inductive NodeCmd :=
| create_libp2p_node (args : NodeConfig)
| start_libp2p_node
| stop_libp2p_node
| get_node_status.

Definition handleNodeManagement (cmd : NodeCmd) : M ToolResult :=
  let* state := getState in
  match cmd with
  | create_libp2p_node args =>
      match libp2pNode state with
      | Some _ =>
          throw (Error "Libp2p node already exists. Stop the current node first.")
      | None =>
          do_setNodeStatus starting ;;
          try_catch
            (let config :=
               mkNodeConfig (transports args) (enableRelay args)
                 (bootstrapPeers args) (listenAddresses args) in
             let* libp2p :=
               net_call (call_startLibp2p config)
                 (fun t => startLibp2p env t config) in
             modify (setLibp2pNode (Some libp2p)) ;;
             do_setNodeStatus running ;;
             addEventListener "connection:open" ;;
             addEventListener "connection:close" ;;
             let* addresses := getMultiaddrs in
             ret (NodeRunning (node_peerId libp2p) addresses))
            (fun error =>
               do_setNodeStatus stopped ;;
               throw (Error ("Failed to create libp2p node: "
                             +:+ exn_toString error)))
      end
  | start_libp2p_node =>
      match libp2pNode state with
      | None => throw (Error "No libp2p node exists. Create a node first.")
      | Some node =>
          if NodeStatus_eqb (nodeStatus state) running
          then ret (NodeAlreadyRunning (node_peerId node))
          else
            try_catch
              (net_call call_start (libp2p_start env) ;;
               do_setNodeStatus running ;;
               let* addresses := getMultiaddrs in
               ret (NodeRunning (node_peerId node) addresses))
              (fun error =>
                 throw (Error ("Failed to start libp2p node: "
                               +:+ exn_toString error)))
      end
  | stop_libp2p_node =>
      match libp2pNode state with
      | None => throw (Error "No libp2p node exists.")
      | Some node =>
          do_setNodeStatus stopping ;;
          try_catch
            (net_call call_stop (libp2p_stop env) ;;
             do_setNodeStatus stopped ;;
             modify (setLibp2pNode None) ;;
             ret NodeStopped)
            (fun error =>
               throw (Error ("Failed to stop libp2p node: "
                             +:+ exn_toString error)))
      end
  | get_node_status =>
      match libp2pNode state with
      | None => ret NoNodeStatus
      | Some node =>
          let* addresses := getMultiaddrs in
          ret (NodeStatusInfo (nodeStatus state) (node_peerId node) addresses
                 (JsMap.size (activeConnections state)) (subscriptions state))
      end
  end.

(** The guard at the top of every handler but the lifecycle one. *)
Definition no_active_node : Exn :=
  Error "No libp2p node is running. Create and start a node first.".

Definition uuid : M string := env_call (fun t => Ok (uuidv4 env t)).

(** *** [tools/peer-management.ts] *)

Inductive PeerCmd :=
| discover_peers (timeout : option Z)
| connect_to_peer (target : string)
| disconnect_from_peer (peerId : string)
| list_connections
| get_peer_info (peerId : string)
| ping_peer (peerId : string) (timeout : option Z).

Definition handlePeerManagement (cmd : PeerCmd) : M ToolResult :=
  let* state := getState in
  match libp2pNode state with
  | None => throw no_active_node
  | Some libp2p =>
  match cmd with
  | discover_peers timeout =>
      (* args.timeout || 10000 *)
      let timeout :=
        match timeout with
        | Some t => if t =? 0 then 10000 else t
        | None => 10000
        end in
      addEventListener "peer:discovery" ;;
      (* the events delivered until the timer fires *)
      let* discoveredPeers :=
        env_call (fun t => Ok (discovery_events env t timeout)) in
      removeEventListener "peer:discovery" ;;
      ret (PeersDiscovered discoveredPeers (len discoveredPeers))
  | connect_to_peer target =>
      try_catch
        (let* connection :=
           try_catch
             (let* ma := lift (multiaddr env target) in
              net_call (call_dial ma) (fun t => libp2p_dial env t ma))
             (fun _ =>
                let* peerId := lift (peerIdFromString env target) in
                net_call (call_dial peerId)
                  (fun t => libp2p_dial env t peerId)) in
         let* connections := getConnections None in
         modify (updateConnections connections) ;;
         ret (PeerConnected (remotePeer connection) (remoteAddr connection)
                (protoNames connection)))
        (fun error =>
           throw (Error ("Failed to connect to peer: "
                         +:+ exn_toString error)))
  | disconnect_from_peer peerId =>
      try_catch
        (let* peer := lift (peerIdFromString env peerId) in
         net_call (call_hangUp peer) (fun t => libp2p_hangUp env t peer) ;;
         let* connections := getConnections None in
         modify (updateConnections connections) ;;
         ret (PeerDisconnected ("Disconnected from peer " +:+ peerId)))
        (fun error =>
           throw (Error ("Failed to disconnect from peer: "
                         +:+ exn_toString error)))
  | list_connections =>
      let* connections := getConnections None in
      ret (ConnectionList connections (len connections))
  | get_peer_info peerId =>
      try_catch
        (let* peer := lift (peerIdFromString env peerId) in
         let* connections := getConnections (Some peer) in
         let peerInfo :=
           mkPeerInfo peerId [] [] (0 <? len connections)
             (len connections) in
         let* peerInfo :=
           try_catch
             (let* known :=
                net_call (call_peerStore_has peer)
                  (fun t => peerStore_has env t peer) in
              if known : bool then
                let* storedPeer :=
                  net_call (call_peerStore_get peer)
                    (fun t => peerStore_get env t peer) in
                ret (mkPeerInfo peerId (sp_addresses storedPeer)
                       (sp_protocols storedPeer) (pi_connected peerInfo)
                       (pi_connectionCount peerInfo))
              else ret peerInfo)
             (fun _ => ret peerInfo) in
         let peerInfo :=
           if 0 <? len connections then
             mkPeerInfo peerId
               (js_unique (pi_multiaddrs peerInfo
                           ++ map remoteAddr connections))
               (pi_protocols peerInfo) (pi_connected peerInfo)
               (pi_connectionCount peerInfo)
           else peerInfo in
         ret (PeerInfoResult peerInfo))
        (fun error =>
           throw (Error ("Failed to get peer info: " +:+ exn_toString error)))
  | ping_peer peerId timeout =>
      let timeout := default 5000 timeout in
      try_catch
        (let* peer := lift (peerIdFromString env peerId) in
         let* startTime := date_now in
         if negb (services_ping libp2p)
         then throw (Error "Ping service not available")
         else
           net_call (call_ping peer timeout)
             (fun t => ping_ping env t peer timeout) ;;
           let* finished := date_now in
           let latency := finished - startTime in
           let* timestamp := date_now in
           ret (PingResult peerId latency timestamp))
        (fun error =>
           throw (Error ("Failed to ping peer: " +:+ exn_toString error)))
  end
  end.

(** *** [tools/messaging.ts] *)

(** A pubsub [message] event, as the listener destructures it:
    [{ topic, data, detail }], with [detail.type] and [detail.from]. *)
Record MessageEvent := mkMessageEvent {
  evt_topic : string;
  evt_data : list byte;
  evt_detail : option (string * string)
}.

(** The listener [subscribe_to_topic] installs. *)
Definition handleMessage (evt : MessageEvent) : M unit :=
  match evt_detail evt with
  | Some (type, from) =>
      if String.eqb type "signed" then
        let message := TextDecoder_decode (evt_data evt) in
        let* id := uuid in
        let* now := date_now in
        modify (addMessage (evt_topic evt)
                  (mkChatMessage id message from false now)) ;;
        modify (addBytesReceived (len (evt_data evt)))
      else ret tt
  | None => ret tt
  end.

Inductive MessagingCmd :=
| send_group_message (topic : option string) (message : string)
| send_direct_message (peerId message : string)
| subscribe_to_topic (topic : string)
| unsubscribe_from_topic (topic : string)
| get_message_history (topic peerId : option string) (limit : option Z)
| get_topic_subscribers (topic : option string).

Definition handleMessaging (cmd : MessagingCmd) : M ToolResult :=
  let* state := getState in
  match libp2pNode state with
  | None => throw no_active_node
  | Some libp2p =>
  match cmd with
  | send_group_message topic message =>
      let topic := default CHAT_TOPIC topic in
      try_catch
        (let messageBytes := TextEncoder_encode message in
         let* recipients :=
           net_call (call_publish topic messageBytes)
             (fun t => pubsub_publish env t topic messageBytes) in
         let* id := uuid in
         let* now := date_now in
         modify (addMessage topic
                   (mkChatMessage id message (node_peerId libp2p) true now)) ;;
         modify incrementMessagesSent ;;
         modify (addBytesSent (len messageBytes)) ;;
         let* timestamp := date_now in
         ret (GroupMessageSent topic message recipients (len recipients)
                timestamp))
        (fun error =>
           throw (Error ("Failed to send group message: "
                         +:+ exn_toString error)))
  | send_direct_message peerId message =>
      try_catch
        (let* peer := lift (peerIdFromString env peerId) in
         let* success :=
           net_call (call_directMessage_send peer message)
             (fun t => directMessage_send env t peer message) in
         (if success : bool then
            let* id := uuid in
            let* now := date_now in
            try_modify (addDirectMessage peerId
                          (mkChatMessage id message (node_peerId libp2p) true
                             now)) ;;
            modify incrementMessagesSent ;;
            modify (addBytesSent (len (TextEncoder_encode message)))
          else ret tt) ;;
         let* timestamp := date_now in
         ret (DirectMessageSent success peerId message timestamp))
        (fun error =>
           throw (Error ("Failed to send direct message: "
                         +:+ exn_toString error)))
  | subscribe_to_topic topic =>
      try_catch
        (net_call (call_subscribe topic)
           (fun t => pubsub_subscribe env t topic) ;;
         modify (addSubscription topic) ;;
         net_call (call_pubsub_addEventListener "message")
           (fun _ => Ok tt) ;;
         let* subscribers :=
           net_call (call_getSubscribers topic)
             (fun t => pubsub_getSubscribers env t topic) in
         ret (Subscribed topic subscribers))
        (fun error =>
           throw (Error ("Failed to subscribe to topic: "
                         +:+ exn_toString error)))
  | unsubscribe_from_topic topic =>
      try_catch
        (net_call (call_unsubscribe topic)
           (fun t => pubsub_unsubscribe env t topic) ;;
         modify (removeSubscription topic) ;;
         ret (Unsubscribed topic ("Unsubscribed from topic: " +:+ topic)))
        (fun error =>
           throw (Error ("Failed to unsubscribe from topic: "
                         +:+ exn_toString error)))
  | get_message_history topic peerId limit =>
      let limit := default 50 limit in
      match truthy topic with
      | Some topic =>
          let* m := getStateManager in
          let messages := slice (- limit) (getMessages topic m) in
          ret (TopicHistory topic messages (len messages))
      | None =>
          match truthy peerId with
          | Some peerId =>
              let* m := getStateManager in
              match getDirectMessages peerId m with
              | Messages stored =>
                  let messages := slice (- limit) stored in
                  ret (PeerHistory peerId messages (len messages))
              | Inherited _ =>
                  throw (TypeError "stateManager.getDirectMessages(...).slice is not a function")
              end
          | None => throw (Error "Either topic or peerId must be specified")
          end
      end
  | get_topic_subscribers topic =>
      let topic := default CHAT_TOPIC topic in
      try_catch
        (let* subscribers :=
           net_call (call_getSubscribers topic)
             (fun t => pubsub_getSubscribers env t topic) in
         ret (TopicSubscribers topic subscribers (len subscribers)))
        (fun error =>
           throw (Error ("Failed to get topic subscribers: "
                         +:+ exn_toString error)))
  end
  end.

(** *** [tools/file-sharing.ts] *)

(** The responder: the stream handler [share_file] registers for
    [FILE_EXCHANGE_PROTOCOL]. Every request frame is answered by the body of
    the file it names; the first unknown identifier throws, which ends the
    pipeline. *)
Fixpoint serve_requests (m : StateManager) (requests : list (list byte))
  : list (list byte) * option Exn :=
  match requests with
  | [] => ([], None)
  | msg :: rest =>
      let requestedFileId := TextDecoder_decode msg in
      match getSharedFile requestedFileId m with
      | Some requestedFile =>
          let (bodies, failure) := serve_requests m rest in
          (body requestedFile :: bodies, failure)
      | None => ([], Some (Error ("File not found: " +:+ requestedFileId)))
      end
  end.

(** [pipe(stream.source, lp.decode, map(...), lp.encode, stream.sink)]: the
    bytes written to the sink, and the error that ended the pipeline, if
    any. The stages run frame by frame, so the first error is that of the
    encoder, if a body is over its limit, and else that of the lookup, and
    else that of the decoder at the end of its input. *)
Definition file_exchange_handler (m : StateManager) (incoming : list byte)
  : list byte * option Exn :=
  let (requests, tail) := lp_decode incoming in
  let (bodies, failure) := serve_requests m requests in
  let (sent, too_long) := lp_encode bodies in
  (sent,
   match too_long, failure, tail with
   | Some e, _, _ => Some e
   | None, Some e, _ => Some e
   | None, None, Whole => None
   | None, None, Truncated e => Some e
   | None, None, Invalid e => Some e
   end).

(** The initiator's source [[uint8ArrayFromString(fileId)]] through
    [lp.encode]: the bytes to write, unless the encoder throws. *)
Definition request_frame (fileId : string) : Outcome (list byte) :=
  match lp_encode [TextEncoder_encode fileId] with
  | (bytes, None) => Ok bytes
  | (_, Some e) => Throw e
  end.

(** The initiator's end of the pipeline:
    [for await (const data of source) { fileData = data.subarray(); break }]
    over [lp.decode] of what the stream delivers. *)
Definition read_first_frame (reply : StreamReply)
  : Outcome (option (list byte)) :=
  let (frames, tail) := lp_decode (received reply) in
  match frames with
  | data :: _ => Ok (Some data)
  | [] =>
      match tail, ending reply with
      | Invalid e, _ => Throw e
      | _, Reset e => Throw e
      | Truncated e, CleanEOF => Throw e
      | Whole, CleanEOF => Ok None
      end
  end.

Inductive FileCmd :=
| share_file (filePath fileContent fileName : option string)
    (announce : option bool)
| request_file (peerId fileId : string)
| list_shared_files
| announce_file (fileId : string).

Definition handleFileSharing (cmd : FileCmd) : M ToolResult :=
  let* state := getState in
  match libp2pNode state with
  | None => throw no_active_node
  | Some libp2p =>
  match cmd with
  | share_file filePath fileContent fileName announce =>
      let announce := default true announce in
      try_catch
        (let* file_and_name :=
           match truthy filePath with
           | Some filePath =>
               let* fileBody :=
                 env_call (fun t => fs_readFile env t filePath) in
               let name := last_segment filePath "" in
               ret (fileBody,
                    if String.eqb name "" then "unknown" else name)
           | None =>
               match truthy fileContent, truthy fileName with
               | Some fileContent, Some fileName =>
                   ret (Buffer_from_base64 env fileContent, fileName)
               | _, _ =>
                   throw (Error "Either filePath or both fileContent and fileName must be provided")
               end
           end in
         let fileBody : list byte := fst file_and_name in
         let actualFileName : string := snd file_and_name in
         let* fileId := uuid in
         let file := mkChatFile fileId fileBody (node_peerId libp2p) in
         modify (addSharedFile file) ;;
         net_call (call_handle FILE_EXCHANGE_PROTOCOL)
           (fun t => libp2p_handle env t FILE_EXCHANGE_PROTOCOL) ;;
         let* announcementResult :=
           if announce then
             let fileIdBytes := TextEncoder_encode fileId in
             let* recipients :=
               net_call (call_publish CHAT_FILE_TOPIC fileIdBytes)
                 (fun t => pubsub_publish env t CHAT_FILE_TOPIC fileIdBytes) in
             ret (Some recipients)
           else ret None in
         ret (FileShared fileId actualFileName (len fileBody) announce
                (default [] announcementResult)))
        (fun error =>
           throw (Error ("Failed to share file: " +:+ exn_toString error)))
  | request_file peerId fileId =>
      try_catch
        (let* peer := lift (peerIdFromString env peerId) in
         let* stream :=
           net_call (call_dialProtocol peer FILE_EXCHANGE_PROTOCOL)
             (fun t => libp2p_dialProtocol env t peer FILE_EXCHANGE_PROTOCOL) in
         let* request := lift (request_frame fileId) in
         let* fileData := lift (read_first_frame (stream request)) in
         match fileData with
         | None => throw (Error "No file data received")
         | Some fileData =>
             modify (addSharedFile (mkChatFile fileId fileData peerId)) ;;
             let* timestamp := date_now in
             ret (FileReceived fileId peerId (len fileData) timestamp)
         end)
        (fun error =>
           throw (Error ("Failed to request file: " +:+ exn_toString error)))
  | list_shared_files =>
      let* state := getState in
      let files :=
        map (fun file =>
               mkFileEntry (file_id file) (sender file) (len (body file))
                 (String.eqb (sender file) (node_peerId libp2p)))
          (JsMap.values (sharedFiles state)) in
      ret (SharedFileList files (len files))
  | announce_file fileId =>
      try_catch
        (let* m := getStateManager in
         match getSharedFile fileId m with
         | None => throw (Error ("File not found: " +:+ fileId))
         | Some _ =>
             let fileIdBytes := TextEncoder_encode fileId in
             let* recipients :=
               net_call (call_publish CHAT_FILE_TOPIC fileIdBytes)
                 (fun t => pubsub_publish env t CHAT_FILE_TOPIC fileIdBytes) in
             let* timestamp := date_now in
             ret (FileAnnounced fileId recipients (len recipients) timestamp)
         end)
        (fun error =>
           throw (Error ("Failed to announce file: " +:+ exn_toString error)))
  end
  end.

(** *** [tools/monitoring.ts] *)

(** [stateManager.getNetworkStats()]; the clock is read only when a start
    time was recorded. *)
Definition do_getNetworkStats : M NetworkStats :=
  let* m := getStateManager in
  if 0 <? startTime m
  then let* now := date_now in ret (getNetworkStats now m)
  else ret (getNetworkStats 0 m).

Inductive MonitoringCmd :=
| get_network_stats
| get_protocol_handlers
| enable_debug_logging (level : option string)
    (components : option (list string))
| get_peer_store_info (limit : option Z).

Definition handleMonitoring (cmd : MonitoringCmd) : M ToolResult :=
  let* state := getState in
  match libp2pNode state with
  | None => throw no_active_node
  | Some libp2p =>
  match cmd with
  | get_network_stats =>
      let* stats := do_getNetworkStats in
      let* connections := getConnections None in
      let protocolStats :=
        fold_left
          (fun acc conn =>
             fold_left (fun acc proto => count_up proto acc)
               (protoNames conn) acc)
          connections [] in
      let* addresses := getMultiaddrs in
      ret (NetworkStatsResult stats protocolStats (node_peerId libp2p)
             addresses)
  | get_protocol_handlers =>
      try_catch
        (let* protocols :=
           net_call call_registrar_topologies (registrar_topologies env) in
         ret (ProtocolHandlers protocols (len protocols)))
        (fun error =>
           throw (Error ("Failed to get protocol handlers: "
                         +:+ exn_toString error)))
  | enable_debug_logging level components =>
      let level := default "info" level in
      ret (DebugLogging level (default ["all"] components)
             ("Debug logging configured for level: " +:+ level))
  | get_peer_store_info limit =>
      let limit := default 50 limit in
      try_catch
        (let* stored := net_call call_peerStore_all (peerStore_all env) in
         (* [if (count >= limit) break] at the head of each iteration *)
         let allPeers := take (Z.to_nat limit) stored in
         ret (PeerStoreInfo allPeers (len allPeers)
                (len allPeers =? limit)))
        (fun error =>
           throw (Error ("Failed to get peer store info: "
                         +:+ exn_toString error)))
  end
  end.

(** *** The dispatch of [src/index.ts] *)

Inductive Command :=
| NodeManagement (cmd : NodeCmd)
| PeerManagement (cmd : PeerCmd)
| Messaging (cmd : MessagingCmd)
| FileSharing (cmd : FileCmd)
| Monitoring (cmd : MonitoringCmd).

Definition callTool (cmd : Command) : M ToolResult :=
  match cmd with
  | NodeManagement c => handleNodeManagement c
  | PeerManagement c => handlePeerManagement c
  | Messaging c => handleMessaging c
  | FileSharing c => handleFileSharing c
  | Monitoring c => handleMonitoring c
  end.


(** *** The transport between an initiator and a responder

    The stream [dialProtocol] gives the initiator when the remote peer is a
    node of this program whose state is [responder]: the bytes written reach
    the registered [file_exchange_handler], the bytes it writes come back,
    and the stream is closed if the pipeline ended normally and reset, with
    the transport's error [reset_error], if it threw. *)
Definition served_by (responder : StateManager) (reset_error : Exn) : Stream :=
  fun written =>
    let (sent, failure) := file_exchange_handler responder written in
    mkStreamReply sent
      (match failure with
       | Some _ => Reset reset_error
       | None => CleanEOF
       end).

(** A peer that closes the stream without writing anything. *)
Definition closes_silently : Stream :=
  fun _ => mkStreamReply [] CleanEOF.

End Handlers.

(** ** [src/lib/libp2p.ts] *)

(** [array.includes(x)] on strings. *)
Definition includes (l : list string) (x : string) : bool :=
  existsb (String.eqb x) l.

(** The part of a [Multiaddr] the code reads: its string form, its protocol
    names and the address of [nodeAddress()], which throws on an address
    that has none. *)
Record Multiaddr := mkMultiaddr {
  ma_toString : string;
  ma_protoNames : list string;
  ma_nodeAddress : Outcome string
}.

(** An answer of the delegated routing client: [{ ID, Addrs }]. *)
Record RoutingPeer := mkRoutingPeer {
  rp_ID : string;
  rp_Addrs : list Multiaddr
}.

Inductive Transport :=
| webTransport
| webSockets
| webRTC
| webRTCDirect
| circuitRelayTransport.

(** The [transports] array [startLibp2p] builds from its configuration. *)
Definition enabled_transports (config : NodeConfig) : list Transport :=
  let enabledTransports :=
    default ["webrtc"; "websockets"; "webtransport"] (transports config) in
  (if includes enabledTransports "webtransport" then [webTransport] else [])
  ++ (if includes enabledTransports "websockets" then [webSockets] else [])
  ++ (if includes enabledTransports "webrtc" then [webRTC; webRTCDirect]
      else [])
  ++ (match enableRelay config with
      | Some false => []
      | _ => [circuitRelayTransport]
      end).

(** [config.listenAddresses || ['/webrtc', ...relayListenAddrs]] *)
Definition listen_addresses (config : NodeConfig)
    (relayListenAddrs : list string) : list string :=
  default ("/webrtc" :: relayListenAddrs) (listenAddresses config).

(** [`${maddr.toString()}/p2p/${peer.toString()}/p2p-circuit`] *)
Definition getRelayListenAddr (maddr : Multiaddr) (peer : string) : string :=
  ma_toString maddr +:+ "/p2p/" +:+ peer +:+ "/p2p-circuit".

(** The test [getBootstrapMultiaddrs] makes on the protocol names. *)
Definition is_browser_dialable (maddr : Multiaddr) : bool :=
  let protos := ma_protoNames maddr in
  (includes protos "webtransport" || includes protos "webrtc-direct")
  && includes protos "certhash".

(** One iteration of the inner loop of [getBootstrapMultiaddrs]. *)
Definition bootstrap_step (ID : string)
    (acc : Outcome (list string * list string)) (maddr : Multiaddr)
  : Outcome (list string * list string) :=
  match acc with
  | Throw e => Throw e
  | Ok (bootstrapAddrs, relayListenAddrs) =>
      if is_browser_dialable maddr then
        match ma_nodeAddress maddr with
        | Throw e => Throw e
        | Ok address =>
            if String.eqb address "127.0.0.1"
            then Ok (bootstrapAddrs, relayListenAddrs)
            else Ok (bootstrapAddrs ++ [ma_toString maddr],
                     relayListenAddrs ++ [getRelayListenAddr maddr ID])
        end
      else Ok (bootstrapAddrs, relayListenAddrs)
  end.

(** [getBootstrapMultiaddrs], from the answers of the routing client, one
    for each bootstrap peer ([undefined] is [None]). *)
Definition getBootstrapMultiaddrs (peers : list (option RoutingPeer))
  : Outcome (list string * list string) :=
  fold_left
    (fun acc p =>
       match p with
       | Some p => fold_left (bootstrap_step (rp_ID p)) (rp_Addrs p) acc
       | None => acc
       end)
    peers (Ok ([], [])).

(** [getFormattedConnections]: the remote peer and the distinct protocol
    names of each connection. *)
Definition getFormattedConnections (connections : list Connection)
  : list (string * list string) :=
  map (fun conn => (remotePeer conn, js_unique (protoNames conn))) connections.

Section Discovery.
Variable env : Env.

(** The loop of [dialWebRTCMaddrs]: the first dial that succeeds ends it,
    a dial that throws moves on to the next address. *)
Fixpoint dial_first (addrs : list Multiaddr) : M unit :=
  match addrs with
  | [] => ret tt
  | addr :: rest =>
      let* dialled :=
        try_catch
          (net_call (call_dial (ma_toString addr))
             (fun t => libp2p_dial env t (ma_toString addr)) ;;
           ret true)
          (fun _ => ret false) in
      if dialled : bool then ret tt else dial_first rest
  end.

Definition dialWebRTCMaddrs (multiaddrs : list Multiaddr) : M unit :=
  dial_first
    (List.filter (fun maddr => includes (ma_protoNames maddr) "webrtc")
       multiaddrs).

(** The [peer:discovery] listener [startLibp2p] installs. *)
Definition on_peer_discovery (id : string) (multiaddrs : list Multiaddr)
  : M unit :=
  let* connections := getConnections env (Some id) in
  if 0 <? len connections then ret tt else dialWebRTCMaddrs multiaddrs.

End Discovery.

(** ** [src/resources.ts] *)

(** A peer of the [peers://discovered] view. *)
Record ResourcePeer := mkResourcePeer {
  rsp_peerId : string;
  rsp_multiaddrs : list string;
  rsp_protocols : list string;
  rsp_lastSeen : Z
}.

(** One constructor per shape of object [handleResourceRead] returns. *)
Inductive ResourceContent :=
(* { connections: [], count: 0 } *)
| NoConnections
(* { connections, count, timestamp } *)
| ActiveConnections (connections : list Connection) (count timestamp : Z)
(* { peers: [], count: 0 } *)
| NoPeers
(* { peers, count, timestamp } *)
| ConnectedPeers (peers : list ResourcePeer) (count timestamp : Z)
(* { ...stats, timestamp } *)
| StatsContent (stats : NetworkStats) (timestamp : Z)
(* { status: 'stopped', peerId: null, addresses: [], protocols: [] } *)
| NoNodeInfo
(* { status, peerId, addresses, protocols, subscriptions, timestamp } *)
| NodeInfo (status : NodeStatus) (peerId : string)
    (addresses protocols subs : list string) (timestamp : Z)
(* { files, count, timestamp } *)
| FilesContent (files : list FileEntry) (count timestamp : Z)
(* { topic, messages, count, timestamp } *)
| TopicMessages (topic : string) (messages : list ChatMessage)
    (count timestamp : Z)
(* { peerId, messages, count, timestamp } *)
| PeerMessages (peerId : string) (messages : DirectHistory)
    (count : option Z) (timestamp : Z).

(** [uri.startsWith(prefix)] and, when it does, [uri.replace(prefix, '')]:
    the first occurrence of the prefix is then the one at the start. *)
Fixpoint strip_prefix (prefix uri : string) : option string :=
  match prefix, uri with
  | EmptyString, _ => Some uri
  | String c prefix', String d uri' =>
      if Ascii.eqb c d then strip_prefix prefix' uri' else None
  | String _ _, EmptyString => None
  end.

Section Resources.
Variable env : Env.

(** [connections.map(conn => ({ ..., lastSeen: Date.now() }))]: the clock
    is read once for each connection. *)
Fixpoint resource_peers (connections : list Connection)
  : M (list ResourcePeer) :=
  match connections with
  | [] => ret []
  | conn :: rest =>
      let* lastSeen := date_now env in
      let* peers := resource_peers rest in
      ret (mkResourcePeer (remotePeer conn) [remoteAddr conn]
             (protoNames conn) lastSeen :: peers)
  end.

Definition handleResourceRead (uri : string) : M ResourceContent :=
  let* state := getState in
  if String.eqb uri "connections://active" then
    match libp2pNode state with
    | None => ret NoConnections
    | Some _ =>
        let* connections := getConnections env None in
        let* timestamp := date_now env in
        ret (ActiveConnections connections (len connections) timestamp)
    end
  else if String.eqb uri "peers://discovered" then
    match libp2pNode state with
    | None => ret NoPeers
    | Some _ =>
        let* connections := getConnections env None in
        let* peers := resource_peers connections in
        let* timestamp := date_now env in
        ret (ConnectedPeers peers (len peers) timestamp)
    end
  else if String.eqb uri "network://stats" then
    let* stats := do_getNetworkStats env in
    let* timestamp := date_now env in
    ret (StatsContent stats timestamp)
  else if String.eqb uri "node://info" then
    match libp2pNode state with
    | None => ret NoNodeInfo
    | Some node =>
        let* addresses := getMultiaddrs env in
        let* protocols :=
          net_call call_registrar_topologies (registrar_topologies env) in
        let* timestamp := date_now env in
        ret (NodeInfo (nodeStatus state) (node_peerId node) addresses
               protocols (subscriptions state) timestamp)
    end
  else if String.eqb uri "files://shared" then
    let files :=
      map (fun file =>
             mkFileEntry (file_id file) (sender file) (len (body file))
               (match libp2pNode state with
                | Some node => String.eqb (sender file) (node_peerId node)
                | None => false
                end))
        (JsMap.values (sharedFiles state)) in
    let* timestamp := date_now env in
    ret (FilesContent files (len files) timestamp)
  else
    match strip_prefix "messages://topic/" uri with
    | Some topic =>
        let* m := getStateManager in
        let messages := getMessages topic m in
        let* timestamp := date_now env in
        ret (TopicMessages topic messages (len messages) timestamp)
    | None =>
        match strip_prefix "messages://peer/" uri with
        | Some peerId =>
            let* m := getStateManager in
            let messages := getDirectMessages peerId m in
            let* timestamp := date_now env in
            ret (PeerMessages peerId messages (history_length messages)
                   timestamp)
        | None => throw (Error ("Unknown resource URI: " +:+ uri))
        end
    end.

End Resources.

(** The resources [createResources] lists. *)
Definition listed_resources : list string :=
  ["connections://active"; "peers://discovered"; "network://stats";
   "node://info"; "files://shared"].

(** ** The routing of [src/index.ts] by tool name *)

Inductive ToolGroup :=
| node_management
| peer_management
| messaging
| file_sharing
| monitoring.

(** The chain of [includes] tests of the [CallToolRequestSchema] handler;
    [None] is [throw new Error(`Unknown tool: ${name}`)]. *)
Definition route (name : string) : option ToolGroup :=
  if includes ["create_libp2p_node"; "start_libp2p_node"; "stop_libp2p_node";
               "get_node_status"] name
  then Some node_management
  else if includes ["discover_peers"; "connect_to_peer";
                    "disconnect_from_peer"; "list_connections";
                    "get_peer_info"; "ping_peer"] name
  then Some peer_management
  else if includes ["send_group_message"; "send_direct_message";
                    "subscribe_to_topic"; "unsubscribe_from_topic";
                    "get_message_history"; "get_topic_subscribers"] name
  then Some messaging
  else if includes ["share_file"; "request_file"; "list_shared_files";
                    "announce_file"] name
  then Some file_sharing
  else if includes ["get_network_stats"; "get_protocol_handlers";
                    "enable_debug_logging"; "get_peer_store_info"] name
  then Some monitoring
  else None.

(** The [case] label each command is handled under, in its handler. *)
Definition tool_name (cmd : Command) : string :=
  match cmd with
  | NodeManagement (create_libp2p_node _) => "create_libp2p_node"
  | NodeManagement start_libp2p_node => "start_libp2p_node"
  | NodeManagement stop_libp2p_node => "stop_libp2p_node"
  | NodeManagement get_node_status => "get_node_status"
  | PeerManagement (discover_peers _) => "discover_peers"
  | PeerManagement (connect_to_peer _) => "connect_to_peer"
  | PeerManagement (disconnect_from_peer _) => "disconnect_from_peer"
  | PeerManagement list_connections => "list_connections"
  | PeerManagement (get_peer_info _) => "get_peer_info"
  | PeerManagement (ping_peer _ _) => "ping_peer"
  | Messaging (send_group_message _ _) => "send_group_message"
  | Messaging (send_direct_message _ _) => "send_direct_message"
  | Messaging (subscribe_to_topic _) => "subscribe_to_topic"
  | Messaging (unsubscribe_from_topic _) => "unsubscribe_from_topic"
  | Messaging (get_message_history _ _ _) => "get_message_history"
  | Messaging (get_topic_subscribers _) => "get_topic_subscribers"
  | FileSharing (share_file _ _ _ _) => "share_file"
  | FileSharing (request_file _ _) => "request_file"
  | FileSharing list_shared_files => "list_shared_files"
  | FileSharing (announce_file _) => "announce_file"
  | Monitoring get_network_stats => "get_network_stats"
  | Monitoring get_protocol_handlers => "get_protocol_handlers"
  | Monitoring (enable_debug_logging _ _) => "enable_debug_logging"
  | Monitoring (get_peer_store_info _) => "get_peer_store_info"
  end.

(** The handler a command belongs to. *)
Definition tool_group (cmd : Command) : ToolGroup :=
  match cmd with
  | NodeManagement _ => node_management
  | PeerManagement _ => peer_management
  | Messaging _ => messaging
  | FileSharing _ => file_sharing
  | Monitoring _ => monitoring
  end.

(** The names the five [create...Tools] functions list, in the order of the
    [ListToolsRequestSchema] handler. *)
Definition listed_tools : list string :=
  ["create_libp2p_node"; "start_libp2p_node"; "stop_libp2p_node";
   "get_node_status";
   "discover_peers"; "connect_to_peer"; "disconnect_from_peer";
   "list_connections"; "get_peer_info"; "ping_peer";
   "send_group_message"; "send_direct_message"; "subscribe_to_topic";
   "unsubscribe_from_topic"; "get_message_history"; "get_topic_subscribers";
   "share_file"; "request_file"; "list_shared_files"; "announce_file";
   "get_network_stats"; "get_protocol_handlers"; "enable_debug_logging";
   "get_peer_store_info"].

(** What the server answers to a tool call: the result, or, for anything
    thrown, the text [`Error: ${error.message}`] with [isError]. *)
Definition tool_response (o : Outcome ToolResult) : ToolResult + string :=
  match o with
  | Ok result => inl result
  | Throw e => inr ("Error: " +:+ exn_message e)
  end.

(** ** An instance of the framing: unsigned-varint length prefixes

    The length of the payload as a little-endian base-128 number, seven bits
    to a byte, the high bit set on every byte but the last, followed by the
    payload. *)

Module Varint.

Definition byte_of (n : N) : byte := default x00 (Byte.of_N n).

Fixpoint encode_fuel (fuel : nat) (n : N) : list byte :=
  match fuel with
  | O => []
  | S fuel' =>
      if (n <? 128)%N then [byte_of n]
      else byte_of (128 + n mod 128) :: encode_fuel fuel' (n / 128)
  end.

(** One step per binary digit is more than the seven-bit groups need. *)
Definition encode (n : N) : list byte :=
  encode_fuel (S (N.to_nat (N.size n))) n.

(** [MAX_LENGTH_LENGTH]: a length takes at most eight bytes. *)
Definition MAX_LENGTH_LENGTH : nat := 8.

(** The number read from at most [fuel] bytes and the bytes after it;
    [None] when the input ends, or [fuel] bytes are read, before the last
    byte of the number. *)
Fixpoint decode_fuel (fuel : nat) (bytes : list byte)
  : option (N * list byte) :=
  match fuel, bytes with
  | S fuel', b :: rest =>
      let v := Byte.to_N b in
      if (v <? 128)%N then Some (v, rest)
      else match decode_fuel fuel' rest with
           | Some (high, rest') => Some ((v - 128) + 128 * high, rest')%N
           | None => None
           end
  | _, _ => None
  end.

Definition decode (bytes : list byte) : option (N * list byte) :=
  decode_fuel MAX_LENGTH_LENGTH bytes.

Definition frame (payload : list byte) : list byte :=
  encode (N.of_nat (length payload)) ++ payload.

Definition UnexpectedEOFError : Exn :=
  mkExn "UnexpectedEOFError" "Unexpected end of input".

Definition InvalidDataLengthLengthError : Exn :=
  mkExn "InvalidDataLengthLengthError" "Message length length too long".

(** The decoder: a length that does not end within [MAX_LENGTH_LENGTH]
    bytes and a length over [MAX_DATA_LENGTH] are refused as soon as they
    are read; an input that ends inside a frame is an error at its end. *)
Fixpoint frames_fuel (fuel : nat) (bytes : list byte)
  : list (list byte) * DecodeTail :=
  match fuel, bytes with
  | O, _ | _, [] => ([], Whole)
  | S fuel', _ :: _ =>
      match decode bytes with
      | None =>
          if (MAX_LENGTH_LENGTH <? length bytes)%nat
          then ([], Invalid InvalidDataLengthLengthError)
          else ([], Truncated UnexpectedEOFError)
      | Some (n, rest) =>
          if MAX_DATA_LENGTH <? Z.of_N n
          then ([], Invalid InvalidDataLengthError)
          else if (N.of_nat (length rest) <? n)%N
          then ([], Truncated UnexpectedEOFError)
          else
            let (frames, tail) := frames_fuel fuel' (drop (N.to_nat n) rest) in
            (take (N.to_nat n) rest :: frames, tail)
      end
  end.

(** Every frame takes at least one byte. *)
Definition frames (bytes : list byte) : list (list byte) * DecodeTail :=
  frames_fuel (length bytes) bytes.

End Varint.

(** ** Notions used to state the properties *)


(** A message the framing accepts. *)
Definition within_limit (msg : list byte) : Prop :=
  len msg ≤ MAX_DATA_LENGTH.

(** The connection a reported list holds under an identifier: the last one
    with that identifier. *)
Fixpoint last_with_id (id : string) (reported : list Connection)
  : option Connection :=
  match reported with
  | [] => None
  | conn :: rest =>
      match last_with_id id rest with
      | Some later => Some later
      | None => if String.eqb id (conn_id conn) then Some conn else None
      end
  end.

Definition set_connection (acc : JsMap.t Connection) (conn : Connection) :=
  JsMap.set (conn_id conn) conn acc.

(** The last [k] elements of a list, in the words of the specification. *)
Definition last_k {A} (k : nat) (l : list A) : list A :=
  rev (take k (rev l)).

(** [N] messages appended to a topic, one [addMessage] each, in order. *)
Definition addMessages (topic : string) (messages : list ChatMessage)
    (m : StateManager) : StateManager :=
  fold_left (fun m message => addMessage topic message m) messages m.


(** One step of [js_unique]. *)
Definition add_unique (acc : list string) (x : string) : list string :=
  if existsb (String.eqb x) acc then acc else acc ++ [x].


(** The addresses the routing client answered with, each with the
    identifier of its peer, in order. *)
Definition routed_addresses (peers : list (option RoutingPeer))
  : list (string * Multiaddr) :=
  concat
    (map (fun p =>
            match p with
            | Some p => map (fun maddr => (rp_ID p, maddr)) (rp_Addrs p)
            | None => []
            end) peers).

(** An address a browser can dial that is not the loopback address. *)
Definition is_bootstrap_address (entry : string * Multiaddr) : bool :=
  is_browser_dialable entry.2
  && match ma_nodeAddress entry.2 with
     | Ok address => negb (String.eqb address "127.0.0.1")
     | Throw _ => false
     end.

(** The commands that only read: the status and listing commands, the
    probes, the history and subscriber queries, the announcement of a file
    and the monitoring commands. *)
Definition is_read_only (cmd : Command) : bool :=
  match cmd with
  | NodeManagement get_node_status => true
  | PeerManagement (discover_peers _) => true
  | PeerManagement list_connections => true
  | PeerManagement (get_peer_info _) => true
  | PeerManagement (ping_peer _ _) => true
  | Messaging (get_message_history _ _ _) => true
  | Messaging (get_topic_subscribers _) => true
  | FileSharing list_shared_files => true
  | FileSharing (announce_file _) => true
  | Monitoring _ => true
  | _ => false
  end.

(** ** Concrete collaborators and worlds, for the examples *)

Module Fixtures.

Definition alice : Libp2p := mkLibp2p "12D3KooWAlice" true.
Definition bob : Libp2p := mkLibp2p "12D3KooWBob" true.

(** A collaborator whose clock counts the interactions, whose identifiers
    are all ["uuid-1"], and that answers every other call in the simplest
    way, but for the answers given as arguments. *)
Definition test_env (created : Outcome Libp2p) (stopped : Outcome unit)
    (connections : nat → list Connection) (file : list byte)
    (stream : Outcome Stream) : Env :=
  mkEnv (fun t => Z.of_nat t) (fun _ => "uuid-1") (fun _ _ => Ok file)
    (fun _ => file) Ok Ok (fun _ _ => created)
    (fun t _ => connections t) (fun _ => []) (fun _ => Ok tt)
    (fun _ => stopped) (fun _ _ => Throw (Error "dial failed"))
    (fun _ _ => Ok tt) (fun _ _ => Ok false)
    (fun _ _ => Throw (Error "unknown peer")) (fun _ => Ok [])
    (fun _ _ _ => Ok tt) (fun _ _ => []) (fun _ _ _ => Ok [])
    (fun _ _ => Ok tt) (fun _ _ => Ok tt) (fun _ _ => Ok [])
    (fun _ _ _ => Ok true) (fun _ _ => Ok tt) (fun _ _ _ => stream)
    (fun _ => Ok []).

Definition no_stream : Outcome Stream := Throw (Error "protocol not supported").

Definition quiet_env : Env :=
  test_env (Ok alice) (Ok tt) (fun _ => []) [] no_stream.

(** The node cannot be shut down. *)
Definition stuck_env : Env :=
  test_env (Ok alice) (Throw (Error "shutdown failed")) (fun _ => []) []
    no_stream.

(** The node cannot be constructed. *)
Definition failing_env : Env :=
  test_env (Throw (Error "no transport")) (Ok tt) (fun _ => []) [] no_stream.

Definition fresh_world : World := mkWorld newStateManager 0 [].

(** After a successful [create_libp2p_node]. *)
Definition running_world : World :=
  (handleNodeManagement quiet_env
     (create_libp2p_node (mkNodeConfig None None None None)) fresh_world).2.

(** After a [stop_libp2p_node] whose shutdown raised: the node is still
    there and the phase is [stopping]. *)
Definition stopping_world : World :=
  (handleNodeManagement stuck_env stop_libp2p_node running_world).2.

(** A body of one byte more than [MAX_DATA_LENGTH]. *)
Definition large_body : list byte :=
  repeat x00 (Z.to_nat (MAX_DATA_LENGTH + 1)).

(** An identifier of one byte more than [MAX_DATA_LENGTH]. *)
Definition long_identifier : string :=
  String.string_of_list_byte (repeat x61 (Z.to_nat (MAX_DATA_LENGTH + 1))).

Definition hello (n : Z) : ChatMessage :=
  mkChatMessage "m" "hello" "12D3KooWBob" false n.

(** After a group message was sent to the topic whose name is empty. *)
Definition empty_topic_world : World :=
  (handleMessaging quiet_env (send_group_message (Some "") "hello")
     running_world).2.

End Fixtures.

(** ** More collaborators and worlds, for the examples *)

Module Samples.

(** A node without the ping service. *)
Definition carol : Libp2p := mkLibp2p "12D3KooWCarol" false.

(** A world in which [node] is stored and running since time [1]. *)
Definition world_of (node : Libp2p) : World :=
  mkWorld (setNodeStatus running 1 (setLibp2pNode (Some node) newStateManager))
    0 [].

(** The collaborator [env], but for one of its answers. *)
Definition with_multiaddr (answer : string → Outcome string)
    (env : Env) : Env :=
  mkEnv (Date_now env) (uuidv4 env) (fs_readFile env) (Buffer_from_base64 env)
    answer (peerIdFromString env) (startLibp2p env)
    (libp2p_getConnections env) (libp2p_getMultiaddrs env) (libp2p_start env)
    (libp2p_stop env) (libp2p_dial env) (libp2p_hangUp env)
    (peerStore_has env) (peerStore_get env) (peerStore_all env)
    (ping_ping env) (discovery_events env) (pubsub_publish env)
    (pubsub_subscribe env) (pubsub_unsubscribe env)
    (pubsub_getSubscribers env) (directMessage_send env) (libp2p_handle env)
    (libp2p_dialProtocol env) (registrar_topologies env).

Definition with_peerIdFromString (answer : string → Outcome string)
    (env : Env) : Env :=
  mkEnv (Date_now env) (uuidv4 env) (fs_readFile env) (Buffer_from_base64 env)
    (multiaddr env) answer (startLibp2p env) (libp2p_getConnections env)
    (libp2p_getMultiaddrs env) (libp2p_start env) (libp2p_stop env)
    (libp2p_dial env) (libp2p_hangUp env) (peerStore_has env)
    (peerStore_get env) (peerStore_all env) (ping_ping env)
    (discovery_events env) (pubsub_publish env) (pubsub_subscribe env)
    (pubsub_unsubscribe env) (pubsub_getSubscribers env)
    (directMessage_send env) (libp2p_handle env) (libp2p_dialProtocol env)
    (registrar_topologies env).

Definition with_libp2p_getConnections (answer : nat → option string → list Connection)
    (env : Env) : Env :=
  mkEnv (Date_now env) (uuidv4 env) (fs_readFile env) (Buffer_from_base64 env)
    (multiaddr env) (peerIdFromString env) (startLibp2p env) answer
    (libp2p_getMultiaddrs env) (libp2p_start env) (libp2p_stop env)
    (libp2p_dial env) (libp2p_hangUp env) (peerStore_has env)
    (peerStore_get env) (peerStore_all env) (ping_ping env)
    (discovery_events env) (pubsub_publish env) (pubsub_subscribe env)
    (pubsub_unsubscribe env) (pubsub_getSubscribers env)
    (directMessage_send env) (libp2p_handle env) (libp2p_dialProtocol env)
    (registrar_topologies env).

Definition with_libp2p_stop (answer : nat → Outcome unit)
    (env : Env) : Env :=
  mkEnv (Date_now env) (uuidv4 env) (fs_readFile env) (Buffer_from_base64 env)
    (multiaddr env) (peerIdFromString env) (startLibp2p env)
    (libp2p_getConnections env) (libp2p_getMultiaddrs env) (libp2p_start env)
    answer (libp2p_dial env) (libp2p_hangUp env) (peerStore_has env)
    (peerStore_get env) (peerStore_all env) (ping_ping env)
    (discovery_events env) (pubsub_publish env) (pubsub_subscribe env)
    (pubsub_unsubscribe env) (pubsub_getSubscribers env)
    (directMessage_send env) (libp2p_handle env) (libp2p_dialProtocol env)
    (registrar_topologies env).

Definition with_libp2p_dial (answer : nat → string → Outcome Connection)
    (env : Env) : Env :=
  mkEnv (Date_now env) (uuidv4 env) (fs_readFile env) (Buffer_from_base64 env)
    (multiaddr env) (peerIdFromString env) (startLibp2p env)
    (libp2p_getConnections env) (libp2p_getMultiaddrs env) (libp2p_start env)
    (libp2p_stop env) answer (libp2p_hangUp env) (peerStore_has env)
    (peerStore_get env) (peerStore_all env) (ping_ping env)
    (discovery_events env) (pubsub_publish env) (pubsub_subscribe env)
    (pubsub_unsubscribe env) (pubsub_getSubscribers env)
    (directMessage_send env) (libp2p_handle env) (libp2p_dialProtocol env)
    (registrar_topologies env).

Definition with_libp2p_hangUp (answer : nat → string → Outcome unit)
    (env : Env) : Env :=
  mkEnv (Date_now env) (uuidv4 env) (fs_readFile env) (Buffer_from_base64 env)
    (multiaddr env) (peerIdFromString env) (startLibp2p env)
    (libp2p_getConnections env) (libp2p_getMultiaddrs env) (libp2p_start env)
    (libp2p_stop env) (libp2p_dial env) answer (peerStore_has env)
    (peerStore_get env) (peerStore_all env) (ping_ping env)
    (discovery_events env) (pubsub_publish env) (pubsub_subscribe env)
    (pubsub_unsubscribe env) (pubsub_getSubscribers env)
    (directMessage_send env) (libp2p_handle env) (libp2p_dialProtocol env)
    (registrar_topologies env).

Definition with_peerStore_has (answer : nat → string → Outcome bool)
    (env : Env) : Env :=
  mkEnv (Date_now env) (uuidv4 env) (fs_readFile env) (Buffer_from_base64 env)
    (multiaddr env) (peerIdFromString env) (startLibp2p env)
    (libp2p_getConnections env) (libp2p_getMultiaddrs env) (libp2p_start env)
    (libp2p_stop env) (libp2p_dial env) (libp2p_hangUp env) answer
    (peerStore_get env) (peerStore_all env) (ping_ping env)
    (discovery_events env) (pubsub_publish env) (pubsub_subscribe env)
    (pubsub_unsubscribe env) (pubsub_getSubscribers env)
    (directMessage_send env) (libp2p_handle env) (libp2p_dialProtocol env)
    (registrar_topologies env).

Definition with_peerStore_get (answer : nat → string → Outcome StoredPeer)
    (env : Env) : Env :=
  mkEnv (Date_now env) (uuidv4 env) (fs_readFile env) (Buffer_from_base64 env)
    (multiaddr env) (peerIdFromString env) (startLibp2p env)
    (libp2p_getConnections env) (libp2p_getMultiaddrs env) (libp2p_start env)
    (libp2p_stop env) (libp2p_dial env) (libp2p_hangUp env)
    (peerStore_has env) answer (peerStore_all env) (ping_ping env)
    (discovery_events env) (pubsub_publish env) (pubsub_subscribe env)
    (pubsub_unsubscribe env) (pubsub_getSubscribers env)
    (directMessage_send env) (libp2p_handle env) (libp2p_dialProtocol env)
    (registrar_topologies env).

Definition with_peerStore_all (answer : nat → Outcome (list StoredPeer))
    (env : Env) : Env :=
  mkEnv (Date_now env) (uuidv4 env) (fs_readFile env) (Buffer_from_base64 env)
    (multiaddr env) (peerIdFromString env) (startLibp2p env)
    (libp2p_getConnections env) (libp2p_getMultiaddrs env) (libp2p_start env)
    (libp2p_stop env) (libp2p_dial env) (libp2p_hangUp env)
    (peerStore_has env) (peerStore_get env) answer (ping_ping env)
    (discovery_events env) (pubsub_publish env) (pubsub_subscribe env)
    (pubsub_unsubscribe env) (pubsub_getSubscribers env)
    (directMessage_send env) (libp2p_handle env) (libp2p_dialProtocol env)
    (registrar_topologies env).

Definition with_discovery_events (answer : nat → Z → list DiscoveredPeer)
    (env : Env) : Env :=
  mkEnv (Date_now env) (uuidv4 env) (fs_readFile env) (Buffer_from_base64 env)
    (multiaddr env) (peerIdFromString env) (startLibp2p env)
    (libp2p_getConnections env) (libp2p_getMultiaddrs env) (libp2p_start env)
    (libp2p_stop env) (libp2p_dial env) (libp2p_hangUp env)
    (peerStore_has env) (peerStore_get env) (peerStore_all env)
    (ping_ping env) answer (pubsub_publish env) (pubsub_subscribe env)
    (pubsub_unsubscribe env) (pubsub_getSubscribers env)
    (directMessage_send env) (libp2p_handle env) (libp2p_dialProtocol env)
    (registrar_topologies env).

Definition with_pubsub_publish (answer : nat → string → list byte → Outcome (list string))
    (env : Env) : Env :=
  mkEnv (Date_now env) (uuidv4 env) (fs_readFile env) (Buffer_from_base64 env)
    (multiaddr env) (peerIdFromString env) (startLibp2p env)
    (libp2p_getConnections env) (libp2p_getMultiaddrs env) (libp2p_start env)
    (libp2p_stop env) (libp2p_dial env) (libp2p_hangUp env)
    (peerStore_has env) (peerStore_get env) (peerStore_all env)
    (ping_ping env) (discovery_events env) answer (pubsub_subscribe env)
    (pubsub_unsubscribe env) (pubsub_getSubscribers env)
    (directMessage_send env) (libp2p_handle env) (libp2p_dialProtocol env)
    (registrar_topologies env).

Definition with_pubsub_subscribe (answer : nat → string → Outcome unit)
    (env : Env) : Env :=
  mkEnv (Date_now env) (uuidv4 env) (fs_readFile env) (Buffer_from_base64 env)
    (multiaddr env) (peerIdFromString env) (startLibp2p env)
    (libp2p_getConnections env) (libp2p_getMultiaddrs env) (libp2p_start env)
    (libp2p_stop env) (libp2p_dial env) (libp2p_hangUp env)
    (peerStore_has env) (peerStore_get env) (peerStore_all env)
    (ping_ping env) (discovery_events env) (pubsub_publish env) answer
    (pubsub_unsubscribe env) (pubsub_getSubscribers env)
    (directMessage_send env) (libp2p_handle env) (libp2p_dialProtocol env)
    (registrar_topologies env).

Definition with_pubsub_getSubscribers (answer : nat → string → Outcome (list string))
    (env : Env) : Env :=
  mkEnv (Date_now env) (uuidv4 env) (fs_readFile env) (Buffer_from_base64 env)
    (multiaddr env) (peerIdFromString env) (startLibp2p env)
    (libp2p_getConnections env) (libp2p_getMultiaddrs env) (libp2p_start env)
    (libp2p_stop env) (libp2p_dial env) (libp2p_hangUp env)
    (peerStore_has env) (peerStore_get env) (peerStore_all env)
    (ping_ping env) (discovery_events env) (pubsub_publish env)
    (pubsub_subscribe env) (pubsub_unsubscribe env) answer
    (directMessage_send env) (libp2p_handle env) (libp2p_dialProtocol env)
    (registrar_topologies env).

Definition with_directMessage_send (answer : nat → string → string → Outcome bool)
    (env : Env) : Env :=
  mkEnv (Date_now env) (uuidv4 env) (fs_readFile env) (Buffer_from_base64 env)
    (multiaddr env) (peerIdFromString env) (startLibp2p env)
    (libp2p_getConnections env) (libp2p_getMultiaddrs env) (libp2p_start env)
    (libp2p_stop env) (libp2p_dial env) (libp2p_hangUp env)
    (peerStore_has env) (peerStore_get env) (peerStore_all env)
    (ping_ping env) (discovery_events env) (pubsub_publish env)
    (pubsub_subscribe env) (pubsub_unsubscribe env)
    (pubsub_getSubscribers env) answer (libp2p_handle env)
    (libp2p_dialProtocol env) (registrar_topologies env).

Definition with_libp2p_handle (answer : nat → string → Outcome unit)
    (env : Env) : Env :=
  mkEnv (Date_now env) (uuidv4 env) (fs_readFile env) (Buffer_from_base64 env)
    (multiaddr env) (peerIdFromString env) (startLibp2p env)
    (libp2p_getConnections env) (libp2p_getMultiaddrs env) (libp2p_start env)
    (libp2p_stop env) (libp2p_dial env) (libp2p_hangUp env)
    (peerStore_has env) (peerStore_get env) (peerStore_all env)
    (ping_ping env) (discovery_events env) (pubsub_publish env)
    (pubsub_subscribe env) (pubsub_unsubscribe env)
    (pubsub_getSubscribers env) (directMessage_send env) answer
    (libp2p_dialProtocol env) (registrar_topologies env).

Definition with_fs_readFile (answer : nat → string → Outcome (list byte))
    (env : Env) : Env :=
  mkEnv (Date_now env) (uuidv4 env) answer (Buffer_from_base64 env)
    (multiaddr env) (peerIdFromString env) (startLibp2p env)
    (libp2p_getConnections env) (libp2p_getMultiaddrs env) (libp2p_start env)
    (libp2p_stop env) (libp2p_dial env) (libp2p_hangUp env)
    (peerStore_has env) (peerStore_get env) (peerStore_all env)
    (ping_ping env) (discovery_events env) (pubsub_publish env)
    (pubsub_subscribe env) (pubsub_unsubscribe env)
    (pubsub_getSubscribers env) (directMessage_send env) (libp2p_handle env)
    (libp2p_dialProtocol env) (registrar_topologies env).

Definition conn (id peer addr : string) (protos : list string)
  : Connection :=
  mkConnection id peer addr protos "open" "outbound" 1.

End Samples.

(** ** Properties *)

(** Unfolds the monadic plumbing of a handler run in a hypothesis. *)
Ltac run_in H :=
  unfold uuid, date_now in H;
  unfold try_catch, bind, net_call, env_call, modify, ret, throw, lift,
    getState, getStateManager in H;
  cbn [fst snd sm tick netlog] in H.

(** *** The model computes *)

Example slice_last_two : slice (- 2) [1; 2; 3] = [2; 3].
Proof. reflexivity. Qed.

Example slice_more_than_all : slice (- 5) [1; 2; 3] = [1; 2; 3].
Proof. reflexivity. Qed.

Example slice_minus_zero : slice (- 0) [1; 2; 3] = [1; 2; 3].
Proof. reflexivity. Qed.

Example slice_negative_limit : slice (- (- 1)) [1; 2; 3] = [2; 3].
Proof. reflexivity. Qed.

Example truthy_empty : truthy (Some "") = None ∧ truthy (Some "t") = Some "t".
Proof. split; reflexivity. Qed.

Example last_segment_of_path : last_segment "/tmp/files/a.bin" "" = "a.bin".
Proof. reflexivity. Qed.

Example js_unique_keeps_first :
  js_unique ["a"; "b"; "a"; "c"] = ["a"; "b"; "c"].
Proof. reflexivity. Qed.

Example error_toString :
  exn_toString (Error "No file data received")
  = "Error: No file data received".
Proof. reflexivity. Qed.

Example JsMap_set_keeps_position :
  JsMap.set "a" 3 (JsMap.set "b" 2 (JsMap.set "a" 1 JsMap.empty))
  = [("a", 3); ("b", 2)].
Proof. reflexivity. Qed.

Example varint_300 : Varint.encode 300 = [xac; x02]%byte.
Proof. reflexivity. Qed.

Example varint_frames_two :
  Varint.frames (Varint.frame [x0a; x0b] ++ Varint.frame [])%byte
  = ([[x0a; x0b]; []]%byte, Whole).
Proof. reflexivity. Qed.

Example varint_frames_truncated :
  Varint.frames [x03; x0a]%byte = ([], Truncated Varint.UnexpectedEOFError).
Proof. reflexivity. Qed.

Example varint_frames_too_long :
  Varint.frames (Varint.encode 4194305 ++ [x0a])%byte
  = ([], Invalid InvalidDataLengthError).
Proof. reflexivity. Qed.

Example varint_frames_endless_length :
  Varint.frames (repeat xff 9)%byte
  = ([], Invalid Varint.InvalidDataLengthLengthError).
Proof. reflexivity. Qed.

Example created_node_is_running :
  libp2pNode (state (sm Fixtures.running_world)) = Some Fixtures.alice ∧
  nodeStatus (state (sm Fixtures.running_world)) = running ∧
  netlog Fixtures.running_world
  = [call_startLibp2p (mkNodeConfig None None None None);
     call_addEventListener "connection:open";
     call_addEventListener "connection:close"; call_getMultiaddrs].
Proof. repeat split; reflexivity. Qed.

Example stopped_node_is_gone :
  handleNodeManagement Fixtures.quiet_env stop_libp2p_node
    Fixtures.running_world
  = (Ok NodeStopped,
     mkWorld
       (setLibp2pNode None
          (setNodeStatus stopped 0 (sm Fixtures.running_world)))
       (S (tick Fixtures.running_world))
       (netlog Fixtures.running_world ++ [call_stop])).
Proof. reflexivity. Qed.

(** *** The unsigned-varint framing is a framing *)

Lemma varint_byte_of_to_N n : (n < 256)%N → Byte.to_N (Varint.byte_of n) = n.
Proof.
  intros Hn. unfold Varint.byte_of.
  destruct (Byte.of_N n) as [b|] eqn:Hb.
  - now apply Byte.to_of_N.
  - apply Byte.of_N_None_iff in Hb. lia.
Qed.

Lemma varint_decode_small k n rest :
  (n < 128)%N →
  Varint.decode_fuel (S k) (Varint.byte_of n :: rest) = Some (n, rest).
Proof.
  intros Hn. cbn [Varint.decode_fuel]. rewrite varint_byte_of_to_N by lia.
  apply N.ltb_lt in Hn. now rewrite Hn.
Qed.

Lemma varint_decode_continued k low high rest rest' :
  (low < 128)%N →
  Varint.decode_fuel k rest = Some (high, rest') →
  Varint.decode_fuel (S k) (Varint.byte_of (128 + low) :: rest)
  = Some ((low + 128 * high)%N, rest').
Proof.
  intros Hlow Hrest. cbn [Varint.decode_fuel].
  rewrite varint_byte_of_to_N by lia.
  replace (128 + low <? 128)%N with false
    by (symmetry; apply N.ltb_ge, N.le_add_r).
  rewrite Hrest. do 3 f_equal. lia.
Qed.

(** A number below [128 ^ k] is written in at most [k] bytes. *)
Lemma varint_decode_encode_fuel fuel : ∀ k n rest,
  (n < 2 ^ N.of_nat fuel)%N →
  (n < 128 ^ N.of_nat (S k))%N →
  Varint.decode_fuel (S k) (Varint.encode_fuel (S fuel) n ++ rest)
  = Some (n, rest).
Proof.
  induction fuel as [|fuel IH]; intros k n rest Hn Hk;
    cbn [Varint.encode_fuel]; destruct (n <? 128)%N eqn:Hsmall.
  - apply N.ltb_lt in Hsmall. now apply varint_decode_small.
  - apply N.ltb_ge in Hsmall. simpl in Hn. lia.
  - apply N.ltb_lt in Hsmall. now apply varint_decode_small.
  - apply N.ltb_ge in Hsmall.
    assert (Hmod : (n mod 128 < 128)%N) by (apply N.mod_lt; lia).
    destruct k as [|k]; [simpl in Hk; lia|].
    change (Varint.encode_fuel (S fuel) n) with
      (if (n <? 128)%N then [Varint.byte_of n]
       else Varint.byte_of (128 + n mod 128)
            :: Varint.encode_fuel fuel (n / 128)) in IH.
    cbn [app].
    rewrite (varint_decode_continued (S k) (n mod 128) (n / 128) _ rest Hmod).
    + f_equal. f_equal. pose proof (N.div_mod n 128 ltac:(lia)). lia.
    + apply IH.
      * apply N.Div0.div_lt_upper_bound.
        rewrite Nat2N.inj_succ, N.pow_succ_r' in Hn. lia.
      * apply N.Div0.div_lt_upper_bound.
        rewrite (Nat2N.inj_succ (S k)), N.pow_succ_r' in Hk. lia.
Qed.

Lemma varint_decode_encode n rest :
  (n < 128 ^ 8)%N →
  Varint.decode (Varint.encode n ++ rest) = Some (n, rest).
Proof.
  intros Hn. apply varint_decode_encode_fuel; [|exact Hn].
  rewrite N2Nat.id. apply N.size_gt.
Qed.

Lemma varint_encode_nonempty n : Varint.encode n ≠ [].
Proof.
  unfold Varint.encode. cbn [Varint.encode_fuel]. now destruct (n <? 128)%N.
Qed.

Lemma varint_frames_fuel_frame fuel payload bytes :
  len payload ≤ MAX_DATA_LENGTH →
  Varint.frames_fuel (S fuel) (Varint.frame payload ++ bytes) =
  (payload :: (Varint.frames_fuel fuel bytes).1,
   (Varint.frames_fuel fuel bytes).2).
Proof.
  intros Hmax. unfold len, MAX_DATA_LENGTH in Hmax.
  unfold Varint.frame. rewrite <- app_assoc.
  destruct (Varint.encode (N.of_nat (length payload))) as [|b enc] eqn:Henc;
    [now apply varint_encode_nonempty in Henc|].
  cbn [app Varint.frames_fuel]. change (b :: enc ++ ?l) with ((b :: enc) ++ l).
  rewrite <- Henc, varint_decode_encode
    by (change (128 ^ 8)%N with 72057594037927936%N; lia).
  replace (MAX_DATA_LENGTH <? Z.of_N (N.of_nat (length payload))) with false
    by (symmetry; apply Z.ltb_ge; unfold MAX_DATA_LENGTH; lia).
  replace (N.of_nat (length (payload ++ bytes)) <? N.of_nat (length payload))%N
    with false by (symmetry; apply N.ltb_ge; rewrite length_app; lia).
  rewrite Nat2N.id, drop_app_length, take_app_length.
  now destruct (Varint.frames_fuel fuel bytes).
Qed.

Lemma varint_frame_length payload : (1 ≤ length (Varint.frame payload))%nat.
Proof.
  unfold Varint.frame. rewrite length_app.
  pose proof (varint_encode_nonempty (N.of_nat (length payload))).
  destruct (Varint.encode (N.of_nat (length payload))); [done|cbn; lia].
Qed.

Lemma varint_frames_fuel_concat payloads : ∀ fuel,
  Forall (fun msg => len msg ≤ MAX_DATA_LENGTH) payloads →
  (length (concat (map Varint.frame payloads)) ≤ fuel)%nat →
  Varint.frames_fuel fuel (concat (map Varint.frame payloads))
  = (payloads, Whole).
Proof.
  induction payloads as [|payload rest IH]; intros fuel Hmax Hfuel.
  - now destruct fuel.
  - apply Forall_cons in Hmax as [Hpayload Hrest].
    cbn [map concat] in *. rewrite length_app in Hfuel.
    pose proof (varint_frame_length payload).
    destruct fuel as [|fuel]; [lia|].
    rewrite varint_frames_fuel_frame, IH by (done || lia). done.
Qed.

Lemma varint_frames_concat payloads :
  Forall (fun msg => len msg ≤ MAX_DATA_LENGTH) payloads →
  Varint.frames (concat (map Varint.frame payloads)) = (payloads, Whole).
Proof. intros Hmax. apply varint_frames_fuel_concat; [done|lia]. Qed.

#[global] Instance varint_framing : Framing :=
  {| lp_frame := Varint.frame;
     lp_decode := Varint.frames;
     lp_decode_frames := varint_frames_concat |}.

(** *** [JsMap] *)

Lemma JsMap_get_set_eq {V} k (v : V) m : JsMap.get k (JsMap.set k v m) = Some v.
Proof.
  induction m as [|[k' v'] m IH]; cbn.
  - now rewrite String.eqb_refl.
  - destruct (String.eqb k k') eqn:E; cbn; rewrite ?E, ?String.eqb_refl; auto.
Qed.

Lemma JsMap_get_set_ne {V} k k' (v : V) m :
  k ≠ k' → JsMap.get k' (JsMap.set k v m) = JsMap.get k' m.
Proof.
  intros Hne. induction m as [|[k0 v0] m IH]; cbn.
  - destruct (String.eqb_spec k' k); congruence.
  - destruct (String.eqb_spec k k0) as [->|]; cbn.
    + destruct (String.eqb_spec k' k0); congruence.
    + now rewrite IH.
Qed.

Lemma JsMap_set_fresh {V} k (v : V) m :
  k ∉ JsMap.keys m → JsMap.set k v m = m ++ [(k, v)].
Proof.
  induction m as [|[k' v'] m IH]; cbn; [done|].
  intros Hk. apply not_elem_of_cons in Hk as [Hne Hk].
  destruct (String.eqb_spec k k'); [done|]. now rewrite IH.
Qed.

(** *** The guard of the command surface *)




(** *** The lifecycle coordinator *)

(** C2: when a node handle is stored, [create_libp2p_node] throws at once;
    the world is left as it was, so the phase and the stored handle are
    unchanged and the network subsystem is not called. *)
Theorem create_twice_fails (env : Env) (args : NodeConfig) (w : World)
    (node : Libp2p) :
  libp2pNode (state (sm w)) = Some node →
  handleNodeManagement env (create_libp2p_node args) w
  = (Throw (Error "Libp2p node already exists. Stop the current node first."),
     w).
Proof.
  intros Hnode. unfold handleNodeManagement, bind at 1, getState.
  now rewrite Hnode.
Qed.

Lemma create_twice_fails_witness :
  handleNodeManagement Fixtures.quiet_env
    (create_libp2p_node (mkNodeConfig None None None None))
    Fixtures.running_world
  = (Throw (Error "Libp2p node already exists. Stop the current node first."),
     Fixtures.running_world).
Proof.
  apply (create_twice_fails _ _ _ Fixtures.alice). reflexivity.
Defined.

(** C3: when no node handle is stored and [startLibp2p] raises,
    [create_libp2p_node] throws an error that carries the one raised, the
    phase is [stopped] and no handle is stored; the rest of the state is
    untouched. *)
Theorem failed_create_leaves_no_node (env : Env) (args : NodeConfig)
    (w : World) (e : Exn) :
  libp2pNode (state (sm w)) = None →
  startLibp2p env (tick w) args = Throw e →
  ∃ w',
    handleNodeManagement env (create_libp2p_node args) w
    = (Throw (Error ("Failed to create libp2p node: " +:+ exn_toString e)),
       w') ∧
    nodeStatus (state (sm w')) = stopped ∧
    libp2pNode (state (sm w')) = None ∧
    sm w' = setNodeStatus stopped 0 (sm w).
Proof.
  intros Hnode Hstart. destruct args as [tr rl bs la].
  eexists. split.
  - unfold handleNodeManagement, bind at 1, getState. rewrite Hnode.
    unfold do_setNodeStatus, try_catch, bind, getStateManager, modify,
      net_call, throw.
    cbn. rewrite Hstart. cbn. reflexivity.
  - cbn [sm]. unfold setNodeStatus. cbn. rewrite Hnode. done.
Qed.

Lemma failed_create_leaves_no_node_witness :
  ∃ w',
    handleNodeManagement Fixtures.failing_env
      (create_libp2p_node (mkNodeConfig None None None None))
      Fixtures.fresh_world
    = (Throw (Error "Failed to create libp2p node: Error: no transport"),
       w') ∧
    nodeStatus (state (sm w')) = stopped ∧
    libp2pNode (state (sm w')) = None ∧
    sm w' = setNodeStatus stopped 0 (sm Fixtures.fresh_world).
Proof.
  apply (failed_create_leaves_no_node Fixtures.failing_env
           (mkNodeConfig None None None None) Fixtures.fresh_world
           (Error "no transport")); reflexivity.
Defined.

(** *** The connection registry *)

Lemma get_fold_set_connection reported : ∀ acc id,
  JsMap.get id (fold_left set_connection reported acc)
  = match last_with_id id reported with
    | Some conn => Some conn
    | None => JsMap.get id acc
    end.
Proof.
  induction reported as [|conn rest IH]; intros acc id; cbn; [done|].
  rewrite IH. destruct (last_with_id id rest); [done|].
  unfold set_connection.
  destruct (String.eqb_spec id (conn_id conn)) as [->|Hne].
  - apply JsMap_get_set_eq.
  - now apply JsMap_get_set_ne.
Qed.

Lemma fold_set_connection_distinct reported : ∀ acc,
  NoDup (JsMap.keys acc ++ map conn_id reported) →
  fold_left set_connection reported acc
  = acc ++ map (fun conn => (conn_id conn, conn)) reported.
Proof.
  induction reported as [|conn rest IH]; intros acc Hnodup; cbn.
  - now rewrite app_nil_r.
  - cbn in Hnodup. apply NoDup_app in Hnodup as (Hacc & Hfresh & Hrest).
    apply NoDup_cons in Hrest as [Hconn Hrest].
    unfold set_connection at 2. rewrite JsMap_set_fresh.
    + rewrite IH, <- app_assoc; [done|].
      unfold JsMap.keys. rewrite map_app. cbn.
      apply NoDup_app. split_and!; [| |done].
      * apply NoDup_app. split_and!; [done| |apply NoDup_singleton].
        intros k Hk Hin. apply list_elem_of_singleton in Hin as ->.
        apply (Hfresh _ Hk). left.
      * intros k Hk Hin. apply elem_of_app in Hk as [Hk|Hk].
        -- apply (Hfresh _ Hk). now right.
        -- apply list_elem_of_singleton in Hk as ->. done.
    + intros Hin. apply (Hfresh _ Hin). left.
Qed.

Lemma updateConnections_replaces later earlier m :
  updateConnections later (updateConnections earlier m)
  = updateConnections later m.
Proof. reflexivity. Qed.

Lemma on_connection_events_run (env : Env) events : ∀ ev w,
  on_connection_events env (events ++ [ev]) w
  = (Ok tt,
     mkWorld
       (updateConnections
          (libp2p_getConnections env (tick w + length events)%nat None) (sm w))
       (S (tick w + length events))
       (netlog w
        ++ repeat (call_getConnections None) (S (length events)))).
Proof.
  induction events as [|ev0 events IH]; intros ev w.
  - cbn. unfold bind, on_connection_event, getConnections, bind, net_call,
      modify, ret. cbn. now rewrite Nat.add_0_r.
  - cbn [app on_connection_events]. unfold bind at 1.
    unfold on_connection_event at 1, getConnections, bind, net_call, modify.
    cbn [fst snd]. rewrite IH. cbn [sm tick netlog length].
    rewrite updateConnections_replaces, <- app_assoc.
    now rewrite Nat.add_succ_r.
Qed.

(** C6: after any non-empty sequence of connection events, the state is the
    initial one with its connection map replaced by the list the collaborator
    reported at the last event: every identifier maps to the connection the
    list holds for it, and when the identifiers of the list are distinct the
    entries of the map are the list itself, in its order. Reporting the same
    list once more changes nothing. *)
Theorem connections_follow_reports (env : Env)
    (events : list ConnectionEvent) (ev : ConnectionEvent) (w : World) :
  let w' := (on_connection_events env (events ++ [ev]) w).2 in
  let reported :=
    libp2p_getConnections env (tick w + length events)%nat None in
  let stored := activeConnections (state (sm w')) in
  sm w' = updateConnections reported (sm w) ∧
  (∀ id, JsMap.get id stored = last_with_id id reported) ∧
  (NoDup (map conn_id reported) →
   JsMap.values stored = reported ∧
   JsMap.keys stored = map conn_id reported) ∧
  updateConnections reported (sm w') = sm w'.
Proof.
  intros w' reported stored. subst w' stored.
  rewrite on_connection_events_run. cbn [snd sm]. fold reported.
  split_and!; [done| | |done].
  - intros id. cbn. change (fold_left _ reported JsMap.empty)
      with (fold_left set_connection reported JsMap.empty).
    rewrite get_fold_set_connection. now destruct (last_with_id id reported).
  - intros Hnodup. cbn. change (fold_left _ reported JsMap.empty)
      with (fold_left set_connection reported JsMap.empty).
    rewrite fold_set_connection_distinct by done. cbn.
    unfold JsMap.values, JsMap.keys. rewrite !map_map. cbn.
    split; [apply map_id|done].
Qed.

Lemma connections_follow_reports_witness :
  let env :=
    Fixtures.test_env (Ok Fixtures.alice) (Ok tt)
      (fun t =>
         take t
           [mkConnection "c1" "12D3KooWBob" "/ip4/10.0.0.2" [] "open"
              "outbound" 1;
            mkConnection "c2" "12D3KooWCarol" "/ip4/10.0.0.3" [] "open"
              "inbound" 2])
      [] Fixtures.no_stream in
  JsMap.keys
    (activeConnections
       (state (sm (on_connection_events env
                     ([connection_open; connection_open] ++ [connection_close])
                     Fixtures.fresh_world).2)))
  = ["c1"; "c2"].
Proof.
  intros env.
  pose proof (connections_follow_reports env
                [connection_open; connection_open] connection_close
                Fixtures.fresh_world) as (_ & _ & Hlist & _).
  apply Hlist. apply (bool_decide_unpack _). reflexivity.
Defined.

(** *** Message histories *)

Lemma slice_neg_last_k {A} (k : Z) (l : list A) :
  0 < k → slice (- k) l = last_k (Z.to_nat k) l.
Proof.
  intros Hk. unfold slice, last_k, len.
  replace (- k <? 0) with true by (symmetry; apply Z.ltb_lt; lia).
  rewrite firstn_rev, rev_involutive. f_equal. lia.
Qed.

Lemma slice_zero {A} (l : list A) : slice (- 0) l = l.
Proof.
  unfold slice, len. cbn [Z.opp Z.ltb Z.compare].
  now rewrite Z.min_l by lia.
Qed.

Lemma last_k_all {A} (k : nat) (l : list A) :
  (length l ≤ k)%nat → last_k k l = l.
Proof.
  intros Hk. unfold last_k.
  rewrite firstn_all2 by (rewrite length_rev; lia). apply rev_involutive.
Qed.

Lemma last_k_length {A} (k : nat) (l : list A) :
  length (last_k k l) = Nat.min k (length l).
Proof. unfold last_k. now rewrite length_rev, length_take, length_rev. Qed.

Lemma getMessages_addMessage topic message m :
  getMessages topic (addMessage topic message m)
  = getMessages topic m ++ [message].
Proof.
  unfold getMessages, addMessage, JsMap.has. cbn.
  rewrite JsMap_get_set_eq. cbn.
  destruct (JsMap.get topic (messageHistory (state m))) eqn:Hget;
    [now rewrite Hget|].
  now rewrite JsMap_get_set_eq.
Qed.

Lemma getMessages_addMessage_ne topic topic' message m :
  topic ≠ topic' →
  getMessages topic' (addMessage topic message m) = getMessages topic' m.
Proof.
  intros Hne. unfold getMessages, addMessage, JsMap.has. cbn.
  rewrite JsMap_get_set_ne by done.
  destruct (JsMap.get topic (messageHistory (state m))); [done|].
  now rewrite JsMap_get_set_ne.
Qed.

Lemma getMessages_addMessages topic messages : ∀ m,
  getMessages topic (addMessages topic messages m)
  = getMessages topic m ++ messages.
Proof.
  induction messages as [|message rest IH]; intros m; cbn.
  - now rewrite app_nil_r.
  - unfold addMessages in IH. rewrite IH, getMessages_addMessage.
    now rewrite <- app_assoc.
Qed.

Lemma libp2pNode_addMessages topic messages : ∀ m,
  libp2pNode (state (addMessages topic messages m)) = libp2pNode (state m).
Proof.
  induction messages as [|message rest IH]; intros m; cbn; [done|].
  unfold addMessages in IH. now rewrite IH.
Qed.

Lemma get_topic_history (env : Env) (w : World) (node : Libp2p)
    (topic : string) (peerId : option string) (limit : Z) :
  libp2pNode (state (sm w)) = Some node →
  topic ≠ "" →
  handleMessaging env (get_message_history (Some topic) peerId (Some limit)) w
  = (Ok (TopicHistory topic (slice (- limit) (getMessages topic (sm w)))
           (len (slice (- limit) (getMessages topic (sm w))))), w).
Proof.
  intros Hnode Htopic. unfold handleMessaging, bind at 1, getState.
  rewrite Hnode. cbn [truthy default].
  destruct (String.eqb_spec topic ""); [done|]. reflexivity.
Qed.

Lemma get_peer_history (env : Env) (w : World) (node : Libp2p)
    (topic : option string) (peerId : string) (limit : Z) :
  libp2pNode (state (sm w)) = Some node →
  truthy topic = None →
  peerId ≠ "" →
  handleMessaging env (get_message_history topic (Some peerId) (Some limit)) w
  = (match getDirectMessages peerId (sm w) with
     | Messages stored =>
         Ok (PeerHistory peerId (slice (- limit) stored)
               (len (slice (- limit) stored)))
     | Inherited _ =>
         Throw (TypeError "stateManager.getDirectMessages(...).slice is not a function")
     end, w).
Proof.
  intros Hnode Htopic Hpeer. unfold handleMessaging, bind at 1, getState.
  rewrite Hnode, Htopic. cbn [truthy default].
  destruct (String.eqb_spec peerId ""); [done|].
  unfold bind, getStateManager.
  now destruct (getDirectMessages peerId (sm w)).
Qed.

Lemma get_no_history (env : Env) (w : World) (node : Libp2p)
    (topic peerId : option string) (limit : option Z) :
  libp2pNode (state (sm w)) = Some node →
  truthy topic = None →
  truthy peerId = None →
  handleMessaging env (get_message_history topic peerId limit) w
  = (Throw (Error "Either topic or peerId must be specified"), w).
Proof.
  intros Hnode Htopic Hpeer. unfold handleMessaging, bind at 1, getState.
  now rewrite Hnode, Htopic, Hpeer.
Qed.

(** C7, as the code has it: appending [N] messages to a topic that has no
    history yields a history of exactly these messages, in the order of
    arrival; and, while a node is stored, for a topic whose name is not
    empty and a positive integer [k], [get_message_history] with
    [limit = k] returns the last [k] of them (all of them when there are at
    most [k]) and leaves the world as it is. For the topic whose name is
    empty, called without a peer identifier that is not empty,
    [get_message_history] throws "Either topic or peerId must be specified"
    whatever the history holds. *)
Theorem history_append_and_limit (env : Env) (w : World) (node : Libp2p)
    (topic : string) (messages : list ChatMessage) (k : Z)
    (peerId : option string) :
  libp2pNode (state (sm w)) = Some node →
  getMessages topic (sm w) = [] →
  0 < k →
  let w' := mkWorld (addMessages topic messages (sm w)) (tick w) (netlog w) in
  getMessages topic (sm w') = messages ∧
  length (getMessages topic (sm w')) = length messages ∧
  (topic ≠ "" →
   handleMessaging env (get_message_history (Some topic) peerId (Some k)) w'
   = (Ok (TopicHistory topic (last_k (Z.to_nat k) messages)
            (Z.min k (len messages))), w') ∧
   (len messages ≤ k → last_k (Z.to_nat k) messages = messages)) ∧
  (topic = "" → truthy peerId = None →
   handleMessaging env (get_message_history (Some topic) peerId (Some k)) w'
   = (Throw (Error "Either topic or peerId must be specified"), w')).
Proof.
  intros Hnode Hempty Hk w'.
  assert (Hhistory : getMessages topic (sm w') = messages).
  { subst w'. cbn [sm]. now rewrite getMessages_addMessages, Hempty. }
  assert (Hnode' : libp2pNode (state (sm w')) = Some node)
    by (subst w'; cbn [sm]; now rewrite libp2pNode_addMessages).
  split_and!; [done|now rewrite Hhistory| |].
  - intros Htopic. split.
    + rewrite (get_topic_history env w' node) by done.
      rewrite Hhistory, slice_neg_last_k by done.
      do 3 f_equal. unfold len. rewrite last_k_length. lia.
    + intros Hfew. apply last_k_all. unfold len in Hfew. lia.
  - intros -> Hpeer. now apply (get_no_history env w' node).
Qed.

Lemma history_append_and_limit_witness :
  let w' :=
    mkWorld
      (addMessages "chat" [Fixtures.hello 1; Fixtures.hello 2; Fixtures.hello 3]
         (sm Fixtures.running_world))
      (tick Fixtures.running_world) (netlog Fixtures.running_world) in
  handleMessaging Fixtures.quiet_env
    (get_message_history (Some "chat") None (Some 2)) w'
  = (Ok (TopicHistory "chat" [Fixtures.hello 2; Fixtures.hello 3] 2), w').
Proof.
  intros w'.
  pose proof (history_append_and_limit Fixtures.quiet_env
                Fixtures.running_world Fixtures.alice "chat"
                [Fixtures.hello 1; Fixtures.hello 2; Fixtures.hello 3] 2 None
                eq_refl eq_refl eq_refl) as (_ & _ & Hlimit & _).
  destruct Hlimit as [Hlimit _]; [discriminate|]. exact Hlimit.
Defined.

(** C7 as stated fails for the topic whose name is the empty string: a
    message can be appended to its history ([send_group_message] does so),
    but [get_message_history] takes the empty name for a missing argument
    and throws. *)
Lemma empty_topic_history_is_refused :
  libp2pNode (state (sm Fixtures.empty_topic_world)) = Some Fixtures.alice ∧
  getMessages "" (sm Fixtures.empty_topic_world)
  = [mkChatMessage "uuid-1" "hello" "12D3KooWAlice" true 7] ∧
  handleMessaging Fixtures.quiet_env
    (get_message_history (Some "") None (Some 1)) Fixtures.empty_topic_world
  = (Throw (Error "Either topic or peerId must be specified"),
     Fixtures.empty_topic_world).
Proof. repeat split; reflexivity. Qed.

(** C10, as the code has it: with [limit] set to [0], [get_message_history]
    returns the whole history of a topic whose name is not empty and, when
    no such topic is given, the whole direct-message history stored for a
    peer whose identifier is not empty; so a history that is not empty is
    not returned as an empty list. For a peer for which nothing is stored
    the answer is the empty history, unless the identifier is the name of a
    member of [Object.prototype]: then the call throws a [TypeError]. *)
Theorem zero_limit_returns_everything (env : Env) (w : World) (node : Libp2p)
    (topic peerId : string) (other_peerId other_topic : option string) :
  libp2pNode (state (sm w)) = Some node →
  (topic ≠ "" →
   handleMessaging env
     (get_message_history (Some topic) other_peerId (Some 0)) w
   = (Ok (TopicHistory topic (getMessages topic (sm w))
            (len (getMessages topic (sm w)))), w)) ∧
  (truthy other_topic = None → peerId ≠ "" →
   (∀ stored,
      directMessages (state (sm w)) !! peerId = Some stored →
      handleMessaging env
        (get_message_history other_topic (Some peerId) (Some 0)) w
      = (Ok (PeerHistory peerId stored (len stored)), w)) ∧
   (directMessages (state (sm w)) !! peerId = None →
    handleMessaging env
      (get_message_history other_topic (Some peerId) (Some 0)) w
    = (if inherited peerId
       then Throw (TypeError "stateManager.getDirectMessages(...).slice is not a function")
       else Ok (PeerHistory peerId [] 0), w))).
Proof.
  intros Hnode. split.
  - intros Htopic.
    now rewrite (get_topic_history env w node), slice_zero.
  - intros Hother Hpeer.
    rewrite (get_peer_history env w node) by done.
    unfold getDirectMessages. split.
    + intros stored ->. now rewrite slice_zero.
    + intros ->. now destruct (inherited peerId).
Qed.

Lemma zero_limit_returns_everything_witness :
  let w' :=
    mkWorld
      (addMessages "chat" [Fixtures.hello 1; Fixtures.hello 2]
         (sm Fixtures.running_world))
      (tick Fixtures.running_world) (netlog Fixtures.running_world) in
  handleMessaging Fixtures.quiet_env
    (get_message_history (Some "chat") None (Some 0)) w'
  = (Ok (TopicHistory "chat" [Fixtures.hello 1; Fixtures.hello 2] 2), w').
Proof.
  intros w'.
  pose proof (zero_limit_returns_everything Fixtures.quiet_env w'
                Fixtures.alice "chat" "" None None eq_refl) as [Htopic _].
  apply Htopic. discriminate.
Defined.

(** C10 as stated fails for the topic whose name is the empty string: its
    history is not empty, and [get_message_history] with [limit = 0] throws
    instead of returning it. *)
Lemma zero_limit_on_empty_topic_is_refused :
  libp2pNode (state (sm Fixtures.empty_topic_world)) = Some Fixtures.alice ∧
  getMessages "" (sm Fixtures.empty_topic_world) ≠ [] ∧
  handleMessaging Fixtures.quiet_env
    (get_message_history (Some "") None (Some 0)) Fixtures.empty_topic_world
  = (Throw (Error "Either topic or peerId must be specified"),
     Fixtures.empty_topic_world).
Proof. split_and!; [reflexivity|discriminate|reflexivity]. Qed.

(** *** Messaging *)

(** The pubsub listener appends a signed message to the history of its
    topic, unread, and counts it and its bytes as received. *)
Lemma handleMessage_appends (env : Env) (w : World) (topic from : string)
    (data : list byte) :
  ∃ w' received,
    handleMessage env (mkMessageEvent topic data (Some ("signed", from))) w
    = (Ok tt, w') ∧
    getMessages topic (sm w') = getMessages topic (sm w) ++ [received] ∧
    msg received = TextDecoder_decode data ∧
    msg_peerId received = from ∧
    read received = false ∧
    messagesReceived (stats (sm w')) = messagesReceived (stats (sm w)) + 1 ∧
    bytesReceived (stats (sm w')) = bytesReceived (stats (sm w)) + len data.
Proof.
  unfold handleMessage, uuid, date_now, bind, env_call, modify. cbn.
  eexists. eexists. split; [reflexivity|].
  cbn [sm]. split.
  - unfold addBytesReceived, with_stats.
    change (getMessages ?t (mkStateManager (state ?m) _ _))
      with (getMessages t m).
    apply getMessages_addMessage.
  - repeat split; reflexivity.
Qed.

(** C9: a [send_group_message] that succeeds adds one to [messagesSent] and
    one to [messagesReceived]: the message sent is appended to the history of
    its topic by [addMessage], which counts it as received. *)
Theorem group_message_counts_twice (env : Env) (w w' : World)
    (topic : option string) (message : string) (result : ToolResult) :
  handleMessaging env (send_group_message topic message) w = (Ok result, w') →
  messagesSent (stats (sm w')) = messagesSent (stats (sm w)) + 1 ∧
  messagesReceived (stats (sm w')) = messagesReceived (stats (sm w)) + 1 ∧
  ∃ sent,
    getMessages (default CHAT_TOPIC topic) (sm w')
    = getMessages (default CHAT_TOPIC topic) (sm w) ++ [sent] ∧
    msg sent = message ∧ read sent = true.
Proof.
  intros Hrun. unfold handleMessaging in Hrun. run_in Hrun.
  destruct (libp2pNode (state (sm w))) as [node|]; [|discriminate].
  destruct (pubsub_publish env (tick w) _ _) as [recipients|e];
    [|discriminate].
  injection Hrun as _ <-. cbn [sm].
  split_and!; [reflexivity..|].
  eexists. split.
  - unfold incrementMessagesSent, addBytesSent, with_stats.
    change (getMessages ?t (mkStateManager (state ?m) _ _))
      with (getMessages t m).
    apply getMessages_addMessage.
  - split; reflexivity.
Qed.

Lemma group_message_counts_twice_witness :
  messagesSent (stats (sm Fixtures.empty_topic_world))
  = messagesSent (stats (sm Fixtures.running_world)) + 1 ∧
  messagesReceived (stats (sm Fixtures.empty_topic_world))
  = messagesReceived (stats (sm Fixtures.running_world)) + 1.
Proof.
  pose proof (group_message_counts_twice Fixtures.quiet_env
                Fixtures.running_world Fixtures.empty_topic_world
                (Some "") "hello" (GroupMessageSent "" "hello" [] 0 8)
                eq_refl) as (Hsent & Hreceived & _).
  split; [exact Hsent|exact Hreceived].
Defined.

Lemma JsSet_has_delete x s : JsSet.has x (JsSet.delete x s) = false.
Proof.
  unfold JsSet.has, JsSet.delete. induction s as [|y s IH]; cbn; [done|].
  destruct (String.eqb x y) eqn:E; cbn; [done|]. now rewrite E.
Qed.

Lemma JsSet_has_add x s : JsSet.has x (JsSet.add x s) = true.
Proof.
  unfold JsSet.add. destruct (JsSet.has x s) eqn:E; [done|].
  unfold JsSet.has. rewrite existsb_app. cbn.
  now rewrite String.eqb_refl, orb_true_r.
Qed.

(** C8: when [subscribe_to_topic t] and then [unsubscribe_from_topic t]
    succeed, [t] was in the subscription set in between and is not in it
    afterwards; the unsubscription changes nothing else in the state (the
    histories, the files, the connections, the node, the phase and the
    counters are those of before); and [get_topic_subscribers t] then
    returns what the pubsub service answers, whether or not [t] is
    subscribed. *)
Theorem unsubscribe_only_removes_subscription (env : Env) (w w1 w2 : World)
    (t : string) (r1 r2 : ToolResult) :
  handleMessaging env (subscribe_to_topic t) w = (Ok r1, w1) →
  handleMessaging env (unsubscribe_from_topic t) w1 = (Ok r2, w2) →
  JsSet.has t (subscriptions (state (sm w1))) = true ∧
  JsSet.has t (subscriptions (state (sm w2))) = false ∧
  sm w2 = removeSubscription t (sm w1) ∧
  messageHistory (state (sm w2)) = messageHistory (state (sm w1)) ∧
  getMessages t (sm w2) = getMessages t (sm w1) ∧
  directMessages (state (sm w2)) = directMessages (state (sm w1)) ∧
  sharedFiles (state (sm w2)) = sharedFiles (state (sm w1)) ∧
  activeConnections (state (sm w2)) = activeConnections (state (sm w1)) ∧
  libp2pNode (state (sm w2)) = libp2pNode (state (sm w1)) ∧
  nodeStatus (state (sm w2)) = nodeStatus (state (sm w1)) ∧
  stats (sm w2) = stats (sm w1) ∧
  startTime (sm w2) = startTime (sm w1) ∧
  ∀ subscribers,
    pubsub_getSubscribers env (tick w2) t = Ok subscribers →
    handleMessaging env (get_topic_subscribers (Some t)) w2
    = (Ok (TopicSubscribers t subscribers (len subscribers)),
       mkWorld (sm w2) (S (tick w2)) (netlog w2 ++ [call_getSubscribers t])).
Proof.
  intros Hsub Hunsub.
  unfold handleMessaging in Hsub. run_in Hsub.
  destruct (libp2pNode (state (sm w))) as [node|] eqn:Hnode; [|discriminate].
  destruct (pubsub_subscribe env (tick w) t); [|discriminate].
  destruct (pubsub_getSubscribers env _ t); [|discriminate].
  injection Hsub as _ <-.
  unfold handleMessaging in Hunsub. run_in Hunsub. cbn in Hunsub.
  rewrite Hnode in Hunsub.
  destruct (pubsub_unsubscribe env _ t); [|discriminate].
  injection Hunsub as _ <-. cbn [sm tick netlog].
  split_and!; try reflexivity.
  - cbn. apply JsSet_has_add.
  - cbn. apply JsSet_has_delete.
  - intros subscribers Hanswer. unfold handleMessaging.
    unfold try_catch, bind, net_call, ret, getState.
    cbn [sm tick netlog state libp2pNode default removeSubscription
         addSubscription with_state].
    cbn [tick] in Hanswer. rewrite Hnode. cbn. now rewrite Hanswer.
Qed.

Lemma unsubscribe_only_removes_subscription_witness :
  let w1 :=
    (handleMessaging Fixtures.quiet_env (subscribe_to_topic "t")
       Fixtures.running_world).2 in
  let w2 :=
    (handleMessaging Fixtures.quiet_env (unsubscribe_from_topic "t") w1).2 in
  JsSet.has "t" (subscriptions (state (sm w1))) = true ∧
  JsSet.has "t" (subscriptions (state (sm w2))) = false ∧
  handleMessaging Fixtures.quiet_env (get_topic_subscribers (Some "t")) w2
  = (Ok (TopicSubscribers "t" [] 0),
     mkWorld (sm w2) (S (tick w2)) (netlog w2 ++ [call_getSubscribers "t"])).
Proof.
  intros w1 w2.
  pose proof (unsubscribe_only_removes_subscription Fixtures.quiet_env
                Fixtures.running_world w1 w2 "t" (Subscribed "t" [])
                (Unsubscribed "t" "Unsubscribed from topic: t")
                eq_refl eq_refl) as Hclaim.
  destruct Hclaim
    as (Hin & Hout & _ & _ & _ & _ & _ & _ & _ & _ & _ & _ & Hsubs).
  split_and!; [exact Hin|exact Hout|].
  apply (Hsubs []). reflexivity.
Defined.

(** *** The file-exchange protocol *)

Section FileExchange.
Context `{Framing}.

Lemma lp_decode_frame msg :
  within_limit msg → lp_decode (lp_frame msg) = ([msg], Whole).
Proof.
  intros Hmsg. rewrite <- (app_nil_r (lp_frame msg)).
  apply (lp_decode_frames [msg]). now constructor.
Qed.

Lemma lp_decode_nothing : lp_decode [] = ([], Whole).
Proof. apply (lp_decode_frames []). constructor. Qed.

Lemma lp_encode_within msgs :
  Forall within_limit msgs → lp_encode msgs = (lp_frames msgs, None).
Proof.
  unfold lp_frames. induction 1 as [|msg rest Hmsg _ IH]; [done|].
  cbn [lp_encode map concat]. rewrite IH.
  replace (MAX_DATA_LENGTH <? len msg) with false; [done|].
  symmetry. now apply Z.ltb_ge.
Qed.

Lemma lp_encode_too_long msgs large rest :
  Forall within_limit msgs →
  MAX_DATA_LENGTH < len large →
  lp_encode (msgs ++ large :: rest)
  = (lp_frames msgs, Some InvalidDataLengthError).
Proof.
  intros Hmsgs Hlarge. unfold lp_frames.
  induction Hmsgs as [|msg msgs Hmsg _ IH]; cbn [app lp_encode map concat].
  - apply Z.ltb_lt in Hlarge. now rewrite Hlarge.
  - rewrite IH.
    replace (MAX_DATA_LENGTH <? len msg) with false; [done|].
    symmetry. now apply Z.ltb_ge.
Qed.

Lemma lp_encode_large large :
  MAX_DATA_LENGTH < len large →
  lp_encode [large] = ([], Some InvalidDataLengthError).
Proof. intros Hlarge. now apply (lp_encode_too_long [] large []). Qed.

Lemma request_frame_within fileId :
  within_limit (TextEncoder_encode fileId) →
  request_frame fileId = Ok (lp_frame (TextEncoder_encode fileId)).
Proof.
  intros Hid. unfold request_frame.
  rewrite lp_encode_within by now constructor.
  unfold lp_frames. cbn [map concat]. now rewrite app_nil_r.
Qed.

Lemma request_frame_too_long fileId :
  MAX_DATA_LENGTH < len (TextEncoder_encode fileId) →
  request_frame fileId = Throw InvalidDataLengthError.
Proof.
  intros Hid. unfold request_frame. now rewrite lp_encode_large.
Qed.

Lemma decode_encode_fileId fileId :
  TextDecoder_decode (TextEncoder_encode fileId) = fileId.
Proof. apply String.string_of_list_byte_of_string. Qed.

(** The responder answers a request for a file it has with one frame, the
    body of the file, and ends normally. *)
Lemma handler_serves_file m fileId file :
  within_limit (TextEncoder_encode fileId) →
  getSharedFile fileId m = Some file →
  within_limit (body file) →
  file_exchange_handler m (lp_frame (TextEncoder_encode fileId))
  = (lp_frame (body file), None).
Proof.
  intros Hid Hfile Hbody. unfold file_exchange_handler.
  rewrite lp_decode_frame by done. cbn [serve_requests].
  rewrite decode_encode_fileId, Hfile.
  rewrite lp_encode_within by now constructor.
  unfold lp_frames. cbn [map concat]. now rewrite app_nil_r.
Qed.

(** The encoder of the responder refuses a body over the limit: no frame is
    written, and the pipeline throws. *)
Lemma handler_refuses_large_file m fileId file :
  within_limit (TextEncoder_encode fileId) →
  getSharedFile fileId m = Some file →
  MAX_DATA_LENGTH < len (body file) →
  file_exchange_handler m (lp_frame (TextEncoder_encode fileId))
  = ([], Some InvalidDataLengthError).
Proof.
  intros Hid Hfile Hbody. unfold file_exchange_handler.
  rewrite lp_decode_frame by done. cbn [serve_requests].
  rewrite decode_encode_fileId, Hfile. now rewrite lp_encode_large.
Qed.

(** The responder answers a request for a file it does not have with no
    frame at all, and its pipeline throws. *)
Lemma handler_fails_on_unknown_file m fileId :
  within_limit (TextEncoder_encode fileId) →
  getSharedFile fileId m = None →
  file_exchange_handler m (lp_frame (TextEncoder_encode fileId))
  = ([], Some (Error ("File not found: " +:+ fileId))).
Proof.
  intros Hid Hfile. unfold file_exchange_handler.
  rewrite lp_decode_frame by done. cbn [serve_requests].
  now rewrite decode_encode_fileId, Hfile.
Qed.

Lemma getSharedFile_addSharedFile file m :
  getSharedFile (file_id file) (addSharedFile file m) = Some file.
Proof. apply JsMap_get_set_eq. Qed.

Lemma share_file_stores (env : Env) (w w' : World)
    (filePath fileContent fileName : option string) (announce : option bool)
    (fileId actualFileName : string) (fileSize : Z) (announced : bool)
    (recipients : list string) :
  handleFileSharing env (share_file filePath fileContent fileName announce) w
  = (Ok (FileShared fileId actualFileName fileSize announced recipients),
     w') →
  ∃ node fileBody,
    libp2pNode (state (sm w)) = Some node ∧
    len fileBody = fileSize ∧
    sm w'
    = addSharedFile (mkChatFile fileId fileBody (node_peerId node)) (sm w).
Proof.
  intros Hrun. unfold handleFileSharing in Hrun. run_in Hrun.
  destruct (libp2pNode (state (sm w))) as [node|]; [|discriminate].
  exists node.
  destruct (truthy filePath) as [path|].
  - destruct (fs_readFile env (tick w) path) as [fileBody|]; [|discriminate].
    cbn [fst snd sm tick netlog] in Hrun.
    destruct (libp2p_handle env _ _); [|discriminate].
    destruct (default true announce);
      [destruct (pubsub_publish env _ _ _); [|discriminate]|];
      injection Hrun as <- _ <- _ _ <-; now exists fileBody.
  - destruct (truthy fileContent) as [content|]; [|discriminate].
    destruct (truthy fileName) as [name|]; [|discriminate].
    cbn [fst snd sm tick netlog] in Hrun.
    destruct (libp2p_handle env _ _); [|discriminate].
    destruct (default true announce);
      [destruct (pubsub_publish env _ _ _); [|discriminate]|];
      injection Hrun as <- _ <- _ _ <-;
      now exists (Buffer_from_base64 env content).
Qed.

(** What [request_file] does with each of the answers a stream can give to
    the request frame, and when its own encoder refuses the identifier. *)
Lemma request_file_served (env : Env) (w : World) (node : Libp2p)
    (peerId peer fileId : string) (responder : StateManager)
    (reset_error : Exn) (file : ChatFile) :
  libp2pNode (state (sm w)) = Some node →
  peerIdFromString env peerId = Ok peer →
  libp2p_dialProtocol env (tick w) peer FILE_EXCHANGE_PROTOCOL
  = Ok (served_by responder reset_error) →
  within_limit (TextEncoder_encode fileId) →
  getSharedFile fileId responder = Some file →
  within_limit (body file) →
  handleFileSharing env (request_file peerId fileId) w
  = (Ok (FileReceived fileId peerId (len (body file))
           (Date_now env (S (tick w)))),
     mkWorld (addSharedFile (mkChatFile fileId (body file) peerId) (sm w))
       (S (S (tick w)))
       (netlog w ++ [call_dialProtocol peer FILE_EXCHANGE_PROTOCOL])).
Proof.
  intros Hnode Hpeer Hdial Hid Hfile Hbody.
  unfold handleFileSharing, bind at 1, getState. rewrite Hnode.
  unfold try_catch, bind, lift, net_call. rewrite Hpeer, Hdial.
  rewrite request_frame_within by done.
  unfold served_by. rewrite (handler_serves_file _ _ _ Hid Hfile Hbody).
  unfold read_first_frame. cbn [received]. rewrite lp_decode_frame by done.
  reflexivity.
Qed.

Lemma request_file_too_large (env : Env) (w : World) (node : Libp2p)
    (peerId peer fileId : string) (responder : StateManager)
    (reset_error : Exn) (file : ChatFile) :
  libp2pNode (state (sm w)) = Some node →
  peerIdFromString env peerId = Ok peer →
  libp2p_dialProtocol env (tick w) peer FILE_EXCHANGE_PROTOCOL
  = Ok (served_by responder reset_error) →
  within_limit (TextEncoder_encode fileId) →
  getSharedFile fileId responder = Some file →
  MAX_DATA_LENGTH < len (body file) →
  handleFileSharing env (request_file peerId fileId) w
  = (Throw (Error ("Failed to request file: " +:+ exn_toString reset_error)),
     mkWorld (sm w) (S (tick w))
       (netlog w ++ [call_dialProtocol peer FILE_EXCHANGE_PROTOCOL])).
Proof.
  intros Hnode Hpeer Hdial Hid Hfile Hbody.
  unfold handleFileSharing, bind at 1, getState. rewrite Hnode.
  unfold try_catch, bind, lift, net_call. rewrite Hpeer, Hdial.
  rewrite request_frame_within by done.
  unfold served_by. rewrite (handler_refuses_large_file _ _ _ Hid Hfile Hbody).
  unfold read_first_frame. cbn [received ending]. rewrite lp_decode_nothing.
  reflexivity.
Qed.

Lemma request_file_not_found (env : Env) (w : World) (node : Libp2p)
    (peerId peer fileId : string) (responder : StateManager)
    (reset_error : Exn) :
  libp2pNode (state (sm w)) = Some node →
  peerIdFromString env peerId = Ok peer →
  libp2p_dialProtocol env (tick w) peer FILE_EXCHANGE_PROTOCOL
  = Ok (served_by responder reset_error) →
  within_limit (TextEncoder_encode fileId) →
  getSharedFile fileId responder = None →
  handleFileSharing env (request_file peerId fileId) w
  = (Throw (Error ("Failed to request file: " +:+ exn_toString reset_error)),
     mkWorld (sm w) (S (tick w))
       (netlog w ++ [call_dialProtocol peer FILE_EXCHANGE_PROTOCOL])).
Proof.
  intros Hnode Hpeer Hdial Hid Hfile.
  unfold handleFileSharing, bind at 1, getState. rewrite Hnode.
  unfold try_catch, bind, lift, net_call. rewrite Hpeer, Hdial.
  rewrite request_frame_within by done.
  unfold served_by. rewrite (handler_fails_on_unknown_file _ _ Hid Hfile).
  unfold read_first_frame. cbn [received ending]. rewrite lp_decode_nothing.
  reflexivity.
Qed.

Lemma request_file_no_data (env : Env) (w : World) (node : Libp2p)
    (peerId peer fileId : string) :
  libp2pNode (state (sm w)) = Some node →
  peerIdFromString env peerId = Ok peer →
  libp2p_dialProtocol env (tick w) peer FILE_EXCHANGE_PROTOCOL
  = Ok closes_silently →
  within_limit (TextEncoder_encode fileId) →
  handleFileSharing env (request_file peerId fileId) w
  = (Throw (Error "Failed to request file: Error: No file data received"),
     mkWorld (sm w) (S (tick w))
       (netlog w ++ [call_dialProtocol peer FILE_EXCHANGE_PROTOCOL])).
Proof.
  intros Hnode Hpeer Hdial Hid.
  unfold handleFileSharing, bind at 1, getState. rewrite Hnode.
  unfold try_catch, bind, lift, net_call. rewrite Hpeer, Hdial.
  rewrite request_frame_within by done.
  unfold closes_silently, read_first_frame. cbn [received ending].
  rewrite lp_decode_nothing. reflexivity.
Qed.

Lemma request_file_long_id (env : Env) (w : World) (node : Libp2p)
    (peerId peer fileId : string) (stream : Stream) :
  libp2pNode (state (sm w)) = Some node →
  peerIdFromString env peerId = Ok peer →
  libp2p_dialProtocol env (tick w) peer FILE_EXCHANGE_PROTOCOL = Ok stream →
  MAX_DATA_LENGTH < len (TextEncoder_encode fileId) →
  handleFileSharing env (request_file peerId fileId) w
  = (Throw (Error "Failed to request file: InvalidDataLengthError: Message length too long"),
     mkWorld (sm w) (S (tick w))
       (netlog w ++ [call_dialProtocol peer FILE_EXCHANGE_PROTOCOL])).
Proof.
  intros Hnode Hpeer Hdial Hid.
  unfold handleFileSharing, bind at 1, getState. rewrite Hnode.
  unfold try_catch, bind, lift, net_call. rewrite Hpeer, Hdial.
  rewrite request_frame_too_long by done. reflexivity.
Qed.

End FileExchange.

(** C4, as the code has it: when [share_file] has succeeded on a responder
    for a file of [B] bytes, and an initiator requests the identifier
    returned from that responder, addressed by its identity, over a stream
    served by the responder's handler, then, if [B] is at most
    [MAX_DATA_LENGTH], [request_file] succeeds, reports [B] bytes, and stores
    under that identifier a file with the same [B] bytes whose sender is the
    responder's identity: the record of the responder itself. If [B] is
    larger, the encoder of the responder refuses the body, the stream fails
    and [request_file] throws without storing anything. The identifier, a
    uuid, is within the limit too. *)
Theorem file_exchange_round_trip `{Framing} (envR envI : Env)
    (wR wR' wI : World) (responder initiator : Libp2p)
    (filePath fileContent fileName : option string) (announce : option bool)
    (fileId actualFileName peerId peer : string) (B : Z) (announced : bool)
    (recipients : list string) (reset_error : Exn) :
  libp2pNode (state (sm wR)) = Some responder →
  handleFileSharing envR
    (share_file filePath fileContent fileName announce) wR
  = (Ok (FileShared fileId actualFileName B announced recipients), wR') →
  libp2pNode (state (sm wI)) = Some initiator →
  peerId = node_peerId responder →
  peerIdFromString envI peerId = Ok peer →
  libp2p_dialProtocol envI (tick wI) peer FILE_EXCHANGE_PROTOCOL
  = Ok (served_by (sm wR') reset_error) →
  len (TextEncoder_encode fileId) ≤ MAX_DATA_LENGTH →
  ∃ bytes : list byte,
    len bytes = B ∧
    getSharedFile fileId (sm wR')
    = Some (mkChatFile fileId bytes (node_peerId responder)) ∧
    (B ≤ MAX_DATA_LENGTH →
     ∃ (wI' : World) (timestamp : Z),
       handleFileSharing envI (request_file peerId fileId) wI
       = (Ok (FileReceived fileId peerId B timestamp), wI') ∧
       getSharedFile fileId (sm wI')
       = Some (mkChatFile fileId bytes (node_peerId responder)) ∧
       getSharedFile fileId (sm wI') = getSharedFile fileId (sm wR')) ∧
    (MAX_DATA_LENGTH < B →
     ∃ wI' : World,
       handleFileSharing envI (request_file peerId fileId) wI
       = (Throw (Error ("Failed to request file: "
                        +:+ exn_toString reset_error)), wI') ∧
       sm wI' = sm wI).
Proof.
  intros Hresponder Hshare Hinitiator Hid Hpeer Hdial Hlimit.
  apply share_file_stores in Hshare as (node & bytes & Hnode & Hsize & Hsm).
  rewrite Hresponder in Hnode. injection Hnode as <-.
  set (file := mkChatFile fileId bytes (node_peerId responder)) in *.
  assert (Hstored : getSharedFile fileId (sm wR') = Some file)
    by (rewrite Hsm; apply (getSharedFile_addSharedFile file)).
  exists bytes. split_and!; [done|done| |].
  - intros HB. eexists. eexists. split_and!.
    + rewrite (request_file_served envI wI initiator peerId peer fileId
                 (sm wR') reset_error file)
        by (done || (unfold within_limit; cbn [body file]; lia)).
      cbn [body file]. rewrite Hsize. reflexivity.
    + cbn [sm body file]. rewrite <- Hid.
      apply (getSharedFile_addSharedFile (mkChatFile fileId bytes peerId)).
    + cbn [sm body file]. rewrite Hstored. subst file. rewrite <- Hid.
      apply (getSharedFile_addSharedFile (mkChatFile fileId bytes peerId)).
  - intros HB. eexists. split.
    + apply (request_file_too_large envI wI initiator peerId peer fileId
               (sm wR') reset_error file);
        (done || (cbn [body file]; lia)).
    + reflexivity.
Qed.

Lemma file_exchange_round_trip_witness :
  let envR :=
    Fixtures.test_env (Ok Fixtures.alice) (Ok tt) (fun _ => [])
      [x01; x02; x03]%byte Fixtures.no_stream in
  let wR' :=
    (handleFileSharing (H:=varint_framing) envR
       (share_file None (Some "AQID") (Some "a.bin") (Some false))
       Fixtures.running_world).2 in
  let envI :=
    Fixtures.test_env (Ok Fixtures.bob) (Ok tt) (fun _ => []) []
      (Ok (served_by (H:=varint_framing) (sm wR') (Error "stream reset"))) in
  let wI :=
    (handleNodeManagement envI
       (create_libp2p_node (mkNodeConfig None None None None))
       Fixtures.fresh_world).2 in
  ∃ (bytes : list byte) (wI' : World) (timestamp : Z),
    len bytes = 3 ∧
    getSharedFile "uuid-1" (sm wR')
    = Some (mkChatFile "uuid-1" bytes "12D3KooWAlice") ∧
    handleFileSharing (H:=varint_framing) envI
      (request_file "12D3KooWAlice" "uuid-1") wI
    = (Ok (FileReceived "uuid-1" "12D3KooWAlice" 3 timestamp), wI') ∧
    getSharedFile "uuid-1" (sm wI')
    = Some (mkChatFile "uuid-1" bytes "12D3KooWAlice") ∧
    getSharedFile "uuid-1" (sm wI') = getSharedFile "uuid-1" (sm wR').
Proof.
  intros envR wR' envI wI.
  destruct (file_exchange_round_trip (H:=varint_framing) envR envI
              Fixtures.running_world wR' wI Fixtures.alice Fixtures.bob
              None (Some "AQID") (Some "a.bin") (Some false)
              "uuid-1" "a.bin" "12D3KooWAlice" "12D3KooWAlice" 3 false []
              (Error "stream reset") eq_refl eq_refl eq_refl eq_refl eq_refl
              eq_refl ltac:(vm_compute; discriminate))
    as (bytes & Hsize & Hstored & Hsmall & _).
  destruct Hsmall as (wI' & timestamp & Hrun & Hfetched & Hsame);
    [vm_compute; discriminate|].
  exists bytes, wI', timestamp. split_and!; assumption.
Defined.

Lemma large_body_length : len Fixtures.large_body = MAX_DATA_LENGTH + 1.
Proof.
  unfold Fixtures.large_body, len. rewrite repeat_length.
  apply Z2Nat.id. unfold MAX_DATA_LENGTH. lia.
Qed.

(** [share_file] then [request_file] between two nodes, for any body. *)
Lemma share_then_request `{Framing} (fileBody : list byte) :
  let envR :=
    Fixtures.test_env (Ok Fixtures.alice) (Ok tt) (fun _ => [])
      fileBody Fixtures.no_stream in
  let shared :=
    handleFileSharing envR
      (share_file None (Some "AA==") (Some "a.bin") (Some false))
      Fixtures.running_world in
  let envI :=
    Fixtures.test_env (Ok Fixtures.bob) (Ok tt) (fun _ => []) []
      (Ok (served_by (sm shared.2) (Error "stream reset"))) in
  let wI :=
    (handleNodeManagement envI
       (create_libp2p_node (mkNodeConfig None None None None))
       Fixtures.fresh_world).2 in
  shared.1 = Ok (FileShared "uuid-1" "a.bin" (len fileBody) false []) ∧
  getSharedFile "uuid-1" (sm shared.2)
  = Some (mkChatFile "uuid-1" fileBody "12D3KooWAlice") ∧
  (MAX_DATA_LENGTH < len fileBody →
   handleFileSharing envI (request_file "12D3KooWAlice" "uuid-1") wI
   = (Throw (Error "Failed to request file: Error: stream reset"),
      mkWorld (sm wI) (S (tick wI))
        (netlog wI
         ++ [call_dialProtocol "12D3KooWAlice" FILE_EXCHANGE_PROTOCOL]))).
Proof.
  intros envR shared envI wI. split; [reflexivity|]. split; [reflexivity|].
  intros Hlarge.
  apply (request_file_too_large envI wI Fixtures.bob "12D3KooWAlice"
           "12D3KooWAlice" "uuid-1" (sm shared.2) (Error "stream reset")
           (mkChatFile "uuid-1" fileBody "12D3KooWAlice"));
    [reflexivity|reflexivity|reflexivity| |reflexivity|exact Hlarge].
  unfold within_limit. vm_compute. discriminate.
Qed.

(** C4 as stated fails for a file of 4194305 bytes: [share_file] stores it
    and reports its size, but a [request_file] for its identifier, served by
    the same responder, throws and leaves the state as it was. *)
Lemma large_file_is_not_served :
  let envR :=
    Fixtures.test_env (Ok Fixtures.alice) (Ok tt) (fun _ => [])
      Fixtures.large_body Fixtures.no_stream in
  let shared :=
    handleFileSharing (H:=varint_framing) envR
      (share_file None (Some "AA==") (Some "a.bin") (Some false))
      Fixtures.running_world in
  let envI :=
    Fixtures.test_env (Ok Fixtures.bob) (Ok tt) (fun _ => []) []
      (Ok (served_by (H:=varint_framing) (sm shared.2)
             (Error "stream reset"))) in
  let wI :=
    (handleNodeManagement envI
       (create_libp2p_node (mkNodeConfig None None None None))
       Fixtures.fresh_world).2 in
  len Fixtures.large_body = 4194305 ∧
  shared.1
  = Ok (FileShared "uuid-1" "a.bin" (len Fixtures.large_body) false []) ∧
  getSharedFile "uuid-1" (sm shared.2)
  = Some (mkChatFile "uuid-1" Fixtures.large_body "12D3KooWAlice") ∧
  handleFileSharing (H:=varint_framing) envI
    (request_file "12D3KooWAlice" "uuid-1") wI
  = (Throw (Error "Failed to request file: Error: stream reset"),
     mkWorld (sm wI) (S (tick wI))
       (netlog wI
        ++ [call_dialProtocol "12D3KooWAlice" FILE_EXCHANGE_PROTOCOL])).
Proof.
  pose proof (share_then_request (H:=varint_framing) Fixtures.large_body)
    as (Hshared & Hstored & Hrequest).
  split_and!.
  - apply large_body_length.
  - exact Hshared.
  - exact Hstored.
  - apply Hrequest. rewrite large_body_length. lia.
Qed.

(** C5, as the code has it: a request for an identifier the responder does
    not have makes the responder's handler throw "File not found" without
    writing a frame, so the stream fails and [request_file] throws the error
    of the failed stream; a request to a peer that closes the stream without
    writing a frame makes [request_file] throw "No file data received". As
    long as the transport's error for a failed stream does not read "Error:
    No file data received", the caller receives two different errors. This
    is so for an identifier within the limit of the framing, as every uuid
    is; for a longer one the initiator's own encoder throws, whatever the
    peer does, and the caller receives a third error. *)
Theorem not_found_is_not_no_data `{Framing} (env : Env) (w : World)
    (node : Libp2p) (peerId peer fileId : string) (responder : StateManager)
    (reset_error : Exn) :
  libp2pNode (state (sm w)) = Some node →
  peerIdFromString env peerId = Ok peer →
  exn_toString reset_error ≠ "Error: No file data received" →
  let not_found :=
    Error ("Failed to request file: " +:+ exn_toString reset_error) in
  let no_data :=
    Error "Failed to request file: Error: No file data received" in
  let too_long :=
    Error "Failed to request file: InvalidDataLengthError: Message length too long" in
  (len (TextEncoder_encode fileId) ≤ MAX_DATA_LENGTH →
   (getSharedFile fileId responder = None →
    file_exchange_handler responder (lp_frame (TextEncoder_encode fileId))
    = ([], Some (Error ("File not found: " +:+ fileId))) ∧
    (libp2p_dialProtocol env (tick w) peer FILE_EXCHANGE_PROTOCOL
     = Ok (served_by responder reset_error) →
     (handleFileSharing env (request_file peerId fileId) w).1
     = Throw not_found)) ∧
   (libp2p_dialProtocol env (tick w) peer FILE_EXCHANGE_PROTOCOL
    = Ok closes_silently →
    (handleFileSharing env (request_file peerId fileId) w).1
    = Throw no_data)) ∧
  (MAX_DATA_LENGTH < len (TextEncoder_encode fileId) →
   ∀ stream,
     libp2p_dialProtocol env (tick w) peer FILE_EXCHANGE_PROTOCOL
     = Ok stream →
     (handleFileSharing env (request_file peerId fileId) w).1
     = Throw too_long) ∧
  not_found ≠ no_data ∧ too_long ≠ no_data.
Proof.
  intros Hnode Hpeer Hdistinct not_found no_data too_long. split_and!.
  - intros Hid. split.
    + intros Hfile. split.
      * now apply handler_fails_on_unknown_file.
      * intros Hdial.
        now rewrite (request_file_not_found env w node peerId peer fileId
                       responder reset_error).
    + intros Hdial.
      now rewrite (request_file_no_data env w node peerId peer fileId).
  - intros Hid stream Hdial.
    now rewrite (request_file_long_id env w node peerId peer fileId stream).
  - subst not_found no_data. intros Heq. apply Hdistinct.
    injection Heq as Heq. exact Heq.
  - discriminate.
Qed.

Lemma not_found_is_not_no_data_witness :
  let responder := sm Fixtures.running_world in
  let env_missing :=
    Fixtures.test_env (Ok Fixtures.bob) (Ok tt) (fun _ => []) []
      (Ok (served_by (H:=varint_framing) responder (Error "stream reset"))) in
  let env_silent :=
    Fixtures.test_env (Ok Fixtures.bob) (Ok tt) (fun _ => []) []
      (Ok closes_silently) in
  let w :=
    (handleNodeManagement env_silent
       (create_libp2p_node (mkNodeConfig None None None None))
       Fixtures.fresh_world).2 in
  (handleFileSharing (H:=varint_framing) env_missing
     (request_file "12D3KooWAlice" "uuid-9") w).1
  = Throw (Error "Failed to request file: Error: stream reset") ∧
  (handleFileSharing (H:=varint_framing) env_silent
     (request_file "12D3KooWAlice" "uuid-9") w).1
  = Throw (Error "Failed to request file: Error: No file data received").
Proof.
  intros responder env_missing env_silent w.
  assert (Hdistinct : exn_toString (Error "stream reset")
                      ≠ "Error: No file data received") by discriminate.
  assert (Hid : len (TextEncoder_encode "uuid-9") ≤ MAX_DATA_LENGTH)
    by (vm_compute; discriminate).
  split.
  - pose proof (not_found_is_not_no_data (H:=varint_framing) env_missing w
                  Fixtures.bob "12D3KooWAlice" "12D3KooWAlice" "uuid-9"
                  responder (Error "stream reset") eq_refl eq_refl Hdistinct)
      as (Hwithin & _).
    destruct (Hwithin Hid) as [Hmissing _].
    destruct Hmissing as [_ Hmissing]; [reflexivity|].
    apply Hmissing. reflexivity.
  - pose proof (not_found_is_not_no_data (H:=varint_framing) env_silent w
                  Fixtures.bob "12D3KooWAlice" "12D3KooWAlice" "uuid-9"
                  responder (Error "stream reset") eq_refl eq_refl Hdistinct)
      as (Hwithin & _).
    destruct (Hwithin Hid) as [_ Hsilent].
    apply Hsilent. reflexivity.
Defined.

Lemma long_identifier_length :
  len (TextEncoder_encode Fixtures.long_identifier) = MAX_DATA_LENGTH + 1.
Proof.
  unfold Fixtures.long_identifier, TextEncoder_encode, len.
  rewrite String.list_byte_of_string_of_list_byte, repeat_length.
  apply Z2Nat.id. unfold MAX_DATA_LENGTH. lia.
Qed.

(** C5 as stated fails for an identifier of 4194305 bytes: requested from a
    peer that closes the stream without writing a frame, it does not give
    "No file data received" but the error of the initiator's encoder. *)
Lemma long_identifier_is_refused :
  let env_silent :=
    Fixtures.test_env (Ok Fixtures.bob) (Ok tt) (fun _ => []) []
      (Ok closes_silently) in
  let w :=
    (handleNodeManagement env_silent
       (create_libp2p_node (mkNodeConfig None None None None))
       Fixtures.fresh_world).2 in
  len (TextEncoder_encode Fixtures.long_identifier) = 4194305 ∧
  handleFileSharing (H:=varint_framing) env_silent
    (request_file "12D3KooWAlice" Fixtures.long_identifier) w
  = (Throw (Error "Failed to request file: InvalidDataLengthError: Message length too long"),
     mkWorld (sm w) (S (tick w))
       (netlog w
        ++ [call_dialProtocol "12D3KooWAlice" FILE_EXCHANGE_PROTOCOL])).
Proof.
  intros env_silent w. split.
  - apply long_identifier_length.
  - apply (request_file_long_id (H:=varint_framing) env_silent w Fixtures.bob
             "12D3KooWAlice" "12D3KooWAlice" Fixtures.long_identifier
             closes_silently); [reflexivity..|].
    rewrite long_identifier_length. lia.
Qed.

(** ** Further properties of the code *)

(** Unfolds the monadic plumbing of a handler run in the goal. *)
Ltac run :=
  unfold uuid, date_now, getConnections, getMultiaddrs, addEventListener,
    removeEventListener, do_setNodeStatus, do_getNetworkStats;
  unfold try_catch, bind, net_call, env_call, modify, try_modify, ret, throw,
    lift, getState, getStateManager;
  cbn [fst snd sm tick netlog].

(** Splits on the answer of a collaborator the goal is stuck on. *)
Ltac split_answer :=
  match goal with
  | |- context [match ?o with Ok _ => _ | Throw _ => _ end] =>
      destruct o eqn:?; cbn [fst snd sm tick netlog]
  end.

(** *** The lifecycle commands ([tools/node-management.ts]) *)

(** Without a node handle, [start_libp2p_node] and [stop_libp2p_node] each
    throw their own precondition error and leave the world as it was: the
    phase is not changed and the network subsystem is not called. *)
Theorem start_and_stop_need_a_node (env : Env) (w : World) :
  libp2pNode (state (sm w)) = None →
  handleNodeManagement env start_libp2p_node w
  = (Throw (Error "No libp2p node exists. Create a node first."), w) ∧
  handleNodeManagement env stop_libp2p_node w
  = (Throw (Error "No libp2p node exists."), w).
Proof.
  intros Hnode. unfold handleNodeManagement. run. now rewrite Hnode.
Qed.

Lemma start_and_stop_need_a_node_witness :
  handleNodeManagement Fixtures.quiet_env start_libp2p_node
    Fixtures.fresh_world
  = (Throw (Error "No libp2p node exists. Create a node first."),
     Fixtures.fresh_world) ∧
  handleNodeManagement Fixtures.quiet_env stop_libp2p_node
    Fixtures.fresh_world
  = (Throw (Error "No libp2p node exists."), Fixtures.fresh_world).
Proof.
  apply (start_and_stop_need_a_node Fixtures.quiet_env Fixtures.fresh_world).
  reflexivity.
Defined.

(** When the shutdown raises, [stop_libp2p_node] throws an error that
    carries the cause and leaves the phase at [stopping] with the handle
    still stored; a second [stop_libp2p_node] whose shutdown succeeds then
    ends with the phase [stopped] and no handle. *)
Theorem failed_stop_can_be_retried (env : Env) (w : World) (node : Libp2p)
    (e : Exn) :
  libp2pNode (state (sm w)) = Some node →
  libp2p_stop env (tick w) = Throw e →
  libp2p_stop env (S (tick w)) = Ok tt →
  ∃ w1 w2,
    handleNodeManagement env stop_libp2p_node w
    = (Throw (Error ("Failed to stop libp2p node: " +:+ exn_toString e)), w1) ∧
    nodeStatus (state (sm w1)) = stopping ∧
    libp2pNode (state (sm w1)) = Some node ∧
    handleNodeManagement env stop_libp2p_node w1 = (Ok NodeStopped, w2) ∧
    nodeStatus (state (sm w2)) = stopped ∧
    libp2pNode (state (sm w2)) = None.
Proof.
  intros Hnode Hfail Hretry. eexists. eexists.
  split; [|split; [|split; [|split; [|split]]]].
  - unfold handleNodeManagement. run. rewrite Hnode. cbn.
    rewrite Hfail. reflexivity.
  - reflexivity.
  - cbn. exact Hnode.
  - unfold handleNodeManagement. run. cbn. rewrite Hnode. cbn.
    rewrite Hretry. reflexivity.
  - reflexivity.
  - reflexivity.
Qed.

Lemma failed_stop_can_be_retried_witness :
  let env :=
    Samples.with_libp2p_stop
      (fun t => if (t =? 5)%nat then Throw (Error "busy") else Ok tt)
      Fixtures.quiet_env in
  ∃ w1 w2,
    handleNodeManagement env stop_libp2p_node Fixtures.running_world
    = (Throw (Error "Failed to stop libp2p node: Error: busy"), w1) ∧
    nodeStatus (state (sm w1)) = stopping ∧
    libp2pNode (state (sm w1)) = Some Fixtures.alice ∧
    handleNodeManagement env stop_libp2p_node w1 = (Ok NodeStopped, w2) ∧
    nodeStatus (state (sm w2)) = stopped ∧
    libp2pNode (state (sm w2)) = None.
Proof.
  intros env.
  apply (failed_stop_can_be_retried env Fixtures.running_world Fixtures.alice
           (Error "busy")); reflexivity.
Defined.

(** A [stop_libp2p_node] that succeeds removes the handle and sets the
    phase to [stopped], and nothing else: the connections, the histories,
    the files, the subscriptions, the counters and the start time are those
    of before. *)
Theorem stop_keeps_the_registries (env : Env) (w : World) (node : Libp2p) :
  libp2pNode (state (sm w)) = Some node →
  libp2p_stop env (tick w) = Ok tt →
  ∃ w',
    handleNodeManagement env stop_libp2p_node w = (Ok NodeStopped, w') ∧
    libp2pNode (state (sm w')) = None ∧
    nodeStatus (state (sm w')) = stopped ∧
    activeConnections (state (sm w')) = activeConnections (state (sm w)) ∧
    messageHistory (state (sm w')) = messageHistory (state (sm w)) ∧
    directMessages (state (sm w')) = directMessages (state (sm w)) ∧
    sharedFiles (state (sm w')) = sharedFiles (state (sm w)) ∧
    subscriptions (state (sm w')) = subscriptions (state (sm w)) ∧
    stats (sm w') = stats (sm w) ∧
    startTime (sm w') = startTime (sm w) ∧
    netlog w' = netlog w ++ [call_stop].
Proof.
  intros Hnode Hstop. eexists. split.
  - unfold handleNodeManagement. run. rewrite Hnode. cbn.
    rewrite Hstop. reflexivity.
  - repeat split; reflexivity.
Qed.

Lemma stop_keeps_the_registries_witness :
  ∃ w',
    handleNodeManagement Fixtures.quiet_env stop_libp2p_node
      Fixtures.empty_topic_world = (Ok NodeStopped, w') ∧
    libp2pNode (state (sm w')) = None ∧
    getMessages "" (sm w') = getMessages "" (sm Fixtures.empty_topic_world).
Proof.
  destruct (stop_keeps_the_registries Fixtures.quiet_env
              Fixtures.empty_topic_world Fixtures.alice eq_refl eq_refl)
    as (w' & Hrun & Hnode & _ & _ & Hhistory & _).
  exists w'. split_and!; [exact Hrun|exact Hnode|].
  unfold getMessages. now rewrite Hhistory.
Defined.

(** [start_libp2p_node] on a node whose phase is [running] answers with the
    identity of the node and changes nothing, without calling the network
    subsystem; on a stored node in any other phase it calls [start] on the
    node, once, and then, if the call succeeds, sets the phase to [running]
    and reads the addresses of the node; if the call throws, the command
    fails and the state, the phase included, is as it was. *)
Theorem start_is_a_no_op_when_running (env : Env) (w : World)
    (node : Libp2p) :
  libp2pNode (state (sm w)) = Some node →
  (nodeStatus (state (sm w)) = running →
   handleNodeManagement env start_libp2p_node w
   = (Ok (NodeAlreadyRunning (node_peerId node)), w)) ∧
  (nodeStatus (state (sm w)) ≠ running →
   (libp2p_start env (tick w) = Ok tt →
    ∃ addresses w',
      handleNodeManagement env start_libp2p_node w
      = (Ok (NodeRunning (node_peerId node) addresses), w') ∧
      nodeStatus (state (sm w')) = running ∧
      libp2pNode (state (sm w')) = Some node ∧
      netlog w' = netlog w ++ [call_start; call_getMultiaddrs]) ∧
   (∀ e, libp2p_start env (tick w) = Throw e →
      handleNodeManagement env start_libp2p_node w
      = (Throw (Error ("Failed to start libp2p node: " +:+ exn_toString e)),
         mkWorld (sm w) (S (tick w)) (netlog w ++ [call_start])))).
Proof.
  intros Hnode. split.
  - intros Hrunning. unfold handleNodeManagement. run.
    now rewrite Hnode, Hrunning.
  - intros Hother. split.
    + intros Hstart. unfold handleNodeManagement. run.
      rewrite Hnode.
      destruct (nodeStatus (state (sm w))) eqn:Hstatus; [| |done|];
        cbn; rewrite Hstart; cbn;
        destruct (startTime (sm w) =? 0); cbn;
        eexists; eexists; rewrite <- app_assoc;
        (split; [reflexivity|split; [reflexivity|split; [exact Hnode|]]]);
        reflexivity.
    + intros e Hstart. unfold handleNodeManagement. run.
      rewrite Hnode.
      destruct (nodeStatus (state (sm w))) eqn:Hstatus; [| |done|];
        cbn; rewrite Hstart; reflexivity.
Qed.

Lemma start_is_a_no_op_when_running_witness :
  handleNodeManagement Fixtures.quiet_env start_libp2p_node
    Fixtures.running_world
  = (Ok (NodeAlreadyRunning "12D3KooWAlice"), Fixtures.running_world) ∧
  ∃ addresses w',
    handleNodeManagement Fixtures.quiet_env start_libp2p_node
      Fixtures.stopping_world
    = (Ok (NodeRunning "12D3KooWAlice" addresses), w') ∧
    nodeStatus (state (sm w')) = running ∧
    libp2pNode (state (sm w')) = Some Fixtures.alice ∧
    netlog w'
    = netlog Fixtures.stopping_world ++ [call_start; call_getMultiaddrs].
Proof.
  split.
  - apply (start_is_a_no_op_when_running Fixtures.quiet_env
             Fixtures.running_world Fixtures.alice eq_refl). reflexivity.
  - apply (start_is_a_no_op_when_running Fixtures.quiet_env
             Fixtures.stopping_world Fixtures.alice eq_refl);
      [discriminate|reflexivity].
Defined.

(** A [create_libp2p_node] whose construction succeeds stores the handle,
    sets the phase to [running], and has registered the listeners of
    [connection:open] and [connection:close], in this order, before it
    returns; the start time is taken from the clock only if none was
    recorded before. *)
Theorem create_installs_the_listeners (env : Env) (args : NodeConfig)
    (w : World) (node : Libp2p) :
  libp2pNode (state (sm w)) = None →
  startLibp2p env (tick w) args = Ok node →
  ∃ addresses w',
    handleNodeManagement env (create_libp2p_node args) w
    = (Ok (NodeRunning (node_peerId node) addresses), w') ∧
    libp2pNode (state (sm w')) = Some node ∧
    nodeStatus (state (sm w')) = running ∧
    netlog w'
    = netlog w ++ [call_startLibp2p args;
                   call_addEventListener "connection:open";
                   call_addEventListener "connection:close";
                   call_getMultiaddrs] ∧
    startTime (sm w')
    = (if startTime (sm w) =? 0 then Date_now env (S (tick w))
       else startTime (sm w)).
Proof.
  intros Hnode Hstart. destruct args as [tr rl bs la].
  unfold handleNodeManagement. run. rewrite Hnode. cbn.
  rewrite Hstart. cbn.
  destruct (startTime (sm w) =? 0) eqn:Htime; cbn;
    eexists; eexists; (split; [reflexivity|]); cbn;
    rewrite ?Htime, <- ?app_assoc; repeat split; reflexivity.
Qed.

Lemma create_installs_the_listeners_witness :
  ∃ addresses w',
    handleNodeManagement Fixtures.quiet_env
      (create_libp2p_node (mkNodeConfig None None None None))
      Fixtures.fresh_world
    = (Ok (NodeRunning "12D3KooWAlice" addresses), w') ∧
    libp2pNode (state (sm w')) = Some Fixtures.alice ∧
    nodeStatus (state (sm w')) = running ∧
    netlog w'
    = [call_startLibp2p (mkNodeConfig None None None None);
       call_addEventListener "connection:open";
       call_addEventListener "connection:close";
       call_getMultiaddrs] ∧
    startTime (sm w') = 1.
Proof.
  apply (create_installs_the_listeners Fixtures.quiet_env
           (mkNodeConfig None None None None) Fixtures.fresh_world
           Fixtures.alice); reflexivity.
Defined.

(** Once a start time is recorded, no lifecycle command changes it,
    whatever the collaborators answer: stopping the node or creating a new
    one does not restart the clock the uptime is measured from. *)
Theorem lifecycle_keeps_the_start_time (env : Env) (cmd : NodeCmd)
    (w : World) :
  startTime (sm w) ≠ 0 →
  startTime (sm (handleNodeManagement env cmd w).2) = startTime (sm w).
Proof.
  intros Htime. apply Z.eqb_neq in Htime.
  unfold handleNodeManagement. run.
  destruct cmd as [args| | |];
    destruct (libp2pNode (state (sm w))) as [node|]; cbn; try reflexivity.
  - rewrite Htime.
    destruct (startLibp2p env (tick w) _); cbn; rewrite ?Htime; reflexivity.
  - destruct (nodeStatus (state (sm w))); cbn; try reflexivity;
      destruct (libp2p_start env (tick w)); cbn; rewrite ?Htime; cbn;
      rewrite ?Htime; reflexivity.
  - destruct (libp2p_stop env (tick w)); reflexivity.
Qed.

Lemma lifecycle_keeps_the_start_time_witness :
  startTime
    (sm (handleNodeManagement Fixtures.quiet_env stop_libp2p_node
           Fixtures.running_world).2) = 1.
Proof.
  apply (lifecycle_keeps_the_start_time Fixtures.quiet_env stop_libp2p_node
           Fixtures.running_world). discriminate.
Defined.

(** *** Commands that only read *)

Ltac split_cases :=
  repeat first
    [ split_answer
    | match goal with
      | |- context [if ?b then _ else _] => destruct b eqn:?
      | |- context [match ?o with Some _ => _ | None => _ end] =>
          destruct o eqn:?
      | |- context [match ?o with Messages _ => _ | Inherited _ => _ end] =>
          destruct o eqn:?
      end;
      cbn [fst snd sm tick netlog] ].

(** The status and listing commands, the probes, the queries, the
    announcement of a file and the monitoring commands never change the
    state manager, whether they succeed or throw and whatever the
    collaborators answer. *)
Theorem read_only_commands_keep_the_state `{Framing} (env : Env)
    (cmd : Command) (w : World) :
  is_read_only cmd = true →
  sm (callTool env cmd w).2 = sm w.
Proof.
  intros Hcmd.
  destruct cmd as [[]|[]|[]|[]|[]]; try discriminate Hcmd; clear Hcmd;
    cbn [callTool];
    unfold handleNodeManagement, handlePeerManagement, handleMessaging,
      handleFileSharing, handleMonitoring; run;
    destruct (libp2pNode (state (sm w))); cbn [fst snd sm tick netlog];
    try reflexivity; split_cases; reflexivity.
Qed.

Lemma read_only_commands_keep_the_state_witness :
  sm (callTool (H:=varint_framing) Fixtures.quiet_env
        (PeerManagement (ping_peer "12D3KooWBob" None))
        Fixtures.empty_topic_world).2
  = sm Fixtures.empty_topic_world.
Proof.
  apply (read_only_commands_keep_the_state (H:=varint_framing)). reflexivity.
Defined.

(** *** Peers ([tools/peer-management.ts]) *)

(** [discover_peers] always succeeds, also when no peer was discovered: it
    returns the events delivered during its window and their number, changes
    nothing in the state, and has removed the listener it registered. An
    absent timeout and a timeout of [0] both give a window of 10000 ms. *)
Theorem discover_peers_collects_and_unregisters (env : Env) (w : World)
    (node : Libp2p) (timeout : option Z) :
  libp2pNode (state (sm w)) = Some node →
  ∃ discovered,
    handlePeerManagement env (discover_peers timeout) w
    = (Ok (PeersDiscovered discovered (len discovered)),
       mkWorld (sm w) (S (S (S (tick w))))
         (netlog w ++ [call_addEventListener "peer:discovery";
                       call_removeEventListener "peer:discovery"])) ∧
    (timeout = None ∨ timeout = Some 0 →
     discovered = discovery_events env (S (tick w)) 10000) ∧
    (∀ t, timeout = Some t → t ≠ 0 →
     discovered = discovery_events env (S (tick w)) t).
Proof.
  intros Hnode. eexists. split.
  - unfold handlePeerManagement. run. rewrite Hnode.
    rewrite <- app_assoc. reflexivity.
  - split.
    + intros [->| ->]; reflexivity.
    + intros t -> Ht. apply Z.eqb_neq in Ht. now rewrite Ht.
Qed.

Lemma discover_peers_collects_and_unregisters_witness :
  handlePeerManagement Fixtures.quiet_env (discover_peers (Some 50))
    Fixtures.running_world
  = (Ok (PeersDiscovered [] 0),
     mkWorld (sm Fixtures.running_world) 8
       (netlog Fixtures.running_world
        ++ [call_addEventListener "peer:discovery";
            call_removeEventListener "peer:discovery"])).
Proof.
  destruct (discover_peers_collects_and_unregisters Fixtures.quiet_env
              Fixtures.running_world Fixtures.alice (Some 50) eq_refl)
    as (discovered & Hrun & _ & Hwindow).
  rewrite Hrun, (Hwindow 50 eq_refl) by discriminate. reflexivity.
Defined.

(** When [connect_to_peer] is given a valid multiaddr whose dial fails, it
    falls back to reading the target as a peer identifier; if that fails
    too, the error reported is that of the fallback and the error of the
    dial is lost. The state is unchanged. *)
Theorem connect_reports_the_fallback_error (env : Env) (w : World)
    (node : Libp2p) (target ma : string) (dial_error parse_error : Exn) :
  libp2pNode (state (sm w)) = Some node →
  multiaddr env target = Ok ma →
  libp2p_dial env (tick w) ma = Throw dial_error →
  peerIdFromString env target = Throw parse_error →
  handlePeerManagement env (connect_to_peer target) w
  = (Throw (Error ("Failed to connect to peer: "
                   +:+ exn_toString parse_error)),
     mkWorld (sm w) (S (tick w)) (netlog w ++ [call_dial ma])).
Proof.
  intros Hnode Hma Hdial Hpeer.
  unfold handlePeerManagement. run.
  now rewrite Hnode, Hma, Hdial, Hpeer.
Qed.

Lemma connect_reports_the_fallback_error_witness :
  let env :=
    Samples.with_peerIdFromString
      (fun _ => Throw (Error "invalid peer id")) Fixtures.quiet_env in
  handlePeerManagement env (connect_to_peer "/ip4/10.0.0.2/tcp/4001")
    Fixtures.running_world
  = (Throw (Error "Failed to connect to peer: Error: invalid peer id"),
     mkWorld (sm Fixtures.running_world) 6
       (netlog Fixtures.running_world
        ++ [call_dial "/ip4/10.0.0.2/tcp/4001"])).
Proof.
  intros env.
  apply (connect_reports_the_fallback_error env Fixtures.running_world
           Fixtures.alice "/ip4/10.0.0.2/tcp/4001" "/ip4/10.0.0.2/tcp/4001"
           (Error "dial failed") (Error "invalid peer id")); reflexivity.
Defined.

(** A [connect_to_peer] whose multiaddr dial succeeds and a
    [disconnect_from_peer] whose hang-up succeeds both replace the stored
    connections by the list the node reports after the operation; a
    [disconnect_from_peer] whose hang-up throws leaves the state as it
    was. *)
Theorem connect_and_disconnect_refresh_connections (env : Env) (w : World)
    (node : Libp2p) :
  libp2pNode (state (sm w)) = Some node →
  let reported := libp2p_getConnections env (S (tick w)) None in
  (∀ target ma connection,
     multiaddr env target = Ok ma →
     libp2p_dial env (tick w) ma = Ok connection →
     handlePeerManagement env (connect_to_peer target) w
     = (Ok (PeerConnected (remotePeer connection) (remoteAddr connection)
              (protoNames connection)),
        mkWorld (updateConnections reported (sm w)) (S (S (tick w)))
          (netlog w ++ [call_dial ma; call_getConnections None]))) ∧
  (∀ peerId peer,
     peerIdFromString env peerId = Ok peer →
     libp2p_hangUp env (tick w) peer = Ok tt →
     handlePeerManagement env (disconnect_from_peer peerId) w
     = (Ok (PeerDisconnected ("Disconnected from peer " +:+ peerId)),
        mkWorld (updateConnections reported (sm w)) (S (S (tick w)))
          (netlog w ++ [call_hangUp peer; call_getConnections None]))) ∧
  (∀ peerId peer e,
     peerIdFromString env peerId = Ok peer →
     libp2p_hangUp env (tick w) peer = Throw e →
     handlePeerManagement env (disconnect_from_peer peerId) w
     = (Throw (Error ("Failed to disconnect from peer: " +:+ exn_toString e)),
        mkWorld (sm w) (S (tick w)) (netlog w ++ [call_hangUp peer]))).
Proof.
  intros Hnode reported. split_and!.
  - intros target ma connection Hma Hdial.
    unfold handlePeerManagement. run.
    rewrite Hnode, Hma, Hdial. cbn. now rewrite <- app_assoc.
  - intros peerId peer Hpeer Hhang.
    unfold handlePeerManagement. run.
    rewrite Hnode, Hpeer, Hhang. cbn. now rewrite <- app_assoc.
  - intros peerId peer e Hpeer Hhang.
    unfold handlePeerManagement. run.
    now rewrite Hnode, Hpeer, Hhang.
Qed.

Lemma connect_and_disconnect_refresh_connections_witness :
  let env :=
    Samples.with_libp2p_getConnections
      (fun _ _ => [Samples.conn "c7" "12D3KooWBob" "/ip4/10.0.0.2" []])
      Fixtures.quiet_env in
  JsMap.keys
    (activeConnections
       (state (sm (handlePeerManagement env
                     (disconnect_from_peer "12D3KooWCarol")
                     Fixtures.running_world).2)))
  = ["c7"].
Proof.
  intros env.
  destruct (connect_and_disconnect_refresh_connections env
              Fixtures.running_world Fixtures.alice eq_refl)
    as (_ & Hdisconnect & _).
  rewrite (Hdisconnect "12D3KooWCarol" "12D3KooWCarol" eq_refl eq_refl).
  reflexivity.
Defined.

Lemma existsb_eqb_elem (x : string) (l : list string) :
  existsb (String.eqb x) l = true ↔ x ∈ l.
Proof.
  rewrite existsb_exists. split.
  - intros (y & Hy & Heq). apply String.eqb_eq in Heq as ->.
    now apply list_elem_of_In.
  - intros Hx. exists x. split; [now apply list_elem_of_In|].
    apply String.eqb_refl.
Qed.

Lemma fold_add_unique (l : list string) : ∀ acc,
  NoDup acc →
  NoDup (fold_left add_unique l acc) ∧
  ∀ x, x ∈ fold_left add_unique l acc ↔ x ∈ acc ∨ x ∈ l.
Proof.
  induction l as [|y l IH]; intros acc Hacc; cbn.
  - split; [done|]. intros x. rewrite elem_of_nil. tauto.
  - assert (Hstep : NoDup (add_unique acc y) ∧
                    ∀ x, x ∈ add_unique acc y ↔ x ∈ acc ∨ x = y).
    { unfold add_unique. destruct (existsb (String.eqb y) acc) eqn:Hy.
      - apply existsb_eqb_elem in Hy. split; [done|].
        intros x. split; [tauto|]. now intros [?| ->].
      - split.
        + apply NoDup_app. split_and!; [done| |apply NoDup_singleton].
          intros x Hx Hin. apply list_elem_of_singleton in Hin as ->.
          apply existsb_eqb_elem in Hx. congruence.
        + intros x. now rewrite elem_of_app, list_elem_of_singleton. }
    destruct Hstep as [Hnodup Hin].
    destruct (IH _ Hnodup) as [IH1 IH2]. split; [done|].
    intros x. rewrite IH2, Hin, elem_of_cons. tauto.
Qed.

(** [[...new Set(l)]] has no duplicates and the elements of [l]. *)
Lemma js_unique_spec (l : list string) :
  NoDup (js_unique l) ∧ ∀ x, x ∈ js_unique l ↔ x ∈ l.
Proof.
  destruct (fold_add_unique l [] (NoDup_nil_2)) as [Hnodup Hin].
  split; [exact Hnodup|].
  intros x. unfold js_unique. fold add_unique. rewrite Hin, elem_of_nil. tauto.
Qed.

(** [get_peer_info] succeeds for every peer identifier that parses, also
    when the peer store throws: it reports the number of connections to the
    peer and whether there is one; and when there is one, the addresses it
    returns hold the remote address of every connection and no address
    twice. *)
Theorem get_peer_info_survives_the_peer_store (env : Env) (w : World)
    (node : Libp2p) (peerId peer : string) :
  libp2pNode (state (sm w)) = Some node →
  peerIdFromString env peerId = Ok peer →
  let connections := libp2p_getConnections env (tick w) (Some peer) in
  ∃ info w',
    handlePeerManagement env (get_peer_info peerId) w
    = (Ok (PeerInfoResult info), w') ∧
    pi_peerId info = peerId ∧
    pi_connectionCount info = len connections ∧
    pi_connected info = (0 <? len connections) ∧
    (connections ≠ [] →
     NoDup (pi_multiaddrs info) ∧
     ∀ connection, connection ∈ connections →
       remoteAddr connection ∈ pi_multiaddrs info).
Proof.
  intros Hnode Hpeer connections.
  assert (Haddrs : ∀ stored,
            NoDup (js_unique (stored ++ map remoteAddr connections)) ∧
            ∀ connection, connection ∈ connections →
              remoteAddr connection
              ∈ js_unique (stored ++ map remoteAddr connections)).
  { intros stored.
    destruct (js_unique_spec (stored ++ map remoteAddr connections))
      as [Hnodup Hin].
    split; [done|]. intros connection Hconn. apply Hin, elem_of_app. right.
    apply list_elem_of_In, in_map, list_elem_of_In, Hconn. }
  assert (Hlen : connections ≠ [] → (0 <? len connections) = true).
  { intros Hne. apply Z.ltb_lt. unfold len.
    destruct connections; [done|cbn; lia]. }
  unfold handlePeerManagement. run. rewrite Hnode, Hpeer.
  cbn [fst snd sm tick netlog]. fold connections.
  destruct (peerStore_has env (S (tick w)) peer) as [[|]|];
    cbn [fst snd sm tick netlog];
    [destruct (peerStore_get env (S (S (tick w))) peer)| |];
    cbn [fst snd sm tick netlog];
    eexists; eexists; (split; [reflexivity|]);
    (destruct (0 <? len connections) eqn:Hconnected;
     [|split_and!; try reflexivity; intros Hne; apply Hlen in Hne;
       congruence]);
    split_and!; try reflexivity; intros _; apply Haddrs.
Qed.

Lemma get_peer_info_survives_the_peer_store_witness :
  let env :=
    Samples.with_peerStore_has (fun _ _ => Throw (Error "store closed"))
      (Samples.with_libp2p_getConnections
         (fun _ _ => [Samples.conn "c1" "12D3KooWBob" "/ip4/10.0.0.2" [];
                      Samples.conn "c2" "12D3KooWBob" "/ip4/10.0.0.2" []])
         Fixtures.quiet_env) in
  (handlePeerManagement env (get_peer_info "12D3KooWBob")
     Fixtures.running_world).1
  = Ok (PeerInfoResult
          (mkPeerInfo "12D3KooWBob" ["/ip4/10.0.0.2"] [] true 2)).
Proof.
  intros env.
  destruct (get_peer_info_survives_the_peer_store env Fixtures.running_world
              Fixtures.alice "12D3KooWBob" "12D3KooWBob" eq_refl eq_refl)
    as (info & w' & Hrun & _).
  rewrite Hrun. cbn [fst]. symmetry.
  injection Hrun as <- _. reflexivity.
Defined.

(** On a node without the ping service, [ping_peer] throws "Ping service not
    available" before any call into the network subsystem; the state is
    unchanged. *)
Theorem ping_needs_the_service (env : Env) (w : World) (node : Libp2p)
    (peerId peer : string) (timeout : option Z) :
  libp2pNode (state (sm w)) = Some node →
  services_ping node = false →
  peerIdFromString env peerId = Ok peer →
  handlePeerManagement env (ping_peer peerId timeout) w
  = (Throw (Error "Failed to ping peer: Error: Ping service not available"),
     mkWorld (sm w) (S (tick w)) (netlog w)).
Proof.
  intros Hnode Hping Hpeer. unfold handlePeerManagement. run.
  now rewrite Hnode, Hpeer, Hping.
Qed.

Lemma ping_needs_the_service_witness :
  handlePeerManagement Fixtures.quiet_env (ping_peer "12D3KooWBob" None)
    (Samples.world_of Samples.carol)
  = (Throw (Error "Failed to ping peer: Error: Ping service not available"),
     mkWorld (sm (Samples.world_of Samples.carol)) 1 []).
Proof.
  apply (ping_needs_the_service Fixtures.quiet_env
           (Samples.world_of Samples.carol) Samples.carol "12D3KooWBob"
           "12D3KooWBob" None); reflexivity.
Defined.

(** *** Messaging ([tools/messaging.ts]) *)

(** When the publication throws, [send_group_message] throws an error that
    carries the cause and leaves the state as it was: no message is added
    to the history and no counter moves. *)
Theorem failed_publish_changes_nothing (env : Env) (w : World)
    (node : Libp2p) (topic : option string) (message : string) (e : Exn) :
  libp2pNode (state (sm w)) = Some node →
  pubsub_publish env (tick w) (default CHAT_TOPIC topic)
    (TextEncoder_encode message) = Throw e →
  handleMessaging env (send_group_message topic message) w
  = (Throw (Error ("Failed to send group message: " +:+ exn_toString e)),
     mkWorld (sm w) (S (tick w))
       (netlog w ++ [call_publish (default CHAT_TOPIC topic)
                       (TextEncoder_encode message)])).
Proof.
  intros Hnode Hpublish. unfold handleMessaging. run.
  now rewrite Hnode, Hpublish.
Qed.

Lemma failed_publish_changes_nothing_witness :
  let env :=
    Samples.with_pubsub_publish (fun _ _ _ => Throw (Error "no peers"))
      Fixtures.quiet_env in
  handleMessaging env (send_group_message None "hello")
    Fixtures.running_world
  = (Throw (Error "Failed to send group message: Error: no peers"),
     mkWorld (sm Fixtures.running_world) 6
       (netlog Fixtures.running_world
        ++ [call_publish "universal-connectivity"
              (TextEncoder_encode "hello")])).
Proof.
  intros env.
  apply (failed_publish_changes_nothing env Fixtures.running_world
           Fixtures.alice None "hello" (Error "no peers")); reflexivity.
Defined.

Lemma addDirectMessage_stored peerId message m stored :
  getDirectMessages peerId m = Messages stored →
  addDirectMessage peerId message m
  = Ok (incrementMessagesReceived
          (with_state (fun st =>
             mkServerState (libp2pNode st) (activeConnections st)
               (messageHistory st)
               (<[peerId := stored ++ [message]]> (directMessages st))
               (sharedFiles st) (subscriptions st) (nodeStatus st)) m)).
Proof.
  unfold getDirectMessages, addDirectMessage.
  destruct (directMessages (state m) !! peerId) as [own|] eqn:Hown.
  - intros [= <-]. now rewrite Hown.
  - destruct (inherited peerId); [discriminate|]. intros [= <-].
    rewrite lookup_insert_eq. unfold with_state. now rewrite insert_insert_eq.
Qed.

Lemma addDirectMessage_inherited peerId message m key :
  getDirectMessages peerId m = Inherited key →
  addDirectMessage peerId message m
  = Throw (TypeError "this.state.directMessages[peerId].push is not a function").
Proof.
  unfold getDirectMessages, addDirectMessage.
  destruct (directMessages (state m) !! peerId) as [own|] eqn:Hown;
    [discriminate|].
  destruct (inherited peerId); [|discriminate]. now rewrite Hown.
Qed.

(** A direct message that was delivered is appended, marked as read and
    under the node's own identity, to the history kept for the peer
    identifier as the caller wrote it; the histories of the other peers and
    of the topics are untouched, and both [messagesSent] and
    [messagesReceived] grow by one. Under an identifier that is the name of
    a member of [Object.prototype], should the parser accept one, the
    message is delivered but cannot be recorded: the command throws and the
    state is unchanged. A direct message that was not delivered is not an
    error: the command returns [success: false] and the state is
    unchanged. *)
Theorem direct_message_is_recorded_when_delivered (env : Env) (w : World)
    (node : Libp2p) (peerId peer message : string) :
  libp2pNode (state (sm w)) = Some node →
  peerIdFromString env peerId = Ok peer →
  (directMessage_send env (tick w) peer message = Ok true →
   (∀ stored,
      getDirectMessages peerId (sm w) = Messages stored →
      ∃ sent timestamp w',
        handleMessaging env (send_direct_message peerId message) w
        = (Ok (DirectMessageSent true peerId message timestamp), w') ∧
        getDirectMessages peerId (sm w') = Messages (stored ++ [sent]) ∧
        msg sent = message ∧ msg_peerId sent = node_peerId node ∧
        read sent = true ∧
        (∀ other, other ≠ peerId →
           getDirectMessages other (sm w') = getDirectMessages other (sm w)) ∧
        messageHistory (state (sm w')) = messageHistory (state (sm w)) ∧
        messagesSent (stats (sm w')) = messagesSent (stats (sm w)) + 1 ∧
        messagesReceived (stats (sm w'))
        = messagesReceived (stats (sm w)) + 1 ∧
        bytesSent (stats (sm w'))
        = bytesSent (stats (sm w)) + len (TextEncoder_encode message)) ∧
   (∀ key,
      getDirectMessages peerId (sm w) = Inherited key →
      handleMessaging env (send_direct_message peerId message) w
      = (Throw (Error "Failed to send direct message: TypeError: this.state.directMessages[peerId].push is not a function"),
         mkWorld (sm w) (S (S (S (tick w))))
           (netlog w ++ [call_directMessage_send peer message])))) ∧
  (directMessage_send env (tick w) peer message = Ok false →
   ∃ timestamp w',
     handleMessaging env (send_direct_message peerId message) w
     = (Ok (DirectMessageSent false peerId message timestamp), w') ∧
     sm w' = sm w).
Proof.
  intros Hnode Hpeer. split; intros Hsend; [split|].
  - intros stored Hstored. unfold handleMessaging. run. rewrite Hnode, Hpeer.
    cbn [fst snd sm tick netlog]. rewrite Hsend.
    cbn [fst snd sm tick netlog].
    rewrite (addDirectMessage_stored _ _ _ stored Hstored).
    cbn [fst snd sm tick netlog].
    eexists. eexists. eexists. split; [reflexivity|].
    cbn [sm]. unfold getDirectMessages. cbn.
    rewrite lookup_insert_eq. split_and!; try reflexivity.
    intros other Hother. now rewrite lookup_insert_ne.
  - intros key Hkey. unfold handleMessaging. run. rewrite Hnode, Hpeer.
    cbn [fst snd sm tick netlog]. rewrite Hsend.
    cbn [fst snd sm tick netlog].
    now rewrite (addDirectMessage_inherited _ _ _ key Hkey).
  - unfold handleMessaging. run. rewrite Hnode, Hpeer.
    cbn [fst snd sm tick netlog]. rewrite Hsend.
    cbn [fst snd sm tick netlog].
    eexists. eexists. split; reflexivity.
Qed.

Lemma direct_message_is_recorded_when_delivered_witness :
  ∃ sent timestamp w',
    handleMessaging Fixtures.quiet_env
      (send_direct_message "12D3KooWBob" "hi") Fixtures.running_world
    = (Ok (DirectMessageSent true "12D3KooWBob" "hi" timestamp), w') ∧
    getDirectMessages "12D3KooWBob" (sm w') = Messages [sent] ∧
    msg sent = "hi" ∧
    messagesReceived (stats (sm w')) = 1.
Proof.
  destruct (direct_message_is_recorded_when_delivered Fixtures.quiet_env
              Fixtures.running_world Fixtures.alice "12D3KooWBob"
              "12D3KooWBob" "hi" eq_refl eq_refl) as [Hdelivered _].
  destruct (Hdelivered eq_refl) as [Hrecorded _].
  destruct (Hrecorded [] eq_refl)
    as (sent & timestamp & w' & Hrun & Hhistory & Hmsg & _ & _ & _ & _ & _
        & Hreceived & _).
  exists sent, timestamp, w'. split_and!; [exact Hrun| |exact Hmsg|].
  - rewrite Hhistory. reflexivity.
  - rewrite Hreceived. reflexivity.
Defined.

Lemma JsSet_add_NoDup x s : NoDup s → NoDup (JsSet.add x s).
Proof.
  intros Hs. unfold JsSet.add, JsSet.has.
  destruct (existsb (String.eqb x) s) eqn:Hx; [done|].
  apply NoDup_app. split_and!; [done| |apply NoDup_singleton].
  intros y Hy Hin. apply list_elem_of_singleton in Hin as ->.
  apply existsb_eqb_elem in Hy. congruence.
Qed.

Lemma JsSet_delete_NoDup x s : NoDup s → NoDup (JsSet.delete x s).
Proof.
  intros Hs. unfold JsSet.delete.
  apply NoDup_ListNoDup, List.NoDup_filter, NoDup_ListNoDup, Hs.
Qed.

(** No command ever makes the subscription set hold a topic twice, whatever
    the collaborators answer: subscribing again to a subscribed topic
    leaves the set as it is, and subscribing to a topic that is not in the
    set, when the pubsub service accepts it, adds the topic at the end. *)
Theorem subscriptions_stay_distinct `{Framing} (env : Env) (cmd : Command)
    (w : World) :
  NoDup (subscriptions (state (sm w))) →
  NoDup (subscriptions (state (sm (callTool env cmd w).2))) ∧
  ∀ t, cmd = Messaging (subscribe_to_topic t) →
    (JsSet.has t (subscriptions (state (sm w))) = true →
     subscriptions (state (sm (callTool env cmd w).2))
     = subscriptions (state (sm w))) ∧
    (JsSet.has t (subscriptions (state (sm w))) = false →
     libp2pNode (state (sm w)) ≠ None →
     pubsub_subscribe env (tick w) t = Ok tt →
     subscriptions (state (sm (callTool env cmd w).2))
     = subscriptions (state (sm w)) ++ [t]).
Proof.
  intros Hsubs. split.
  - destruct cmd as [[]|[]|[]|[]|[]]; cbn [callTool];
      unfold handleNodeManagement, handlePeerManagement, handleMessaging,
        handleFileSharing, handleMonitoring; run;
      destruct (libp2pNode (state (sm w))); cbn [fst snd sm tick netlog];
      try exact Hsubs;
      repeat (cbn -[JsSet.add JsSet.delete addDirectMessage];
              match goal with
              | |- context [addDirectMessage ?p ?message ?m] =>
                  let Hstored := fresh "Hstored" in
                  destruct (getDirectMessages p m) eqn:Hstored;
                  [ rewrite (addDirectMessage_stored _ _ _ _ Hstored)
                  | rewrite (addDirectMessage_inherited _ _ _ _ Hstored) ]
              | |- context [match ?o with Ok _ => _ | Throw _ => _ end] =>
                  destruct o eqn:?
              | |- context [if ?b then _ else _] => destruct b eqn:?
              | |- context [match ?o with Some _ => _ | None => _ end] =>
                  destruct o eqn:?
              | |- context [match ?o with
                            | Messages _ => _ | Inherited _ => _ end] =>
                  destruct o eqn:?
              end);
      cbn -[JsSet.add JsSet.delete];
      first [ exact Hsubs
            | now apply JsSet_add_NoDup
            | now apply JsSet_delete_NoDup ].
  - intros t ->. cbn [callTool]. unfold handleMessaging. run.
    destruct (libp2pNode (state (sm w))); cbn [fst snd sm tick netlog].
    + split.
      * intros Hin.
        destruct (pubsub_subscribe env (tick w) t);
          cbn -[JsSet.add]; [|reflexivity].
        destruct (pubsub_getSubscribers env _ t); cbn -[JsSet.add];
          unfold JsSet.add; now rewrite Hin.
      * intros Hout _ ->. cbn -[JsSet.add].
        destruct (pubsub_getSubscribers env _ t); cbn -[JsSet.add];
          unfold JsSet.add; now rewrite Hout.
    + split; [reflexivity|]. intros _ Hnode. now destruct Hnode.
Qed.

Lemma subscriptions_stay_distinct_witness :
  let subscribe t w :=
    (callTool (H:=varint_framing) Fixtures.quiet_env
       (Messaging (subscribe_to_topic t)) w).2 in
  let w2 := subscribe "b" (subscribe "a" Fixtures.running_world) in
  subscriptions (state (sm w2)) = ["a"; "b"] ∧
  subscriptions (state (sm (subscribe "a" w2))) = ["a"; "b"] ∧
  subscriptions (state (sm (subscribe "c" w2))) = ["a"; "b"; "c"].
Proof.
  intros subscribe w2.
  assert (Hsubs : NoDup (subscriptions (state (sm w2)))).
  { apply (subscriptions_stay_distinct (H:=varint_framing)).
    apply (subscriptions_stay_distinct (H:=varint_framing)).
    apply NoDup_nil_2. }
  destruct (subscriptions_stay_distinct (H:=varint_framing)
              Fixtures.quiet_env (Messaging (subscribe_to_topic "a")) w2
              Hsubs) as [_ Hagain].
  destruct (Hagain "a" eq_refl) as [Hagain' _].
  destruct (subscriptions_stay_distinct (H:=varint_framing)
              Fixtures.quiet_env (Messaging (subscribe_to_topic "c")) w2
              Hsubs) as [_ Hnew].
  destruct (Hnew "c" eq_refl) as [_ Hnew'].
  split_and!.
  - reflexivity.
  - apply Hagain'. reflexivity.
  - apply Hnew'; [reflexivity|discriminate|reflexivity].
Defined.

(** The pubsub listener drops every event that is not a signed message:
    the world is left as it was. A signed message changes the history of
    its own topic only. *)
Theorem adapter_ignores_unsigned_messages (env : Env) (w : World)
    (evt : MessageEvent) :
  (evt_detail evt = None ∨
   (∃ type from, evt_detail evt = Some (type, from) ∧ type ≠ "signed") →
   handleMessage env evt w = (Ok tt, w)) ∧
  (∀ other, other ≠ evt_topic evt →
     getMessages other (sm (handleMessage env evt w).2)
     = getMessages other (sm w)) ∧
  directMessages (state (sm (handleMessage env evt w).2))
  = directMessages (state (sm w)).
Proof.
  unfold handleMessage. destruct evt as [topic data [[type from]|]];
    cbn [evt_detail evt_topic evt_data].
  - destruct (String.eqb_spec type "signed") as [->|Hne].
    + split_and!.
      * intros [Hnone|(type & from' & Heq & Hne)]; [done|].
        injection Heq as <- <-. done.
      * intros other Hother. run.
        unfold addBytesReceived, with_stats.
        change (getMessages ?t (mkStateManager (state ?m) _ _))
          with (getMessages t m).
        apply getMessages_addMessage_ne. congruence.
      * reflexivity.
    + split_and!; reflexivity.
  - split_and!; reflexivity.
Qed.

Lemma adapter_ignores_unsigned_messages_witness :
  handleMessage Fixtures.quiet_env
    (mkMessageEvent "chat" [x68; x69]%byte (Some ("unsigned", "12D3KooWBob")))
    Fixtures.running_world
  = (Ok tt, Fixtures.running_world).
Proof.
  destruct (adapter_ignores_unsigned_messages Fixtures.quiet_env
              Fixtures.running_world
              (mkMessageEvent "chat" [x68; x69]%byte
                 (Some ("unsigned", "12D3KooWBob")))) as [Hdrop _].
  apply Hdrop. right. exists "unsigned", "12D3KooWBob".
  split; [reflexivity|discriminate].
Defined.

(** [subscribe_to_topic] is not all-or-nothing: if the subscription throws,
    nothing is recorded; but if the subscription succeeds and the query for
    the subscribers then throws, the command fails although the topic is in
    the subscription set and the listener is registered. *)
Theorem subscribe_can_fail_after_subscribing (env : Env) (w : World)
    (node : Libp2p) (t : string) (e : Exn) :
  libp2pNode (state (sm w)) = Some node →
  (pubsub_subscribe env (tick w) t = Throw e →
   handleMessaging env (subscribe_to_topic t) w
   = (Throw (Error ("Failed to subscribe to topic: " +:+ exn_toString e)),
      mkWorld (sm w) (S (tick w)) (netlog w ++ [call_subscribe t]))) ∧
  (pubsub_subscribe env (tick w) t = Ok tt →
   pubsub_getSubscribers env (S (S (tick w))) t = Throw e →
   ∃ w',
     handleMessaging env (subscribe_to_topic t) w
     = (Throw (Error ("Failed to subscribe to topic: " +:+ exn_toString e)),
        w') ∧
     JsSet.has t (subscriptions (state (sm w'))) = true ∧
     netlog w'
     = netlog w ++ [call_subscribe t;
                    call_pubsub_addEventListener "message";
                    call_getSubscribers t]).
Proof.
  intros Hnode. split.
  - intros Hsub. unfold handleMessaging. run. now rewrite Hnode, Hsub.
  - intros Hsub Hquery. unfold handleMessaging. run.
    rewrite Hnode, Hsub. cbn [fst snd sm tick netlog]. rewrite Hquery.
    eexists. split; [reflexivity|]. cbn [sm netlog]. split.
    + apply JsSet_has_add.
    + now rewrite <- !app_assoc.
Qed.

Lemma subscribe_can_fail_after_subscribing_witness :
  let env :=
    Samples.with_pubsub_getSubscribers
      (fun _ _ => Throw (Error "not started")) Fixtures.quiet_env in
  ∃ w',
    handleMessaging env (subscribe_to_topic "t") Fixtures.running_world
    = (Throw (Error "Failed to subscribe to topic: Error: not started"), w') ∧
    JsSet.has "t" (subscriptions (state (sm w'))) = true.
Proof.
  intros env.
  destruct (subscribe_can_fail_after_subscribing env Fixtures.running_world
              Fixtures.alice "t" (Error "not started") eq_refl)
    as [_ Hlate].
  destruct (Hlate eq_refl eq_refl) as (w' & Hrun & Hin & _).
  exists w'. split; [exact Hrun|exact Hin].
Defined.

(** *** Files ([tools/file-sharing.ts]) *)

(** [share_file] with neither a path nor both a content and a name throws
    before anything is stored or any collaborator is called: the world is
    left as it was. An empty string counts as a missing argument. *)
Theorem share_file_needs_a_source `{Framing} (env : Env) (w : World)
    (node : Libp2p) (filePath fileContent fileName : option string)
    (announce : option bool) :
  libp2pNode (state (sm w)) = Some node →
  truthy filePath = None →
  truthy fileContent = None ∨ truthy fileName = None →
  handleFileSharing env (share_file filePath fileContent fileName announce) w
  = (Throw (Error "Failed to share file: Error: Either filePath or both fileContent and fileName must be provided"),
     w).
Proof.
  intros Hnode Hpath Hcontent. unfold handleFileSharing. run.
  rewrite Hnode, Hpath.
  destruct Hcontent as [-> | Hname]; [reflexivity|].
  rewrite Hname. now destruct (truthy fileContent).
Qed.

Lemma share_file_needs_a_source_witness :
  handleFileSharing (H:=varint_framing) Fixtures.quiet_env
    (share_file (Some "") (Some "AQID") None None) Fixtures.running_world
  = (Throw (Error "Failed to share file: Error: Either filePath or both fileContent and fileName must be provided"),
     Fixtures.running_world).
Proof.
  apply (share_file_needs_a_source (H:=varint_framing) Fixtures.quiet_env
           Fixtures.running_world Fixtures.alice); [reflexivity..|].
  right. reflexivity.
Defined.

(** [share_file] stores the file before it registers the protocol handler:
    when the registration throws, the command fails, but the file is in
    the catalog under the identifier that was drawn for it, with the node as
    its sender. *)
Theorem share_file_stores_before_it_registers `{Framing} (env : Env)
    (w : World) (node : Libp2p) (filePath : option string)
    (fileContent fileName : string) (announce : option bool) (e : Exn) :
  libp2pNode (state (sm w)) = Some node →
  truthy filePath = None →
  fileContent ≠ "" → fileName ≠ "" →
  libp2p_handle env (S (tick w)) FILE_EXCHANGE_PROTOCOL = Throw e →
  ∃ w',
    handleFileSharing env
      (share_file filePath (Some fileContent) (Some fileName) announce) w
    = (Throw (Error ("Failed to share file: " +:+ exn_toString e)), w') ∧
    getSharedFile (uuidv4 env (tick w)) (sm w')
    = Some (mkChatFile (uuidv4 env (tick w))
              (Buffer_from_base64 env fileContent) (node_peerId node)).
Proof.
  intros Hnode Hpath Hcontent Hname Hhandle.
  unfold handleFileSharing. run. rewrite Hnode, Hpath.
  cbn [truthy]. destruct (String.eqb_spec fileContent ""); [done|].
  destruct (String.eqb_spec fileName ""); [done|].
  cbn [fst snd sm tick netlog]. rewrite Hhandle.
  eexists. split; [reflexivity|]. cbn [sm].
  apply (getSharedFile_addSharedFile
           (mkChatFile (uuidv4 env (tick w))
              (Buffer_from_base64 env fileContent) (node_peerId node))).
Qed.

Lemma share_file_stores_before_it_registers_witness :
  let env :=
    Samples.with_libp2p_handle
      (fun _ _ => Throw (Error "handler already registered"))
      (Fixtures.test_env (Ok Fixtures.alice) (Ok tt) (fun _ => [])
         [x01; x02; x03]%byte Fixtures.no_stream) in
  ∃ w',
    handleFileSharing (H:=varint_framing) env
      (share_file None (Some "AQID") (Some "a.bin") None)
      Fixtures.running_world
    = (Throw (Error "Failed to share file: Error: handler already registered"),
       w') ∧
    getSharedFile "uuid-1" (sm w')
    = Some (mkChatFile "uuid-1" [x01; x02; x03]%byte "12D3KooWAlice").
Proof.
  intros env.
  apply (share_file_stores_before_it_registers (H:=varint_framing) env
           Fixtures.running_world Fixtures.alice None "AQID" "a.bin" None
           (Error "handler already registered"));
    (reflexivity || discriminate).
Defined.

(** After a [share_file] that succeeded, [list_shared_files] lists the file
    under the identifier returned, with the size returned, the node as its
    sender, and as a local file. *)
Theorem shared_file_is_listed_as_local `{Framing} (env env' : Env)
    (w w' : World)
    (filePath fileContent fileName : option string) (announce : option bool)
    (fileId actualFileName : string) (fileSize : Z) (announced : bool)
    (recipients : list string) :
  handleFileSharing env (share_file filePath fileContent fileName announce) w
  = (Ok (FileShared fileId actualFileName fileSize announced recipients),
     w') →
  ∃ node files,
    libp2pNode (state (sm w)) = Some node ∧
    handleFileSharing env' list_shared_files w'
    = (Ok (SharedFileList files (len files)), w') ∧
    mkFileEntry fileId (node_peerId node) fileSize true ∈ files.
Proof.
  intros Hshare.
  apply share_file_stores in Hshare as (node & fileBody & Hnode & Hsize & Hsm).
  exists node. eexists. split; [exact Hnode|].
  assert (Hnode' : libp2pNode (state (sm w')) = Some node)
    by (rewrite Hsm; exact Hnode).
  split.
  - unfold handleFileSharing. run. now rewrite Hnode'.
  - assert (Hstored :
      getSharedFile fileId (sm w')
      = Some (mkChatFile fileId fileBody (node_peerId node)))
      by (rewrite Hsm;
          apply (getSharedFile_addSharedFile
                   (mkChatFile fileId fileBody (node_peerId node)))).
    unfold getSharedFile in Hstored.
    assert (Hin : ∀ (m : JsMap.t ChatFile) k v,
              JsMap.get k m = Some v → v ∈ JsMap.values m).
    { induction m as [|[k0 v0] m IH]; intros k v; cbn; [done|].
      destruct (String.eqb k k0).
      - intros [= ->]. left.
      - intros Hget. right. now apply (IH k). }
    apply Hin in Hstored.
    apply (list_elem_of_fmap_2
             (fun file =>
                mkFileEntry (file_id file) (sender file) (len (body file))
                  (String.eqb (sender file) (node_peerId node)))) in Hstored.
    cbn in Hstored. rewrite String.eqb_refl, Hsize in Hstored.
    exact Hstored.
Qed.

Lemma shared_file_is_listed_as_local_witness :
  let env :=
    Fixtures.test_env (Ok Fixtures.alice) (Ok tt) (fun _ => [])
      [x01; x02; x03]%byte Fixtures.no_stream in
  let w' :=
    (handleFileSharing (H:=varint_framing) env
       (share_file None (Some "AQID") (Some "a.bin") (Some false))
       Fixtures.running_world).2 in
  ∃ node files,
    libp2pNode (state (sm Fixtures.running_world)) = Some node ∧
    handleFileSharing (H:=varint_framing) env list_shared_files w'
    = (Ok (SharedFileList files (len files)), w') ∧
    mkFileEntry "uuid-1" (node_peerId node) 3 true ∈ files.
Proof.
  intros env w'.
  apply (shared_file_is_listed_as_local (H:=varint_framing) env env
           Fixtures.running_world w' None (Some "AQID") (Some "a.bin")
           (Some false) "uuid-1" "a.bin" 3 false []).
  reflexivity.
Defined.

Lemma serve_requests_known `{Framing} (m : StateManager)
    (served : list (string * ChatFile)) (rest : list (list byte)) :
  (∀ id file, (id, file) ∈ served → getSharedFile id m = Some file) →
  serve_requests m (map (fun r => TextEncoder_encode r.1) served ++ rest)
  = (map (fun r => body r.2) served ++ (serve_requests m rest).1,
     (serve_requests m rest).2).
Proof.
  intros Hknown.
  induction served as [|[id file] served IH]; cbn [map app fst snd].
  - now destruct (serve_requests m rest).
  - cbn [serve_requests].
    rewrite decode_encode_fileId, (Hknown id file) by left.
    rewrite IH by (intros id' file' Hin; apply Hknown; now right).
    reflexivity.
Qed.

(** The responder answers every request frame of a stream, in order, with
    the body of the file requested, as long as it has the files and their
    bodies are within the limit of the framing; at the first identifier it
    does not have, its pipeline throws "File not found", and at the first
    file whose body is over the limit, its encoder throws, in both cases
    after the bodies of the requests before it and nothing after. *)
Theorem responder_answers_requests_in_order `{Framing} (m : StateManager)
    (served : list (string * ChatFile)) :
  (∀ id file, (id, file) ∈ served → getSharedFile id m = Some file) →
  Forall (fun r => within_limit (TextEncoder_encode r.1)
                   ∧ within_limit (body r.2)) served →
  file_exchange_handler m
    (lp_frames (map (fun r => TextEncoder_encode r.1) served))
  = (lp_frames (map (fun r => body r.2) served), None) ∧
  ∀ next later,
    within_limit (TextEncoder_encode next) →
    Forall within_limit later →
    (getSharedFile next m = None →
     file_exchange_handler m
       (lp_frames (map (fun r => TextEncoder_encode r.1) served
                   ++ TextEncoder_encode next :: later))
     = (lp_frames (map (fun r => body r.2) served),
        Some (Error ("File not found: " +:+ next)))) ∧
    (∀ large,
       getSharedFile next m = Some large →
       MAX_DATA_LENGTH < len (body large) →
       file_exchange_handler m
         (lp_frames (map (fun r => TextEncoder_encode r.1) served
                     ++ TextEncoder_encode next :: later))
       = (lp_frames (map (fun r => body r.2) served),
          Some InvalidDataLengthError)).
Proof.
  intros Hknown Hlimit.
  assert (Hids : Forall within_limit
                   (map (fun r => TextEncoder_encode r.1) served))
    by (apply List.Forall_map; eapply Forall_impl; [exact Hlimit|];
        now intros r [Hid _]).
  assert (Hbodies : Forall within_limit (map (fun r => body r.2) served))
    by (apply List.Forall_map; eapply Forall_impl; [exact Hlimit|];
        now intros r [_ Hbody]).
  split.
  - unfold file_exchange_handler, lp_frames.
    rewrite lp_decode_frames by exact Hids.
    pose proof (serve_requests_known m served [] Hknown) as Hserve.
    rewrite !app_nil_r in Hserve. cbn in Hserve. rewrite Hserve.
    now rewrite lp_encode_within.
  - intros next later Hnext Hlater.
    assert (Hrequests : Forall within_limit
                          (map (fun r => TextEncoder_encode r.1) served
                           ++ TextEncoder_encode next :: later))
      by (apply Forall_app; split; [done|now constructor]).
    split.
    + intros Hmissing. unfold file_exchange_handler, lp_frames.
      rewrite lp_decode_frames by exact Hrequests.
      rewrite (serve_requests_known m served _ Hknown). cbn [serve_requests].
      rewrite decode_encode_fileId, Hmissing. cbn [fst snd].
      rewrite app_nil_r. now rewrite lp_encode_within.
    + intros large Hlarge Hbody. unfold file_exchange_handler, lp_frames.
      rewrite lp_decode_frames by exact Hrequests.
      rewrite (serve_requests_known m served _ Hknown). cbn [serve_requests].
      rewrite decode_encode_fileId, Hlarge.
      destruct (serve_requests m later) as [bodies failure]. cbn [fst snd].
      now rewrite lp_encode_too_long.
Qed.

Lemma responder_answers_requests_in_order_witness :
  let a := mkChatFile "a" [x01]%byte "12D3KooWAlice" in
  let b := mkChatFile "b" [x02; x03]%byte "12D3KooWAlice" in
  let m := addSharedFile b (addSharedFile a newStateManager) in
  file_exchange_handler (H:=varint_framing) m
    (lp_frames (H:=varint_framing)
       [TextEncoder_encode "b"; TextEncoder_encode "a";
        TextEncoder_encode "c"; TextEncoder_encode "a"])
  = (lp_frames (H:=varint_framing) [[x02; x03]; [x01]]%byte,
     Some (Error "File not found: c")).
Proof.
  intros a b m.
  assert (Hsmall : ∀ msg : list byte,
            (length msg ≤ 2)%nat → within_limit msg)
    by (intros msg Hmsg; unfold within_limit, len, MAX_DATA_LENGTH; lia).
  destruct (responder_answers_requests_in_order (H:=varint_framing) m
              [("b", b); ("a", a)]) as [_ Hnext].
  - intros id file Hin.
    apply elem_of_cons in Hin as [[= -> ->]|Hin]; [reflexivity|].
    apply list_elem_of_singleton in Hin as [= -> ->]. reflexivity.
  - repeat constructor; apply Hsmall; cbn; lia.
  - destruct (Hnext "c" [TextEncoder_encode "a"]) as [Hmissing _].
    + apply Hsmall. cbn. lia.
    + repeat constructor. apply Hsmall. cbn. lia.
    + apply Hmissing. reflexivity.
Defined.

Lemma JsMap_size_set {V} k (v : V) m :
  JsMap.size (JsMap.set k v m)
  = if JsMap.has k m then JsMap.size m else JsMap.size m + 1.
Proof.
  unfold JsMap.size, JsMap.has.
  induction m as [|[k' v'] m IH]; cbn [JsMap.set JsMap.get length].
  - reflexivity.
  - destruct (String.eqb k k'); [reflexivity|]. cbn [length].
    destruct (JsMap.get k m); lia.
Qed.

(** A file fetched with [request_file] takes the place of the file the
    catalog already holds under the same identifier: the catalog keeps its
    size, the lookup gives the fetched bytes with the remote peer as the
    sender, and the other files are untouched. Without such a file the
    catalog grows by one. This is for a file, and an identifier, within the
    limit of the framing; a file over the limit is not fetched, and the
    catalog is left as it was. *)
Theorem fetched_file_replaces_the_stored_one `{Framing} (env : Env)
    (w : World) (node : Libp2p) (peerId peer fileId : string)
    (responder : StateManager) (reset_error : Exn) (file : ChatFile) :
  libp2pNode (state (sm w)) = Some node →
  peerIdFromString env peerId = Ok peer →
  libp2p_dialProtocol env (tick w) peer FILE_EXCHANGE_PROTOCOL
  = Ok (served_by responder reset_error) →
  getSharedFile fileId responder = Some file →
  within_limit (TextEncoder_encode fileId) →
  let w' := (handleFileSharing env (request_file peerId fileId) w).2 in
  (within_limit (body file) →
   getSharedFile fileId (sm w')
   = Some (mkChatFile fileId (body file) peerId) ∧
   (∀ other, other ≠ fileId →
      getSharedFile other (sm w') = getSharedFile other (sm w)) ∧
   JsMap.size (sharedFiles (state (sm w')))
   = (if JsMap.has fileId (sharedFiles (state (sm w)))
      then JsMap.size (sharedFiles (state (sm w)))
      else JsMap.size (sharedFiles (state (sm w))) + 1)) ∧
  (MAX_DATA_LENGTH < len (body file) → sm w' = sm w).
Proof.
  intros Hnode Hpeer Hdial Hfile Hid w'. subst w'. split.
  - intros Hbody.
    rewrite (request_file_served env w node peerId peer fileId responder
               reset_error file) by done.
    cbn [snd sm]. split_and!.
    + apply (getSharedFile_addSharedFile
               (mkChatFile fileId (body file) peerId)).
    + intros other Hother. unfold getSharedFile. cbn.
      apply JsMap_get_set_ne. congruence.
    + cbn. apply JsMap_size_set.
  - intros Hbody.
    now rewrite (request_file_too_large env w node peerId peer fileId
                   responder reset_error file).
Qed.

Lemma fetched_file_replaces_the_stored_one_witness :
  let responder :=
    addSharedFile (mkChatFile "f" [x09]%byte "12D3KooWAlice") newStateManager in
  let env :=
    Fixtures.test_env (Ok Fixtures.bob) (Ok tt) (fun _ => []) []
      (Ok (served_by (H:=varint_framing) responder (Error "stream reset"))) in
  let w :=
    mkWorld
      (addSharedFile (mkChatFile "f" [x01; x02]%byte "12D3KooWBob")
         (sm (Samples.world_of Fixtures.bob))) 0 [] in
  let w' :=
    (handleFileSharing (H:=varint_framing) env
       (request_file "12D3KooWAlice" "f") w).2 in
  getSharedFile "f" (sm w') = Some (mkChatFile "f" [x09]%byte "12D3KooWAlice") ∧
  JsMap.size (sharedFiles (state (sm w'))) = 1.
Proof.
  intros responder env w w'.
  destruct (fetched_file_replaces_the_stored_one (H:=varint_framing) env w
              Fixtures.bob "12D3KooWAlice" "12D3KooWAlice" "f" responder
              (Error "stream reset")
              (mkChatFile "f" [x09]%byte "12D3KooWAlice")
              eq_refl eq_refl eq_refl eq_refl ltac:(vm_compute; discriminate))
    as [Hfetched _].
  destruct Hfetched as (Hget & _ & Hsize); [vm_compute; discriminate|].
  split; [exact Hget|]. fold w' in Hsize. rewrite Hsize. reflexivity.
Defined.

(** [announce_file] for an identifier the catalog does not hold throws
    before anything is published; for one it holds, it publishes the
    identifier on the file topic and changes nothing in the state. *)
Theorem announce_file_checks_the_catalog `{Framing} (env : Env) (w : World)
    (node : Libp2p) (fileId : string) :
  libp2pNode (state (sm w)) = Some node →
  (getSharedFile fileId (sm w) = None →
   handleFileSharing env (announce_file fileId) w
   = (Throw (Error ("Failed to announce file: Error: File not found: "
                    +:+ fileId)), w)) ∧
  (∀ file recipients,
     getSharedFile fileId (sm w) = Some file →
     pubsub_publish env (tick w) CHAT_FILE_TOPIC (TextEncoder_encode fileId)
     = Ok recipients →
     handleFileSharing env (announce_file fileId) w
     = (Ok (FileAnnounced fileId recipients (len recipients)
              (Date_now env (S (tick w)))),
        mkWorld (sm w) (S (S (tick w)))
          (netlog w ++ [call_publish CHAT_FILE_TOPIC
                          (TextEncoder_encode fileId)]))).
Proof.
  intros Hnode. split.
  - intros Hfile. unfold handleFileSharing. run.
    now rewrite Hnode, Hfile.
  - intros file recipients Hfile Hpublish. unfold handleFileSharing. run.
    now rewrite Hnode, Hfile, Hpublish.
Qed.

Lemma announce_file_checks_the_catalog_witness :
  handleFileSharing (H:=varint_framing) Fixtures.quiet_env
    (announce_file "uuid-9") Fixtures.running_world
  = (Throw (Error "Failed to announce file: Error: File not found: uuid-9"),
     Fixtures.running_world).
Proof.
  destruct (announce_file_checks_the_catalog (H:=varint_framing)
              Fixtures.quiet_env Fixtures.running_world Fixtures.alice
              "uuid-9" eq_refl) as [Hmissing _].
  apply Hmissing. reflexivity.
Defined.

(** *** Monitoring ([tools/monitoring.ts]) *)

(** [get_peer_store_info] returns the first peers of the store, at most
    [limit] of them (none for a limit that is not positive), and their
    number; [hasMore] says that this number is the limit, so it is set also
    when the store holds exactly [limit] peers and all were returned. *)
Theorem peer_store_info_respects_the_limit (env : Env) (w : World)
    (node : Libp2p) (limit : option Z) (stored : list StoredPeer) :
  libp2pNode (state (sm w)) = Some node →
  peerStore_all env (tick w) = Ok stored →
  let bound := default 50 limit in
  ∃ peers hasMore w',
    handleMonitoring env (get_peer_store_info limit) w
    = (Ok (PeerStoreInfo peers (len peers) hasMore), w') ∧
    peers = take (Z.to_nat bound) stored ∧
    len peers = Z.min (Z.max bound 0) (len stored) ∧
    (hasMore = true ↔ len peers = bound) ∧
    (len stored = bound → peers = stored ∧ hasMore = true).
Proof.
  intros Hnode Hstore bound.
  unfold handleMonitoring. run. rewrite Hnode, Hstore. fold bound.
  eexists. eexists. eexists. split; [reflexivity|].
  assert (Hlen : len (take (Z.to_nat bound) stored)
                 = Z.min (Z.max bound 0) (len stored))
    by (unfold len; rewrite length_take; lia).
  split_and!; [reflexivity|exact Hlen|apply Z.eqb_eq|].
  intros Hexact. split.
  - apply firstn_all2. unfold len in Hexact. lia.
  - apply Z.eqb_eq. rewrite Hlen. lia.
Qed.

Lemma peer_store_info_respects_the_limit_witness :
  let p := mkStoredPeer "12D3KooWBob" [] [] [] in
  let env :=
    Samples.with_peerStore_all (fun _ => Ok [p; p]) Fixtures.quiet_env in
  (handleMonitoring env (get_peer_store_info (Some 2))
     Fixtures.running_world).1
  = Ok (PeerStoreInfo [p; p] 2 true).
Proof.
  intros p env.
  destruct (peer_store_info_respects_the_limit env Fixtures.running_world
              Fixtures.alice (Some 2) [p; p] eq_refl eq_refl)
    as (peers & hasMore & w' & Hrun & _ & _ & _ & Hexact).
  destruct (Hexact eq_refl) as [-> ->]. now rewrite Hrun.
Defined.







(** *** Resources ([src/resources.ts]) *)

Lemma resource_peers_run (env : Env) (connections : list Connection) : ∀ w,
  ∃ peers,
    resource_peers env connections w
    = (Ok peers,
       mkWorld (sm w) (tick w + length connections)%nat (netlog w)) ∧
    length peers = length connections.
Proof.
  induction connections as [|conn rest IH]; intros w; cbn [resource_peers].
  - exists []. destruct w. cbn. now rewrite Nat.add_0_r.
  - run.
    destruct (IH (mkWorld (sm w) (S (tick w)) (netlog w))) as (peers & -> & Hlen).
    eexists. split.
    + cbn. now rewrite Nat.add_succ_r.
    + cbn. now rewrite Hlen.
Qed.

Lemma strip_prefix_app (prefix rest : string) :
  strip_prefix prefix (prefix +:+ rest) = Some rest.
Proof.
  induction prefix as [|c prefix IH]; [reflexivity|].
  change (strip_prefix (String c prefix) (String c prefix +:+ rest))
    with (if Ascii.eqb c c then strip_prefix prefix (prefix +:+ rest)
          else None).
  now rewrite Ascii.eqb_refl.
Qed.

(** Reading a resource never changes the state manager, whatever the
    identifier asked for and whatever the collaborators answer. *)
Theorem resource_reads_keep_the_state (env : Env) (uri : string)
    (w : World) :
  sm (handleResourceRead env uri w).2 = sm w.
Proof.
  unfold handleResourceRead. run.
  repeat match goal with
         | |- context [if String.eqb uri ?s then _ else _] =>
             destruct (String.eqb uri s)
         end;
    try (destruct (libp2pNode (state (sm w))); cbn [fst snd sm tick netlog];
         try reflexivity).
  - destruct (resource_peers_run env
                (libp2p_getConnections env (tick w) None)
                (mkWorld (sm w) (S (tick w))
                   (netlog w ++ [call_getConnections None])))
      as (peers & -> & _).
    reflexivity.
  - destruct (0 <? startTime (sm w)); reflexivity.
  - destruct (0 <? startTime (sm w)); reflexivity.
  - destruct (registrar_topologies env _); reflexivity.
  - destruct (strip_prefix "messages://topic/" uri); [reflexivity|].
    destruct (strip_prefix "messages://peer/" uri); reflexivity.
  - destruct (strip_prefix "messages://topic/" uri); [reflexivity|].
    destruct (strip_prefix "messages://peer/" uri); reflexivity.
Qed.

(** The resource of a topic returns the whole history of that topic,
    whether or not a node exists and whatever the name, the empty one
    included. The resource of a peer returns what [getDirectMessages] gives
    for the name and its [length]: the whole history stored under the name
    and the number of its messages; for a name under which nothing is
    stored, the empty history and [0], unless it is the name of a member of
    [Object.prototype], for which it is this member and the [length] the
    member has. An identifier that is none of the listed ones and has
    neither prefix throws "Unknown resource URI". *)
Theorem message_resources_return_whole_histories (env : Env) (w : World)
    (name : string) :
  handleResourceRead env ("messages://topic/" +:+ name) w
  = (Ok (TopicMessages name (getMessages name (sm w))
           (len (getMessages name (sm w))) (Date_now env (tick w))),
     mkWorld (sm w) (S (tick w)) (netlog w)) ∧
  (∀ stored,
     directMessages (state (sm w)) !! name = Some stored →
     handleResourceRead env ("messages://peer/" +:+ name) w
     = (Ok (PeerMessages name (Messages stored) (Some (len stored))
              (Date_now env (tick w))),
        mkWorld (sm w) (S (tick w)) (netlog w))) ∧
  (directMessages (state (sm w)) !! name = None →
   handleResourceRead env ("messages://peer/" +:+ name) w
   = (Ok (if inherited name
          then PeerMessages name (Inherited name)
                 (history_length (Inherited name)) (Date_now env (tick w))
          else PeerMessages name (Messages []) (Some 0)
                 (Date_now env (tick w))),
      mkWorld (sm w) (S (tick w)) (netlog w))) ∧
  (name ∉ listed_resources →
   strip_prefix "messages://topic/" name = None →
   strip_prefix "messages://peer/" name = None →
   handleResourceRead env name w
   = (Throw (Error ("Unknown resource URI: " +:+ name)), w)).
Proof.
  assert (Hpeer :
    handleResourceRead env ("messages://peer/" +:+ name) w
    = (Ok (PeerMessages name (getDirectMessages name (sm w))
             (history_length (getDirectMessages name (sm w)))
             (Date_now env (tick w))),
       mkWorld (sm w) (S (tick w)) (netlog w)))
    by (unfold handleResourceRead; run; now rewrite strip_prefix_app).
  split_and!.
  - unfold handleResourceRead. run.
    now rewrite strip_prefix_app.
  - intros stored Hstored. rewrite Hpeer. unfold getDirectMessages.
    now rewrite Hstored.
  - intros Hnone. rewrite Hpeer. unfold getDirectMessages.
    rewrite Hnone. now destruct (inherited name).
  - clear Hpeer. intros Hlisted Htopic Hpeer. unfold handleResourceRead. run.
    unfold listed_resources in Hlisted.
    repeat match goal with
           | |- context [if String.eqb name ?s then _ else _] =>
               destruct (String.eqb_spec name s) as [->|?];
                 [exfalso; apply Hlisted; set_solver|]
           end.
    now rewrite Htopic, Hpeer.
Qed.

(** Without a node, the views of the connections, of the peers and of the
    node answer with their empty form instead of failing, and leave the
    world as it was: unlike the tools, the resources do not require a
    node. *)
Theorem resources_answer_without_a_node (env : Env) (w : World) :
  libp2pNode (state (sm w)) = None →
  handleResourceRead env "connections://active" w = (Ok NoConnections, w) ∧
  handleResourceRead env "peers://discovered" w = (Ok NoPeers, w) ∧
  handleResourceRead env "node://info" w = (Ok NoNodeInfo, w) ∧
  ∃ timestamp w',
    handleResourceRead env "files://shared" w
    = (Ok (FilesContent
             (map (fun file =>
                     mkFileEntry (file_id file) (sender file)
                       (len (body file)) false)
                (JsMap.values (sharedFiles (state (sm w)))))
             (JsMap.size (sharedFiles (state (sm w)))) timestamp), w') ∧
    netlog w' = netlog w.
Proof.
  intros Hnode. unfold handleResourceRead. run. cbn. rewrite Hnode.
  split_and!; try reflexivity.
  eexists. eexists. split.
  - unfold len, JsMap.size, JsMap.values. rewrite !length_map. reflexivity.
  - reflexivity.
Qed.

Lemma resources_answer_without_a_node_witness :
  handleResourceRead Fixtures.quiet_env "node://info" Fixtures.fresh_world
  = (Ok NoNodeInfo, Fixtures.fresh_world).
Proof.
  destruct (resources_answer_without_a_node Fixtures.quiet_env
              Fixtures.fresh_world eq_refl) as (_ & _ & Hinfo & _).
  exact Hinfo.
Defined.

Lemma resource_reads_keep_the_state_witness :
  sm (handleResourceRead Fixtures.quiet_env "peers://discovered"
        Fixtures.empty_topic_world).2
  = sm Fixtures.empty_topic_world.
Proof. apply resource_reads_keep_the_state. Defined.

Lemma message_resources_return_whole_histories_witness :
  handleResourceRead Fixtures.quiet_env "messages://topic/"
    Fixtures.empty_topic_world
  = (Ok (TopicMessages ""
           [mkChatMessage "uuid-1" "hello" "12D3KooWAlice" true 7] 1 9),
     mkWorld (sm Fixtures.empty_topic_world) 10
       (netlog Fixtures.empty_topic_world)) ∧
  handleResourceRead Fixtures.quiet_env "messages://peer/constructor"
    Fixtures.fresh_world
  = (Ok (PeerMessages "constructor" (Inherited "constructor") (Some 1) 0),
     mkWorld newStateManager 1 []) ∧
  handleResourceRead Fixtures.quiet_env "messages://peer/12D3KooWBob"
    Fixtures.fresh_world
  = (Ok (PeerMessages "12D3KooWBob" (Messages []) (Some 0) 0),
     mkWorld newStateManager 1 []).
Proof.
  destruct (message_resources_return_whole_histories Fixtures.quiet_env
              Fixtures.empty_topic_world "") as [Htopic _].
  destruct (message_resources_return_whole_histories Fixtures.quiet_env
              Fixtures.fresh_world "constructor") as (_ & _ & Hmember & _).
  destruct (message_resources_return_whole_histories Fixtures.quiet_env
              Fixtures.fresh_world "12D3KooWBob") as (_ & _ & Hpeer & _).
  split_and!; [exact Htopic|apply Hmember|apply Hpeer]; reflexivity.
Defined.

(** *** The node configuration and discovery ([src/lib/libp2p.ts]) *)

Lemma includes_elem (l : list string) (x : string) :
  includes l x = true ↔ x ∈ l.
Proof. apply existsb_eqb_elem. Qed.

Lemma includes_ext (l1 l2 : list string) (x : string) :
  (x ∈ l1 ↔ x ∈ l2) → includes l1 x = includes l2 x.
Proof.
  intros Hiff. apply eq_true_iff_eq. now rewrite !includes_elem.
Qed.

(** The transports of the node depend only on which of the names
    ["webtransport"], ["websockets"] and ["webrtc"] are requested, not on
    their order, their repetition or on other names: each of the three
    transports is enabled exactly when its name is requested, WebRTC-direct
    exactly when WebRTC is, and the relay transport, whatever is requested,
    exactly when [enableRelay] is not [false]. An empty list of transports
    leaves the relay alone, a missing one enables all. *)
Theorem transports_depend_on_the_names_requested
    (requested requested' : list string) (relay : option bool)
    (b b' l l' : option (list string)) :
  (∀ name, name ∈ ["webtransport"; "websockets"; "webrtc"] →
     (name ∈ requested ↔ name ∈ requested')) →
  let enabled := enabled_transports (mkNodeConfig (Some requested) relay b l) in
  enabled = enabled_transports (mkNodeConfig (Some requested') relay b' l') ∧
  enabled_transports (mkNodeConfig (Some []) None b l)
  = [circuitRelayTransport] ∧
  enabled_transports (mkNodeConfig (Some []) (Some false) b l) = [] ∧
  enabled_transports (mkNodeConfig None relay b l)
  = [webTransport; webSockets; webRTC; webRTCDirect]
    ++ (if decide (relay = Some false) then [] else [circuitRelayTransport]) ∧
  (webTransport ∈ enabled ↔ "webtransport" ∈ requested) ∧
  (webSockets ∈ enabled ↔ "websockets" ∈ requested) ∧
  (webRTC ∈ enabled ↔ "webrtc" ∈ requested) ∧
  (webRTCDirect ∈ enabled ↔ webRTC ∈ enabled) ∧
  (circuitRelayTransport ∈ enabled ↔ relay ≠ Some false) ∧
  NoDup enabled.
Proof.
  intros Hsame enabled. subst enabled. split_and!.
  - unfold enabled_transports. cbn [transports enableRelay default id].
    rewrite (includes_ext requested requested' "webtransport"),
      (includes_ext requested requested' "websockets"),
      (includes_ext requested requested' "webrtc");
      [reflexivity|..]; apply Hsame, list_elem_of_In; cbn; auto.
  - reflexivity.
  - reflexivity.
  - destruct relay as [[|]|]; reflexivity.
  - rewrite <- includes_elem.
    unfold enabled_transports. cbn [transports enableRelay default id].
    destruct (includes requested "webtransport"),
      (includes requested "websockets"), (includes requested "webrtc"),
      relay as [[|]|]; cbn [app];
      split; intros Hin; try apply list_elem_of_In in Hin;
      try apply list_elem_of_In; cbn in Hin |- *;
      intuition (discriminate || auto).
  - rewrite <- includes_elem.
    unfold enabled_transports. cbn [transports enableRelay default id].
    destruct (includes requested "webtransport"),
      (includes requested "websockets"), (includes requested "webrtc"),
      relay as [[|]|]; cbn [app];
      split; intros Hin; try apply list_elem_of_In in Hin;
      try apply list_elem_of_In; cbn in Hin |- *;
      intuition (discriminate || auto).
  - rewrite <- includes_elem.
    unfold enabled_transports. cbn [transports enableRelay default id].
    destruct (includes requested "webtransport"),
      (includes requested "websockets"), (includes requested "webrtc"),
      relay as [[|]|]; cbn [app];
      split; intros Hin; try apply list_elem_of_In in Hin;
      try apply list_elem_of_In; cbn in Hin |- *;
      intuition (discriminate || auto).
  - unfold enabled_transports. cbn [transports enableRelay default id].
    destruct (includes requested "webtransport"),
      (includes requested "websockets"), (includes requested "webrtc"),
      relay as [[|]|]; cbn [app];
      split; intros Hin; apply list_elem_of_In in Hin;
      apply list_elem_of_In; cbn in Hin |- *;
      intuition (discriminate || auto).
  - unfold enabled_transports. cbn [transports enableRelay default id].
    destruct (includes requested "webtransport"),
      (includes requested "websockets"), (includes requested "webrtc"),
      relay as [[|]|]; cbn [app];
      split; intros Hin; try apply list_elem_of_In in Hin;
      try apply list_elem_of_In; cbn in Hin |- *;
      intuition (discriminate || congruence || auto).
  - unfold enabled_transports. cbn [transports enableRelay default id].
    destruct (includes requested "webtransport"),
      (includes requested "websockets"), (includes requested "webrtc"),
      relay as [[|]|]; cbn [app];
      apply NoDup_ListNoDup; repeat constructor; cbn;
      intuition discriminate.
Qed.

Lemma transports_depend_on_the_names_requested_witness :
  enabled_transports
    (mkNodeConfig (Some ["webrtc"; "tcp"; "websockets"; "webrtc"])
       (Some true) None None)
  = enabled_transports
      (mkNodeConfig (Some ["websockets"; "webrtc"]) (Some true) None None) ∧
  circuitRelayTransport
  ∈ enabled_transports
      (mkNodeConfig (Some ["webrtc"; "tcp"; "websockets"; "webrtc"])
         (Some true) None None).
Proof.
  assert (Hsame : ∀ name,
            name ∈ ["webtransport"; "websockets"; "webrtc"] →
            (name ∈ ["webrtc"; "tcp"; "websockets"; "webrtc"]
             ↔ name ∈ ["websockets"; "webrtc"])).
  { intros name Hname. apply list_elem_of_In in Hname. cbn in Hname.
    destruct Hname as [<-|[<-|[<-|[]]]];
      split; intros Hin; apply list_elem_of_In in Hin;
      apply list_elem_of_In; cbn in Hin |- *;
      intuition (discriminate || auto). }
  destruct (transports_depend_on_the_names_requested
              ["webrtc"; "tcp"; "websockets"; "webrtc"]
              ["websockets"; "webrtc"] (Some true) None None None None
              Hsame) as (Hequal & _ & _ & _ & _ & _ & _ & _ & Hrelay & _).
  split; [exact Hequal|]. apply Hrelay. discriminate.
Defined.

Lemma bootstrap_step_throw ID addrs e :
  fold_left (bootstrap_step ID) addrs (Throw e) = Throw e.
Proof. induction addrs as [|maddr addrs IH]; [done|apply IH]. Qed.

Lemma bootstrap_step_cases ID b0 r0 maddr :
  (is_bootstrap_address (ID, maddr) = true ∧
   bootstrap_step ID (Ok (b0, r0)) maddr
   = Ok (b0 ++ [ma_toString maddr], r0 ++ [getRelayListenAddr maddr ID])) ∨
  (is_bootstrap_address (ID, maddr) = false ∧
   (bootstrap_step ID (Ok (b0, r0)) maddr = Ok (b0, r0) ∨
    ∃ e, bootstrap_step ID (Ok (b0, r0)) maddr = Throw e)).
Proof.
  unfold is_bootstrap_address, bootstrap_step. cbn [fst snd].
  destruct (is_browser_dialable maddr); cbn [andb]; [|right; auto].
  destruct (ma_nodeAddress maddr) as [address|e]; [|right; eauto].
  destruct (String.eqb address "127.0.0.1"); cbn [negb]; [right|left]; auto.
Qed.

Lemma bootstrap_steps ID addrs : ∀ b0 r0 b r,
  fold_left (bootstrap_step ID) addrs (Ok (b0, r0)) = Ok (b, r) →
  b = b0 ++ map (fun entry => ma_toString entry.2)
              (List.filter is_bootstrap_address
                 (map (fun maddr => (ID, maddr)) addrs)) ∧
  r = r0 ++ map (fun entry => getRelayListenAddr entry.2 entry.1)
              (List.filter is_bootstrap_address
                 (map (fun maddr => (ID, maddr)) addrs)).
Proof.
  induction addrs as [|maddr addrs IH]; intros b0 r0 b r;
    cbn [fold_left map List.filter].
  - intros [= <- <-]. cbn. now rewrite !app_nil_r.
  - destruct (bootstrap_step_cases ID b0 r0 maddr)
      as [[-> ->]|[-> [->|[e ->]]]].
    + intros Hrest. apply IH in Hrest as [-> ->].
      cbn. now rewrite <- !app_assoc.
    + apply IH.
    + now rewrite bootstrap_step_throw.
Qed.

Lemma bootstrap_peers_throw peers e :
  fold_left
    (fun acc p =>
       match p with
       | Some p => fold_left (bootstrap_step (rp_ID p)) (rp_Addrs p) acc
       | None => acc
       end) peers (Throw e) = Throw e.
Proof.
  induction peers as [|[p|] peers IH]; cbn [fold_left]; [done| |apply IH].
  now rewrite bootstrap_step_throw.
Qed.

Lemma bootstrap_peers peers : ∀ b0 r0 b r,
  fold_left
    (fun acc p =>
       match p with
       | Some p => fold_left (bootstrap_step (rp_ID p)) (rp_Addrs p) acc
       | None => acc
       end) peers (Ok (b0, r0)) = Ok (b, r) →
  b = b0 ++ map (fun entry => ma_toString entry.2)
              (List.filter is_bootstrap_address (routed_addresses peers)) ∧
  r = r0 ++ map (fun entry => getRelayListenAddr entry.2 entry.1)
              (List.filter is_bootstrap_address (routed_addresses peers)).
Proof.
  induction peers as [|[p|] peers IH]; intros b0 r0 b r;
    unfold routed_addresses; cbn [fold_left map concat];
    try fold (routed_addresses peers).
  - intros [= <- <-]. cbn. now rewrite !app_nil_r.
  - destruct (fold_left (bootstrap_step (rp_ID p)) (rp_Addrs p) (Ok (b0, r0)))
      as [[b1 r1]|e] eqn:Hp.
    + intros Hrest. apply bootstrap_steps in Hp as [-> ->].
      apply IH in Hrest as [-> ->].
      now rewrite List.filter_app, !map_app, !app_assoc.
    + now rewrite bootstrap_peers_throw.
  - apply IH.
Qed.

(** When [getBootstrapMultiaddrs] returns, its bootstrap addresses are the
    addresses answered by the routing client that a browser can dial
    (WebTransport or WebRTC-direct, with a certificate hash) and that are
    not the loopback address, in the order of the answers; and its relay
    listen addresses are, one for one, these addresses followed by the
    identifier of their peer and [/p2p-circuit]. *)
Theorem bootstrap_addresses_are_the_dialable_ones
    (peers : list (option RoutingPeer)) (b r : list string) :
  getBootstrapMultiaddrs peers = Ok (b, r) →
  let selected :=
    List.filter is_bootstrap_address (routed_addresses peers) in
  b = map (fun entry => ma_toString entry.2) selected ∧
  r = map (fun entry =>
             ma_toString entry.2 +:+ "/p2p/" +:+ entry.1 +:+ "/p2p-circuit")
        selected ∧
  length b = length r.
Proof.
  intros Hrun selected. apply bootstrap_peers in Hrun as [-> ->].
  cbn [app]. split_and!; [reflexivity..|]. now rewrite !length_map.
Qed.

Lemma bootstrap_addresses_are_the_dialable_ones_witness :
  let wt :=
    mkMultiaddr "/ip4/147.28.186.157/udp/9095/quic-v1/webtransport/certhash/u"
      ["ip4"; "udp"; "quic-v1"; "webtransport"; "certhash"]
      (Ok "147.28.186.157") in
  let local :=
    mkMultiaddr "/ip4/127.0.0.1/udp/9095/quic-v1/webtransport/certhash/u"
      ["ip4"; "udp"; "quic-v1"; "webtransport"; "certhash"]
      (Ok "127.0.0.1") in
  let tcp :=
    mkMultiaddr "/ip4/147.28.186.157/tcp/9095" ["ip4"; "tcp"]
      (Ok "147.28.186.157") in
  getBootstrapMultiaddrs
    [None; Some (mkRoutingPeer "12D3KooWRelay" [tcp; local; wt])]
  = Ok (["/ip4/147.28.186.157/udp/9095/quic-v1/webtransport/certhash/u"],
        ["/ip4/147.28.186.157/udp/9095/quic-v1/webtransport/certhash/u/p2p/12D3KooWRelay/p2p-circuit"]).
Proof.
  intros wt local tcp.
  destruct (getBootstrapMultiaddrs
              [None; Some (mkRoutingPeer "12D3KooWRelay" [tcp; local; wt])])
    as [[b r]|e] eqn:Hrun; [|discriminate Hrun].
  destruct (bootstrap_addresses_are_the_dialable_ones _ b r Hrun)
    as (-> & -> & _).
  reflexivity.
Defined.

Lemma dial_first_run (env : Env) (addrs : list Multiaddr) : ∀ w,
  ∃ n,
    (n ≤ length addrs)%nat ∧
    dial_first env addrs w
    = (Ok tt,
       mkWorld (sm w) (tick w + n)%nat
         (netlog w
          ++ map (fun addr => call_dial (ma_toString addr)) (take n addrs))) ∧
    ((n < length addrs)%nat →
     ∃ addr connection,
       addrs !! (n - 1)%nat = Some addr ∧ (0 < n)%nat ∧
       libp2p_dial env (tick w + (n - 1))%nat (ma_toString addr)
       = Ok connection).
Proof.
  induction addrs as [|addr rest IH]; intros w.
  - exists 0%nat. split_and!; [done| |cbn; lia].
    destruct w. cbn. now rewrite Nat.add_0_r, app_nil_r.
  - cbn [dial_first]. run.
    destruct (libp2p_dial env (tick w) (ma_toString addr))
      as [connection|e] eqn:Hdial; cbn [fst snd sm tick netlog].
    + exists 1%nat. split_and!; [cbn; lia| |].
      * cbn. now rewrite take_0, Nat.add_1_r.
      * intros _. exists addr, connection.
        split_and!; [reflexivity|lia|].
        cbn. rewrite Nat.add_0_r. exact Hdial.
    + destruct (IH (mkWorld (sm w) (S (tick w))
                      (netlog w ++ [call_dial (ma_toString addr)])))
        as (n & Hn & -> & Hstop).
      exists (S n). split_and!; [cbn; lia| |].
      * cbn. now rewrite <- app_assoc, Nat.add_succ_r.
      * intros Hless. destruct Hstop as (a & c & Ha & Hpos & Hok);
          [cbn in Hless; lia|].
        exists a, c. cbn [tick] in Hok. split_and!; [|lia|].
        -- destruct n; [lia|].
           replace (S (S n) - 1)%nat with (S (S n - 1))%nat by lia.
           exact Ha.
        -- replace (tick w + (S n - 1))%nat with (S (tick w) + (n - 1))%nat
             by lia. exact Hok.
Qed.

(** The discovery listener never throws and never changes the state
    manager. For a peer the node is already connected to it dials nothing;
    otherwise it dials addresses that carry the [webrtc] protocol only, in
    the order of the event, one after the other, and stops before the end
    only after a dial that succeeded. *)
Theorem discovery_dials_are_best_effort (env : Env) (w : World)
    (id : string) (multiaddrs : list Multiaddr) :
  let candidates :=
    List.filter (fun maddr => includes (ma_protoNames maddr) "webrtc")
      multiaddrs in
  (libp2p_getConnections env (tick w) (Some id) ≠ [] →
   on_peer_discovery env id multiaddrs w
   = (Ok tt,
      mkWorld (sm w) (S (tick w))
        (netlog w ++ [call_getConnections (Some id)]))) ∧
  ∃ n w',
    on_peer_discovery env id multiaddrs w = (Ok tt, w') ∧
    sm w' = sm w ∧
    (n ≤ length candidates)%nat ∧
    netlog w'
    = netlog w ++ call_getConnections (Some id)
        :: map (fun addr => call_dial (ma_toString addr)) (take n candidates) ∧
    (libp2p_getConnections env (tick w) (Some id) = [] →
     (n < length candidates)%nat →
     ∃ addr connection,
       candidates !! (n - 1)%nat = Some addr ∧
       libp2p_dial env (S (tick w) + (n - 1))%nat (ma_toString addr)
       = Ok connection).
Proof.
  intros candidates. unfold on_peer_discovery. run.
  destruct (libp2p_getConnections env (tick w) (Some id)) as [|c cs] eqn:Hconn.
  - split; [done|]. unfold len.
    change (0 <? Z.of_nat (length (@nil Connection))) with false.
    cbv iota. unfold dialWebRTCMaddrs. fold candidates.
    destruct (dial_first_run env candidates
                (mkWorld (sm w) (S (tick w))
                   (netlog w ++ [call_getConnections (Some id)])))
      as (n & Hn & -> & Hstop).
    exists n. eexists. split_and!; [reflexivity|reflexivity|exact Hn| |].
    + cbn. now rewrite <- app_assoc.
    + intros _ Hless. destruct (Hstop Hless) as (a & cn & Ha & _ & Hok).
      exists a, cn. split; [exact Ha|exact Hok].
  - assert (Hpos : (0 <? len (c :: cs)) = true)
      by (apply Z.ltb_lt; unfold len; cbn; lia).
    rewrite Hpos. split; [reflexivity|].
    exists 0%nat. eexists. split_and!; [reflexivity|reflexivity|lia|done|done].
Qed.

Lemma discovery_dials_are_best_effort_witness :
  let env :=
    Samples.with_libp2p_getConnections
      (fun _ _ => [Samples.conn "c1" "12D3KooWBob" "/ip4/10.0.0.2" []])
      Fixtures.quiet_env in
  on_peer_discovery env "12D3KooWBob"
    [mkMultiaddr "/ip4/10.0.0.2/udp/1/webrtc" ["ip4"; "udp"; "webrtc"]
       (Ok "10.0.0.2")]
    Fixtures.running_world
  = (Ok tt,
     mkWorld (sm Fixtures.running_world) 6
       (netlog Fixtures.running_world
        ++ [call_getConnections (Some "12D3KooWBob")])).
Proof.
  intros env.
  destruct (discovery_dials_are_best_effort env Fixtures.running_world
              "12D3KooWBob"
              [mkMultiaddr "/ip4/10.0.0.2/udp/1/webrtc"
                 ["ip4"; "udp"; "webrtc"] (Ok "10.0.0.2")]) as [Hconnected _].
  apply Hconnected. discriminate.
Defined.

(** *** The routing of the tools ([src/index.ts]) *)

(** Every command is routed, by the name of its [case], to the handler that
    has this case, and this name is one of the tools listed; a name that is
    not listed is routed nowhere and answered with "Unknown tool". *)
Theorem every_listed_tool_is_routed (cmd : Command) (name : string) :
  route (tool_name cmd) = Some (tool_group cmd) ∧
  tool_name cmd ∈ listed_tools ∧
  (name ∉ listed_tools → route name = None) ∧
  (name ∈ listed_tools → ∃ group, route name = Some group).
Proof.
  split_and!.
  - destruct cmd as [[]|[]|[]|[]|[]]; reflexivity.
  - apply list_elem_of_In.
    destruct cmd as [[]|[]|[]|[]|[]]; cbn; tauto.
  - intros Hname. unfold route.
    repeat match goal with
           | |- context [if includes ?l name then _ else _] =>
               let Hin := fresh "Hin" in
               destruct (includes l name) eqn:Hin;
                 [exfalso; apply Hname; apply includes_elem in Hin;
                  apply list_elem_of_In in Hin; apply list_elem_of_In;
                  cbn in Hin |- *; tauto|clear Hin]
           end.
    reflexivity.
  - intros Hname. apply list_elem_of_In in Hname. cbn in Hname.
    repeat (destruct Hname as [<-|Hname]; [eexists; reflexivity|]).
    destruct Hname.
Qed.

Lemma every_listed_tool_is_routed_witness :
  route "request_file" = Some file_sharing ∧
  route "delete_file" = None.
Proof.
  destruct (every_listed_tool_is_routed
              (FileSharing (request_file "12D3KooWBob" "f")) "delete_file")
    as (Hrouted & _ & Hunknown & _).
  split; [exact Hrouted|]. apply Hunknown.
  intros Hin. apply list_elem_of_In in Hin. cbn in Hin.
  intuition discriminate.
Defined.
